(** * JSON log analyzer: a shallow embedding of [JsonLogAnalyzer]

    The development follows [src/json_logs_mcp_server.py].  Python values are
    dynamically typed, so a JSON value is a term of [pyval]; an exception is
    a value of [exn] carried by [result]; the analyzer object is a record
    threaded through every method; the directory on disk is a read-only
    [filesystem].  Functions of the Python standard library whose behaviour
    is not decided by this repository ([json.loads],
    [datetime.fromisoformat], [datetime.isoformat], ...) are the fields of
    the class [PyLib]; every general theorem holds for all of its instances,
    and [RefLib] is a concrete instance on which examples are evaluated. *)

From Stdlib Require Import List String Ascii ZArith Lia Bool Permutation Sorted.
Import ListNotations.

Set Warnings "-register-all".

Local Open Scope Z_scope.
Local Open Scope string_scope.
Local Open Scope list_scope.

(** ** Exceptions *)

Inductive exn : Type :=
| JSONDecodeError
| ValueError
| KeyError
| TypeError
| AttributeError
| RecursionError
| FileNotFoundError (name : string)
| RuntimeError (name : string).

Inductive result (A : Type) : Type :=
| Ok (a : A)
| Raise (e : exn).

Arguments Ok {A} a.
Arguments Raise {A} e.

Definition rbind {A B : Type} (c : result A) (k : A -> result B) : result B :=
  match c with
  | Ok a => k a
  | Raise e => Raise e
  end.

Notation "x <- c ;; k" := (rbind c (fun x => k))
  (at level 61, c at next level, right associativity).

Definition is_ok {A : Type} (r : result A) : bool :=
  match r with Ok _ => true | Raise _ => false end.

(** ** Python [str] methods (on byte strings; letters are the ASCII ones) *)

Definition is_space (c : ascii) : bool :=
  let n := nat_of_ascii c in
  (Nat.eqb n 32 || (Nat.leb 9 n && Nat.leb n 13) || (Nat.leb 28 n && Nat.leb n 31))%bool.

Fixpoint lstrip (s : string) : string :=
  match s with
  | EmptyString => EmptyString
  | String c rest => if is_space c then lstrip rest else s
  end.

Fixpoint rstrip (s : string) : string :=
  match s with
  | EmptyString => EmptyString
  | String c rest =>
      match rstrip rest with
      | EmptyString => if is_space c then EmptyString else String c EmptyString
      | r => String c r
      end
  end.

Definition strip (s : string) : string := rstrip (lstrip s).

Definition upper_ascii (c : ascii) : ascii :=
  let n := nat_of_ascii c in
  if (Nat.leb 97 n && Nat.leb n 122)%bool then ascii_of_nat (n - 32) else c.

Definition lower_ascii (c : ascii) : ascii :=
  let n := nat_of_ascii c in
  if (Nat.leb 65 n && Nat.leb n 90)%bool then ascii_of_nat (n + 32) else c.

Fixpoint str_map (f : ascii -> ascii) (s : string) : string :=
  match s with
  | EmptyString => EmptyString
  | String c rest => String (f c) (str_map f rest)
  end.

Definition upper : string -> string := str_map upper_ascii.
Definition lower : string -> string := str_map lower_ascii.

(** [needle in haystack] for two strings. *)
Fixpoint str_contains (needle haystack : string) : bool :=
  (String.prefix needle haystack ||
   match haystack with
   | EmptyString => false
   | String _ rest => str_contains needle rest
   end)%bool.

(** Truth value of an optional string argument: [None] and the empty string are false. *)
Definition truthy_str (o : option string) : bool :=
  match o with
  | Some (String _ _) => true
  | _ => false
  end.

(** ** [datetime]

    [dt_local] is the wall-clock reading in microseconds since
    0001-01-01T00:00:00; [dt_offset] is the UTC offset in microseconds of an
    aware value and [None] for a naive one. *)

Record datetime : Type := mkDatetime {
  dt_local : Z;
  dt_offset : option Z
}.

Definition datetime_min : datetime := mkDatetime 0 None.
Definition datetime_max : datetime := mkDatetime 315537897599999999 None.

Definition dt_instant (d : datetime) : Z :=
  match dt_offset d with
  | None => dt_local d
  | Some off => dt_local d - off
  end.

Definition dt_aware (d : datetime) : bool :=
  match dt_offset d with Some _ => true | None => false end.

Definition dt_comparable (a b : datetime) : bool := Bool.eqb (dt_aware a) (dt_aware b).

(** [a < b] and [a > b] raise [TypeError] between a naive and an aware value. *)
Definition dt_lt (a b : datetime) : result bool :=
  if dt_comparable a b then Ok (Z.ltb (dt_instant a) (dt_instant b)) else Raise TypeError.

Definition dt_gt (a b : datetime) : result bool := dt_lt b a.

(** [a == b] never raises; a naive value never equals an aware one. *)
Definition dt_eqb (a b : datetime) : bool :=
  (dt_comparable a b && Z.eqb (dt_instant a) (dt_instant b))%bool.

(** ** Python values *)

Inductive pyval : Type :=
| PNone
| PBool (b : bool)
| PInt (z : Z)
| PFloat (m e : Z)          (* the decimal m * 10^e *)
| PStr (s : string)
| PList (l : list pyval)
| PDict (d : list (string * pyval))
| PDatetime (d : datetime).

(** Dictionaries keep insertion order: association lists without repeated
    keys, updated in place. *)

Fixpoint dict_get {V : Type} (k : string) (d : list (string * V)) : option V :=
  match d with
  | [] => None
  | (k', v) :: rest => if String.eqb k k' then Some v else dict_get k rest
  end.

Fixpoint dict_set {V : Type} (k : string) (v : V) (d : list (string * V)) : list (string * V) :=
  match d with
  | [] => [(k, v)]
  | (k', v') :: rest =>
      if String.eqb k k' then (k, v) :: rest else (k', v') :: dict_set k v rest
  end.

Definition dict_mem {V : Type} (k : string) (d : list (string * V)) : bool :=
  match dict_get k d with Some _ => true | None => false end.

(** ** The standard-library functions the analyzer calls *)

Class PyLib : Type := {
  (** [json.loads]; [None] stands for an exception: [RecursionError] on
      the inputs marked by [json_too_deep], [json.JSONDecodeError] on every
      other one. *)
  json_loads : string -> option pyval;
  (** The text nests arrays and objects more deeply than the interpreter's
      recursion limit lets [json.loads] follow. *)
  json_too_deep : string -> bool;
  (** [datetime.fromisoformat] on a string; [None] stands for [ValueError]. *)
  fromisoformat : string -> option datetime;
  (** [datetime.isoformat()] *)
  isoformat : datetime -> string;
  (** [datetime.strftime("%Y-%m-%d %H:00")] *)
  strftime_hour : datetime -> string;
  (** [datetime.fromtimestamp] of a file's [st_mtime] *)
  fromtimestamp : Z -> datetime;
  (** [sorted] on a list of values; raises [TypeError] on unorderable ones. *)
  py_sorted : list pyval -> result (list pyval);
  (** Direction in which binary floating point resolves [round(num/den, 2)]
      when [num/den] lies exactly half-way between two 2-digit decimals. *)
  round_tie_up : Z -> Z -> bool
}.

(** ** Log entries

    An entry is the decoded JSON object together with the derived
    ["parsed_timestamp"] slot, which is either absent or a [datetime]. *)

Record entry : Type := mkEntry {
  fields : list (string * pyval);
  parsed_timestamp : option datetime
}.

(** [entry.get(k)]; the slot stands for the key ["parsed_timestamp"], whose
    JSON value, if the line had one, the parser overwrites. *)
Definition entry_get (e : entry) (k : string) : option pyval :=
  if String.eqb k "parsed_timestamp"
  then option_map PDatetime (parsed_timestamp e)
  else dict_get k (fields e).

(** [entry.get(k, default)] *)
Definition entry_get_default (e : entry) (k : string) (dflt : pyval) : pyval :=
  match entry_get e k with Some v => v | None => dflt end.

Definition required_fields : list string :=
  ["timestamp"; "level"; "message"; "module"; "function"; "line"].

(** [field in v] for a string [field]. *)
Definition py_contains (field : string) (v : pyval) : result bool :=
  match v with
  | PDict d => Ok (dict_mem field d)
  | PList l =>
      Ok (existsb (fun x => match x with PStr s => String.eqb s field | _ => false end) l)
  | PStr s => Ok (str_contains field s)
  | _ => Raise TypeError
  end.

(** [all(field in v for field in fs)], left to right, stopping at the first
    false. *)
Fixpoint all_fields_in (fs : list string) (v : pyval) : result bool :=
  match fs with
  | [] => Ok true
  | f :: rest =>
      b <- py_contains f v ;;
      if b then all_fields_in rest v else Ok false
  end.

(** [v[k]] for a string [k]. *)
Definition py_getitem (v : pyval) (k : string) : result pyval :=
  match v with
  | PDict d => match dict_get k d with Some x => Ok x | None => Raise KeyError end
  | _ => Raise TypeError
  end.

Section Parser.
Context {L : PyLib}.

(** [datetime.fromisoformat(v)] *)
Definition py_fromisoformat (v : pyval) : result datetime :=
  match v with
  | PStr s => match fromisoformat s with Some d => Ok d | None => Raise ValueError end
  | _ => Raise TypeError
  end.

(** The body of the [try] block of [parse_log_entry]; [Ok None] is falling
    out of the [if]. *)
Definition parse_log_entry_try (line : string) : result (option entry) :=
  match json_loads (strip line) with
  | None =>
      Raise (if json_too_deep (strip line) then RecursionError else JSONDecodeError)
  | Some v =>
      b <- all_fields_in required_fields v ;;
      if b then
        ts <- py_getitem v "timestamp" ;;
        dt <- py_fromisoformat ts ;;
        match v with
        | PDict d => Ok (Some (mkEntry d (Some dt)))
        | _ => Raise TypeError
        end
      else Ok None
  end.

(** [except (json.JSONDecodeError, ValueError, KeyError): pass] *)
Definition parse_caught (e : exn) : bool :=
  match e with
  | JSONDecodeError | ValueError | KeyError => true
  | _ => false
  end.

Definition parse_log_entry (line : string) : result (option entry) :=
  match parse_log_entry_try line with
  | Ok r => Ok r
  | Raise e => if parse_caught e then Ok None else Raise e
  end.

End Parser.

(** ** [list.sort(key=..., reverse=True)]

    A stable sort into descending key order: [lt x y] reads "the key of [x]
    is smaller than the key of [y]"; elements with equal keys keep their
    original order. *)

Section SortDesc.
Context {A : Type} (lt : A -> A -> bool).

Fixpoint insert_desc (x : A) (l : list A) : list A :=
  match l with
  | [] => [x]
  | y :: l' => if lt x y then y :: insert_desc x l' else x :: l
  end.

Definition sort_desc (l : list A) : list A := fold_right insert_desc [] l.
End SortDesc.

(** ** The log directory on disk *)

Record node : Type := mkNode {
  n_name : string;
  n_is_file : bool;               (* [Path.is_file()] *)
  n_size : Z;                     (* [st_size] *)
  n_mtime : Z;                    (* [st_mtime] *)
  n_openable : bool;              (* [open] succeeds *)
  n_lines : list (option string)  (* what iterating the open file yields;
                                     [None] is an I/O or decoding error *)
}.

Record filesystem : Type := mkFs {
  fs_dir_exists : bool;           (* [log_directory.exists()] *)
  fs_nodes : list node            (* the directory's children, in glob order *)
}.

(** One value of [log_files_cache]. *)
Record file_info : Type := mkFileInfo {
  fi_path : string;
  fi_name : string;
  fi_size : Z;
  fi_modified : string
}.

(** The analyzer object.  [refresh_count] and [lines_examined] are ghost
    counters: how often [_refresh_log_files] ran and how many lines were
    handed to [parse_log_entry]. *)
Record analyzer : Type := mkAnalyzer {
  log_directory : string;
  log_files_cache : list (string * file_info);
  refresh_count : nat;
  lines_examined : nat
}.

Definition path_of (dir name : string) : string := dir ++ "/" ++ name.

(** [glob("*.log*")] on a child's name. *)
Definition glob_match (name : string) : bool := str_contains ".log" name.

Definition modified_lt (x y : file_info) : bool := String.ltb (fi_modified x) (fi_modified y).

Definition cache_of_list (log_files : list file_info) : list (string * file_info) :=
  fold_left (fun d f => dict_set (fi_name f) f d) log_files [].

(** [if max_lines and i >= max_lines] *)
Definition cap_reached (max_lines : option Z) (i : Z) : bool :=
  match max_lines with
  | Some m => (negb (Z.eqb m 0) && Z.leb m i)%bool
  | None => false
  end.

Section Analyzer.
Context {L : PyLib}.
Variable fs : filesystem.

Definition describe (dir : string) (n : node) : file_info :=
  mkFileInfo (path_of dir (n_name n)) (n_name n) (n_size n)
             (isoformat (fromtimestamp (n_mtime n))).

Definition scan (dir : string) : list file_info :=
  map (describe dir)
      (filter (fun n => (glob_match (n_name n) && n_is_file n)%bool) (fs_nodes fs)).

Definition _refresh_log_files (a : analyzer) : analyzer :=
  if negb (fs_dir_exists fs) then
    mkAnalyzer (log_directory a) [] (S (refresh_count a)) (lines_examined a)
  else
    let log_files := sort_desc modified_lt (scan (log_directory a)) in
    mkAnalyzer (log_directory a) (cache_of_list log_files)
               (S (refresh_count a)) (lines_examined a).

(** [JsonLogAnalyzer(log_directory)] *)
Definition init (dir : string) : analyzer :=
  _refresh_log_files (mkAnalyzer dir [] 0 0).

Definition get_log_files (a : analyzer) : analyzer * list file_info :=
  let a' := _refresh_log_files a in
  (a', map snd (log_files_cache a')).

(** [open(file_path, 'r')] followed by iteration: the items the file
    yields, or [None] when [open] fails. *)
Definition fs_open (dir path : string) : option (list (option string)) :=
  match find (fun n => String.eqb (path_of dir (n_name n)) path) (fs_nodes fs) with
  | Some n =>
      if (fs_dir_exists fs && n_is_file n && n_openable n)%bool
      then Some (n_lines n) else None
  | None => None
  end.

(** The [for i, line in enumerate(f)] loop inside [try ... except
    Exception]; the counter is the number of lines parsed. *)
Fixpoint read_lines (filename : string) (max_lines : option Z) (i : Z)
         (items : list (option string)) (entries : list entry) (examined : nat)
  : nat * result (list entry) :=
  match items with
  | [] => (examined, Ok entries)
  | None :: _ => (examined, Raise (RuntimeError filename))
  | Some line :: rest =>
      if cap_reached max_lines i then (examined, Ok entries)
      else
        match parse_log_entry line with
        | Raise _ => (S examined, Raise (RuntimeError filename))
        | Ok None => read_lines filename max_lines (i + 1) rest entries (S examined)
        | Ok (Some e) =>
            read_lines filename max_lines (i + 1) rest (entries ++ [e]) (S examined)
        end
  end.

(** The part of [read_log_file] after the name is known to be cached. *)
Definition read_cached (a : analyzer) (filename : string) (max_lines : option Z)
  : analyzer * result (list entry) :=
  match dict_get filename (log_files_cache a) with
  | None => (a, Raise KeyError)
  | Some info =>
      match fs_open (log_directory a) (fi_path info) with
      | None => (a, Raise (RuntimeError filename))
      | Some items =>
          let (n, r) := read_lines filename max_lines 0 items [] 0 in
          (mkAnalyzer (log_directory a) (log_files_cache a) (refresh_count a)
                      (lines_examined a + n), r)
      end
  end.

Definition read_log_file (a : analyzer) (filename : string) (max_lines : option Z)
  : analyzer * result (list entry) :=
  if dict_mem filename (log_files_cache a) then read_cached a filename max_lines
  else
    let a' := _refresh_log_files a in
    if dict_mem filename (log_files_cache a') then read_cached a' filename max_lines
    else (a', Raise (FileNotFoundError filename)).

(** [except (FileNotFoundError, RuntimeError): continue] *)
Definition file_error (e : exn) : bool :=
  match e with
  | FileNotFoundError _ | RuntimeError _ => true
  | _ => false
  end.

(** The loop that gathers [all_entries] in [query_logs] and
    [aggregate_logs]. *)
Fixpoint collect_entries (a : analyzer) (files : list string) (all_entries : list entry)
  : analyzer * result (list entry) :=
  match files with
  | [] => (a, Ok all_entries)
  | filename :: rest =>
      let (a', r) := read_log_file a filename None in
      match r with
      | Ok entries => collect_entries a' rest (all_entries ++ entries)
      | Raise e => if file_error e then collect_entries a' rest all_entries
                   else (a', Raise e)
      end
  end.

(** [files] defaulting to [list(self.log_files_cache.keys())] *)
Definition selected_files (a : analyzer) (files : option (list string)) : list string :=
  match files with
  | Some fl => fl
  | None => map fst (log_files_cache a)
  end.

End Analyzer.

(** ** Query engine *)

Record query_filter : Type := mkFilter {
  q_level : option string;
  q_module : option string;
  q_function : option string;
  q_message_contains : option string;
  q_start_time : option string;
  q_end_time : option string
}.

(** An optional string argument that passes [if arg]: present and not
    empty. *)
Definition supplied (o : option string) : option string :=
  match o with
  | Some (String c s) => Some (String c s)
  | _ => None
  end.

(** [v.upper()] and [v.lower()]: only a [str] has the attribute. *)
Definition py_upper (v : pyval) : result string :=
  match v with PStr s => Ok (upper s) | _ => Raise AttributeError end.

Definition py_lower (v : pyval) : result string :=
  match v with PStr s => Ok (lower s) | _ => Raise AttributeError end.

(** [v != s] for a string [s]. *)
Definition py_ne_str (v : pyval) (s : string) : bool :=
  match v with PStr t => negb (String.eqb t s) | _ => true end.

(** [x.get("parsed_timestamp", datetime.min)] *)
Definition sort_key (e : entry) : datetime :=
  match parsed_timestamp e with Some d => d | None => datetime_min end.

Definition key_lt (x y : entry) : bool :=
  Z.ltb (dt_instant (sort_key x)) (dt_instant (sort_key y)).

(** All sort keys are naive, or all are aware. *)
Definition keys_uniform (l : list entry) : bool :=
  match l with
  | [] => true
  | e :: rest => forallb (fun x => dt_comparable (sort_key e) (sort_key x)) rest
  end.

(** [l.sort(key=lambda x: x.get("parsed_timestamp", datetime.min),
    reverse=True)].  A comparison sort of a list holding a naive and an
    aware key has to compare one with the other, which raises. *)
Definition sort_newest_first (l : list entry) : result (list entry) :=
  if keys_uniform l then Ok (sort_desc key_lt l) else Raise TypeError.

(** [l[:limit]] *)
Definition slice_to {A : Type} (limit : Z) (l : list A) : list A :=
  if Z.leb 0 limit then firstn (Z.to_nat limit) l
  else firstn (List.length l - Z.to_nat (- limit))%nat l.

Definition default_limit : Z := 100.

Section Query.
Context {L : PyLib}.
Variable fs : filesystem.

(** Does the level test [continue]? *)
Definition level_skips (level : option string) (e : entry) : result bool :=
  match supplied level with
  | Some lvl =>
      u <- py_upper (entry_get_default e "level" (PStr EmptyString)) ;;
      Ok (negb (String.eqb u (upper lvl)))
  | None => Ok false
  end.

Definition field_skips (field : string) (arg : option string) (e : entry) : bool :=
  match supplied arg with
  | Some s => py_ne_str (entry_get_default e field (PStr EmptyString)) s
  | None => false
  end.

Definition message_skips (message_contains : option string) (e : entry) : result bool :=
  match supplied message_contains with
  | Some mc =>
      m <- py_lower (entry_get_default e "message" (PStr EmptyString)) ;;
      Ok (negb (str_contains (lower mc) m))
  | None => Ok false
  end.

(** One time bound: [cmp ts bound] is [timestamp < start_dt] or
    [timestamp > end_dt]; a [ValueError] of [fromisoformat] is passed
    over. *)
Definition bound_skips (cmp : datetime -> datetime -> result bool)
           (bound : option string) (e : entry) : result bool :=
  match supplied bound with
  | Some s =>
      match fromisoformat s with
      | Some b =>
          match parsed_timestamp e with
          | Some ts => cmp ts b
          | None => Ok false
          end
      | None => Ok false
      end
  | None => Ok false
  end.

(** One round of the filter loop: [Ok true] when the entry is appended. *)
Definition entry_passes (f : query_filter) (e : entry) : result bool :=
  s1 <- level_skips (q_level f) e ;;
  if s1 then Ok false else
  if field_skips "module" (q_module f) e then Ok false else
  if field_skips "function" (q_function f) e then Ok false else
  s4 <- message_skips (q_message_contains f) e ;;
  if s4 then Ok false else
  s5 <- bound_skips dt_lt (q_start_time f) e ;;
  if s5 then Ok false else
  s6 <- bound_skips dt_gt (q_end_time f) e ;;
  if s6 then Ok false else Ok true.

Fixpoint filter_entries (f : query_filter) (all_entries : list entry)
  : result (list entry) :=
  match all_entries with
  | [] => Ok []
  | e :: rest =>
      b <- entry_passes f e ;;
      r <- filter_entries f rest ;;
      Ok (if b then e :: r else r)
  end.

(** Lines 119-160: what [query_logs] does with [all_entries]. *)
Definition query_entries (f : query_filter) (limit : Z) (all_entries : list entry)
  : result (list entry) :=
  filtered <- filter_entries f all_entries ;;
  sorted <- sort_newest_first filtered ;;
  Ok (slice_to limit sorted).

Definition query_logs (a : analyzer) (files : option (list string))
           (f : query_filter) (limit : option Z)
  : analyzer * result (list entry) :=
  let limit := match limit with Some n => n | None => default_limit end in
  let (a', r) := collect_entries fs a (selected_files a files) [] in
  (a', all_entries <- r ;; query_entries f limit all_entries).

End Query.

(** ** Dictionaries and sets keyed by Python values *)

(** [hash(v)] succeeds. *)
Definition py_hashable (v : pyval) : bool :=
  match v with
  | PList _ | PDict _ => false
  | _ => true
  end.

Definition as_decimal (v : pyval) : option (Z * Z) :=
  match v with
  | PBool b => Some (if b then 1 else 0, 0)
  | PInt z => Some (z, 0)
  | PFloat m e => Some (m, e)
  | _ => None
  end.

Definition decimal_eqb (a b : Z * Z) : bool :=
  let lo := Z.min (snd a) (snd b) in
  Z.eqb (fst a * 10 ^ (snd a - lo)) (fst b * 10 ^ (snd b - lo)).

(** [a == b] between two hashable values, as a dictionary compares keys. *)
Definition py_key_eqb (a b : pyval) : bool :=
  match as_decimal a, as_decimal b with
  | Some x, Some y => decimal_eqb x y
  | None, None =>
      match a, b with
      | PNone, PNone => true
      | PStr s, PStr t => String.eqb s t
      | PDatetime x, PDatetime y => dt_eqb x y
      | _, _ => false
      end
  | _, _ => false
  end.

Fixpoint pydict_get {V : Type} (key : pyval) (d : list (pyval * V)) : option V :=
  match d with
  | [] => None
  | (k, v) :: rest => if py_key_eqb key k then Some v else pydict_get key rest
  end.

(** [d[key] = v]: an equal key already present stays, with the new value. *)
Fixpoint pydict_set {V : Type} (key : pyval) (v : V) (d : list (pyval * V))
  : list (pyval * V) :=
  match d with
  | [] => [(key, v)]
  | (k, v') :: rest =>
      if py_key_eqb key k then (k, v) :: rest else (k, v') :: pydict_set key v rest
  end.

(** ** Aggregation engine *)

Record group_stats : Type := mkGroupStats {
  count : nat;
  percentage : Z;                 (* in hundredths: 3333 is 33.33 *)
  first_seen : option string;
  last_seen : option string
}.

Record aggregation : Type := mkAggregation {
  agg_group_by : string;
  total_entries : nat;
  groups : list (pyval * group_stats)
}.

(** Running [min] and [max] of a generator of datetimes, as the builtins
    compare: each new item against the best so far. *)
Fixpoint min_from (cur : datetime) (l : list datetime) : result datetime :=
  match l with
  | [] => Ok cur
  | x :: rest => b <- dt_lt x cur ;; min_from (if b then x else cur) rest
  end.

Fixpoint max_from (cur : datetime) (l : list datetime) : result datetime :=
  match l with
  | [] => Ok cur
  | x :: rest => b <- dt_gt x cur ;; max_from (if b then x else cur) rest
  end.

Definition timestamp_or (dflt : datetime) (e : entry) : datetime :=
  match parsed_timestamp e with Some d => d | None => dflt end.

Section Aggregation.
Context {L : PyLib}.
Variable fs : filesystem.

(** [round(num / den, 2)] in hundredths, for [den > 0]. *)
Definition round2 (num den : Z) : Z :=
  let q := (100 * num) / den in
  let r := (100 * num) mod den in
  if Z.ltb (2 * r) den then q
  else if Z.ltb den (2 * r) then q + 1
  else if round_tie_up num den then q + 1 else q.

Definition group_key (group_by : string) (e : entry) : pyval :=
  if String.eqb group_by "level" then entry_get_default e "level" (PStr "UNKNOWN")
  else if String.eqb group_by "module" then entry_get_default e "module" (PStr "UNKNOWN")
  else if String.eqb group_by "function" then entry_get_default e "function" (PStr "UNKNOWN")
  else if String.eqb group_by "hour" then
    match parsed_timestamp e with
    | Some ts => PStr (strftime_hour ts)
    | None => PStr "UNKNOWN"
    end
  else entry_get_default e group_by (PStr "UNKNOWN").

(** [if key not in groups: groups[key] = []] then
    [groups[key].append(entry)] *)
Definition group_add (key : pyval) (e : entry) (g : list (pyval * list entry))
  : result (list (pyval * list entry)) :=
  if py_hashable key then
    Ok (pydict_set key
          (match pydict_get key g with Some es => es ++ [e] | None => [e] end) g)
  else Raise TypeError.

Fixpoint group_entries (group_by : string) (all_entries : list entry)
         (g : list (pyval * list entry)) : result (list (pyval * list entry)) :=
  match all_entries with
  | [] => Ok g
  | e :: rest =>
      g' <- group_add (group_key group_by e) e g ;;
      group_entries group_by rest g'
  end.

Definition percentage_of (n_group n_all : nat) : Z :=
  match n_all with
  | O => 0
  | _ => round2 (100 * Z.of_nat n_group) (Z.of_nat n_all)
  end.

Definition first_seen_of (entries : list entry) : result (option string) :=
  match map (timestamp_or datetime_max) entries with
  | [] => Ok None
  | x :: rest => m <- min_from x rest ;; Ok (Some (isoformat m))
  end.

Definition last_seen_of (entries : list entry) : result (option string) :=
  match map (timestamp_or datetime_min) entries with
  | [] => Ok None
  | x :: rest => m <- max_from x rest ;; Ok (Some (isoformat m))
  end.

(** Lines 208-215: the statistics of one group. *)
Definition group_summary (n_all : nat) (entries : list entry) : result group_stats :=
  fs_ <- first_seen_of entries ;;
  ls_ <- last_seen_of entries ;;
  Ok (mkGroupStats (List.length entries) (percentage_of (List.length entries) n_all)
                   fs_ ls_).

(** Lines 207-215: the loop over [groups.items()]. *)
Fixpoint summarize (n_all : nat) (g : list (pyval * list entry))
         (out : list (pyval * group_stats)) : result (list (pyval * group_stats)) :=
  match g with
  | [] => Ok out
  | (key, entries) :: rest =>
      s <- group_summary n_all entries ;;
      summarize n_all rest (pydict_set key s out)
  end.

(** Lines 178-217: what [aggregate_logs] does with [all_entries]. *)
Definition aggregate_entries (group_by : string) (all_entries : list entry)
  : result aggregation :=
  g <- group_entries group_by all_entries [] ;;
  out <- summarize (List.length all_entries) g [] ;;
  Ok (mkAggregation group_by (List.length all_entries) out).

Definition aggregate_logs (a : analyzer) (files : option (list string))
           (group_by : option string) : analyzer * result aggregation :=
  let group_by := match group_by with Some g => g | None => "level" end in
  let (a', r) := collect_entries fs a (selected_files a files) [] in
  (a', all_entries <- r ;; aggregate_entries group_by all_entries).

End Aggregation.

(** ** Corpus statistics *)

Record log_stats : Type := mkLogStats {
  total_files : nat;
  stats_total_entries : nat;
  levels : list (pyval * nat);
  unique_modules : list pyval;
  unique_functions : nat;
  earliest : option string;
  latest : option string;
  span_hours : option Z           (* in hundredths of an hour *)
}.

(** The local variables of [get_log_stats]. *)
Record stats_acc : Type := mkAcc {
  acc_total : nat;
  acc_levels : list (pyval * nat);
  acc_modules : list (pyval * unit);
  acc_functions : list (pyval * unit);
  acc_earliest : option datetime;
  acc_latest : option datetime
}.

Definition acc_empty : stats_acc := mkAcc 0 [] [] [] None None.

Section Statistics.
Context {L : PyLib}.
Variable fs : filesystem.

(** [s.add(v)] *)
Definition set_add (v : pyval) (s : list (pyval * unit)) : result (list (pyval * unit)) :=
  if py_hashable v then Ok (pydict_set v tt s) else Raise TypeError.

(** [if earliest_time is None or timestamp < earliest_time] *)
Definition track (cmp : datetime -> datetime -> result bool)
           (best : option datetime) (ts : datetime) : result (option datetime) :=
  match best with
  | None => Ok (Some ts)
  | Some b => c <- cmp ts b ;; Ok (Some (if c then ts else b))
  end.

(** Lines 237-251: the body of [for entry in entries]. *)
Definition stats_entry (acc : stats_acc) (e : entry) : result stats_acc :=
  let level := entry_get_default e "level" (PStr "UNKNOWN") in
  lv <- (if py_hashable level
         then Ok (pydict_set level
                    (match pydict_get level (acc_levels acc) with
                     | Some n => S n | None => 1%nat end) (acc_levels acc))
         else Raise TypeError) ;;
  ms <- set_add (entry_get_default e "module" (PStr "UNKNOWN")) (acc_modules acc) ;;
  fs_ <- set_add (entry_get_default e "function" (PStr "UNKNOWN")) (acc_functions acc) ;;
  match parsed_timestamp e with
  | Some ts =>
      ea <- track dt_lt (acc_earliest acc) ts ;;
      la <- track dt_gt (acc_latest acc) ts ;;
      Ok (mkAcc (acc_total acc) lv ms fs_ ea la)
  | None => Ok (mkAcc (acc_total acc) lv ms fs_ (acc_earliest acc) (acc_latest acc))
  end.

(** The inner loop.  What can be raised here is [TypeError], which the
    enclosing [except] clause does not catch, so the locals at the point of
    the exception are not observed. *)
Fixpoint stats_entries (acc : stats_acc) (entries : list entry)
  : stats_acc * option exn :=
  match entries with
  | [] => (acc, None)
  | e :: rest =>
      match stats_entry acc e with
      | Ok acc' => stats_entries acc' rest
      | Raise x => (acc, Some x)
      end
  end.

(** Lines 231-254: the loop over [files] with its [try]. *)
Fixpoint stats_files (a : analyzer) (files : list string) (acc : stats_acc)
  : analyzer * result stats_acc :=
  match files with
  | [] => (a, Ok acc)
  | filename :: rest =>
      let (a', r) := read_log_file fs a filename None in
      match r with
      | Ok entries =>
          let acc1 := mkAcc (acc_total acc + List.length entries) (acc_levels acc)
                            (acc_modules acc) (acc_functions acc)
                            (acc_earliest acc) (acc_latest acc) in
          match stats_entries acc1 entries with
          | (acc2, None) => stats_files a' rest acc2
          | (acc2, Some x) => if file_error x then stats_files a' rest acc2
                              else (a', Raise x)
          end
      | Raise x => if file_error x then stats_files a' rest acc else (a', Raise x)
      end
  end.

(** [latest_time - earliest_time], in microseconds. *)
Definition dt_sub (a b : datetime) : result Z :=
  if dt_comparable a b then Ok (dt_instant a - dt_instant b) else Raise TypeError.

(** Lines 256-268: the returned dictionary. *)
Definition stats_result (n_files : nat) (acc : stats_acc) : result log_stats :=
  um <- py_sorted (map fst (acc_modules acc)) ;;
  sp <- match acc_earliest acc, acc_latest acc with
        | Some ea, Some la => d <- dt_sub la ea ;; Ok (Some (round2 d 3600000000))
        | _, _ => Ok None
        end ;;
  Ok (mkLogStats n_files (acc_total acc) (acc_levels acc) um
                 (List.length (acc_functions acc))
                 (option_map isoformat (acc_earliest acc))
                 (option_map isoformat (acc_latest acc)) sp).

Definition get_log_stats (a : analyzer) (files : option (list string))
  : analyzer * result log_stats :=
  let files := selected_files a files in
  let (a', r) := stats_files a files acc_empty in
  (a', acc <- r ;; stats_result (List.length files) acc).

End Statistics.

(** ** A reference instance of the library functions

    [Ref.loads] decodes JSON text (numbers as integers or decimals, strings
    with their escapes); [Ref.parse_iso] reads
    [YYYY-MM-DD[*HH:MM[:SS[.ffffff]][+HH:MM]]], the forms every version of
    [datetime.fromisoformat] accepts; [Ref.format_iso] writes them back.
    The reference decoder follows any depth of nesting, so the instance
    marks no input as too deep. *)

Module Ref.

Local Open Scope char_scope.

Definition code (c : ascii) : Z := Z.of_nat (nat_of_ascii c).
Definition chr (z : Z) : ascii := ascii_of_nat (Z.to_nat z).

Definition dquote : ascii := chr 34.

Definition is_digit (c : ascii) : bool := (Z.leb 48 (code c) && Z.leb (code c) 57)%bool.
Definition digit_val (c : ascii) : Z := code c - 48.

Definition json_ws (c : ascii) : bool :=
  (Z.eqb (code c) 32 || Z.eqb (code c) 9 || Z.eqb (code c) 10 || Z.eqb (code c) 13)%bool.

Fixpoint skip_ws (s : list ascii) : list ascii :=
  match s with
  | c :: rest => if json_ws c then skip_ws rest else s
  | [] => []
  end.

(** A run of digits, read as a number, and how many there were. *)
Fixpoint digits (s : list ascii) (acc : Z) (n : Z) : Z * Z * list ascii :=
  match s with
  | c :: rest => if is_digit c then digits rest (10 * acc + digit_val c) (n + 1)
                 else (acc, n, s)
  | [] => (acc, n, [])
  end.

Definition hex_val (c : ascii) : option Z :=
  let n := code c in
  if (Z.leb 48 n && Z.leb n 57)%bool then Some (n - 48)
  else if (Z.leb 97 n && Z.leb n 102)%bool then Some (n - 87)
  else if (Z.leb 65 n && Z.leb n 70)%bool then Some (n - 55)
  else None.

(** UTF-8 bytes of a code point below 65536. *)
Definition utf8 (cp : Z) : list ascii :=
  if Z.ltb cp 128 then [chr cp]
  else if Z.ltb cp 2048 then [chr (192 + cp / 64); chr (128 + cp mod 64)]
  else [chr (224 + cp / 4096); chr (128 + (cp / 64) mod 64); chr (128 + cp mod 64)].

(** The characters after an opening quote, up to the closing one. *)
Fixpoint string_body (s : list ascii) (acc : list ascii) : option (string * list ascii) :=
  match s with
  | [] => None
  | "\" :: c :: rest =>
      if Ascii.eqb c "u" then
        match rest with
        | a :: b :: c' :: d :: rest' =>
            match hex_val a, hex_val b, hex_val c', hex_val d with
            | Some x3, Some x2, Some x1, Some x0 =>
                string_body rest' (rev (utf8 (4096 * x3 + 256 * x2 + 16 * x1 + x0)) ++ acc)
            | _, _, _, _ => None
            end
        | _ => None
        end
      else
        let plain (x : ascii) := string_body rest (x :: acc) in
        if Ascii.eqb c dquote then plain dquote
        else if Ascii.eqb c "\" then plain "\"
        else if Ascii.eqb c "/" then plain "/"
        else if Ascii.eqb c "b" then plain (chr 8)
        else if Ascii.eqb c "f" then plain (chr 12)
        else if Ascii.eqb c "n" then plain (chr 10)
        else if Ascii.eqb c "r" then plain (chr 13)
        else if Ascii.eqb c "t" then plain (chr 9)
        else None
  | c :: rest =>
      if Ascii.eqb c dquote then Some (string_of_list_ascii (rev acc), rest)
      else if Z.ltb (code c) 32 then None
      else string_body rest (c :: acc)
  end.

(** An optional minus sign, an integer part without leading zeros, an
    optional fraction and an optional exponent. *)
Definition number (s : list ascii) : option (pyval * list ascii) :=
  let (neg, s1) := match s with "-" :: r => (true, r) | _ => (false, s) end in
  let sign (z : Z) := if neg then - z else z in
  match s1 with
  | c :: _ =>
      if is_digit c then
        let '(ip, n, s2) := digits s1 0 0 in
        if (Ascii.eqb c "0" && Z.ltb 1 n)%bool then Some (PInt 0, tl s1)
        else
          let '(m, fe, s3, has_frac) :=
            match s2 with
            | "." :: d :: r =>
                if is_digit d then
                  let '(m', k, r') := digits (d :: r) ip 0 in (m', - k, r', true)
                else (ip, 0, s2, false)
            | _ => (ip, 0, s2, false)
            end in
          let '(ex, s4, has_exp) :=
            match s3 with
            | e :: r =>
                if (Ascii.eqb e "e" || Ascii.eqb e "E")%bool then
                  let '(eneg, r1) :=
                    match r with
                    | "-" :: r' => (true, r')
                    | "+" :: r' => (false, r')
                    | _ => (false, r)
                    end in
                  match r1 with
                  | d :: _ =>
                      if is_digit d then
                        let '(x, _, r2) := digits r1 0 0 in
                        ((if eneg then - x else x), r2, true)
                      else (0, s3, false)
                  | [] => (0, s3, false)
                  end
                else (0, s3, false)
            | [] => (0, s3, false)
            end in
          if (has_frac || has_exp)%bool then Some (PFloat (sign m) (fe + ex), s4)
          else Some (PInt (sign ip), s4)
      else None
  | [] => None
  end.

Fixpoint value (fuel : nat) (s : list ascii) : option (pyval * list ascii) :=
  match fuel with
  | O => None
  | S f =>
      match skip_ws s with
      | "n" :: "u" :: "l" :: "l" :: r => Some (PNone, r)
      | "t" :: "r" :: "u" :: "e" :: r => Some (PBool true, r)
      | "f" :: "a" :: "l" :: "s" :: "e" :: r => Some (PBool false, r)
      | "[" :: r =>
          match skip_ws r with
          | "]" :: r' => Some (PList [], r')
          | _ => elements f r []
          end
      | "{" :: r =>
          match skip_ws r with
          | "}" :: r' => Some (PDict [], r')
          | _ => members f r []
          end
      | c :: r =>
          if Ascii.eqb c dquote then
            match string_body r [] with
            | Some (str, r') => Some (PStr str, r')
            | None => None
            end
          else number (c :: r)
      | [] => None
      end
  end
with elements (fuel : nat) (s : list ascii) (acc : list pyval)
     : option (pyval * list ascii) :=
  match fuel with
  | O => None
  | S f =>
      match value f s with
      | Some (v, r) =>
          match skip_ws r with
          | "," :: r' => elements f r' (acc ++ [v])
          | "]" :: r' => Some (PList (acc ++ [v]), r')
          | _ => None
          end
      | None => None
      end
  end
with members (fuel : nat) (s : list ascii) (acc : list (string * pyval))
     : option (pyval * list ascii) :=
  match fuel with
  | O => None
  | S f =>
      match skip_ws s with
      | q :: r =>
          if Ascii.eqb q dquote then
            match string_body r [] with
            | Some (k, r1) =>
                match skip_ws r1 with
                | ":" :: r2 =>
                    match value f r2 with
                    | Some (v, r3) =>
                        match skip_ws r3 with
                        | "," :: r4 => members f r4 (dict_set k v acc)
                        | "}" :: r4 => Some (PDict (dict_set k v acc), r4)
                        | _ => None
                        end
                    | None => None
                    end
                | _ => None
                end
            | None => None
            end
          else None
      | [] => None
      end
  end.

Definition loads (s : string) : option pyval :=
  let cs := list_ascii_of_string s in
  match value (S (List.length cs)) cs with
  | Some (v, r) => match skip_ws r with [] => Some v | _ => None end
  | None => None
  end.

End Ref.

Module RefTime.

Import Ref.
Local Open Scope char_scope.

Definition us_per_day : Z := 86400000000.

(** Days from 0001-01-01 to the given proleptic Gregorian date. *)
Definition days_from_civil (y m d : Z) : Z :=
  let y' := if Z.leb m 2 then y - 1 else y in
  let era := y' / 400 in
  let yoe := y' - era * 400 in
  let doy := (153 * (if Z.ltb 2 m then m - 3 else m + 9) + 2) / 5 + d - 1 in
  let doe := yoe * 365 + yoe / 4 - yoe / 100 + doy in
  era * 146097 + doe - 306.

Definition civil_from_days (z : Z) : Z * Z * Z :=
  let z' := z + 306 in
  let era := z' / 146097 in
  let doe := z' - era * 146097 in
  let yoe := (doe - doe / 1460 + doe / 36524 - doe / 146096) / 365 in
  let doy := doe - (365 * yoe + yoe / 4 - yoe / 100) in
  let mp := (5 * doy + 2) / 153 in
  let d := doy - (153 * mp + 2) / 5 + 1 in
  let m := if Z.ltb mp 10 then mp + 3 else mp - 9 in
  let y := yoe + era * 400 in
  ((if Z.leb m 2 then y + 1 else y), m, d).

Definition is_leap (y : Z) : bool :=
  (Z.eqb (y mod 4) 0 && (negb (Z.eqb (y mod 100) 0) || Z.eqb (y mod 400) 0))%bool.

Definition days_in_month (y m : Z) : Z :=
  if Z.eqb m 2 then (if is_leap y then 29 else 28)
  else if (Z.eqb m 4 || Z.eqb m 6 || Z.eqb m 9 || Z.eqb m 11)%bool then 30
  else 31.

(** Exactly [n] digits. *)
Fixpoint fixed (n : nat) (s : list ascii) (acc : Z) : option (Z * list ascii) :=
  match n with
  | O => Some (acc, s)
  | S k =>
      match s with
      | c :: r => if is_digit c then fixed k r (10 * acc + digit_val c) else None
      | [] => None
      end
  end.

Definition parse_date (s : list ascii) : option (Z * list ascii) :=
  match fixed 4 s 0 with
  | Some (y, "-" :: s1) =>
      match fixed 2 s1 0 with
      | Some (m, "-" :: s2) =>
          match fixed 2 s2 0 with
          | Some (d, s3) =>
              if (Z.leb 1 y && Z.leb 1 m && Z.leb m 12 && Z.leb 1 d
                  && Z.leb d (days_in_month y m))%bool
              then Some (days_from_civil y m d, s3) else None
          | None => None
          end
      | _ => None
      end
  | _ => None
  end.

(** [HH[:MM[:SS[.fff[fff]]]]] in microseconds. *)
Definition parse_clock (s : list ascii) : option (Z * list ascii) :=
  match fixed 2 s 0 with
  | Some (hh, s1) =>
      let '(mm, ss, us, rest, ok) :=
        match s1 with
        | ":" :: r1 =>
            match fixed 2 r1 0 with
            | Some (mm, ":" :: r2) =>
                match fixed 2 r2 0 with
                | Some (ss, "." :: r3) =>
                    match fixed 6 r3 0 with
                    | Some (us, r4) => (mm, ss, us, r4, true)
                    | None =>
                        match fixed 3 r3 0 with
                        | Some (ms, r4) => (mm, ss, 1000 * ms, r4, true)
                        | None => (0, 0, 0, [], false)
                        end
                    end
                | Some (ss, r3) => (mm, ss, 0, r3, true)
                | None => (0, 0, 0, [], false)
                end
            | Some (mm, r2) => (mm, 0, 0, r2, true)
            | None => (0, 0, 0, [], false)
            end
        | _ => (0, 0, 0, s1, true)
        end in
      if (ok && Z.ltb hh 24 && Z.ltb mm 60 && Z.ltb ss 60)%bool
      then Some (((hh * 60 + mm) * 60 + ss) * 1000000 + us, rest) else None
  | None => None
  end.

Definition parse_iso (str : string) : option datetime :=
  match parse_date (list_ascii_of_string str) with
  | Some (days, []) => Some (mkDatetime (days * us_per_day) None)
  | Some (days, _ :: s1) =>
      match parse_clock s1 with
      | Some (t, []) => Some (mkDatetime (days * us_per_day + t) None)
      | Some (t, sg :: s2) =>
          if (Ascii.eqb sg "+" || Ascii.eqb sg "-")%bool then
            match parse_clock s2 with
            | Some (off, []) =>
                match s2 with
                | _ :: _ :: ":" :: _ =>
                    Some (mkDatetime (days * us_per_day + t)
                                     (Some (if Ascii.eqb sg "-" then - off else off)))
                | _ => None
                end
            | _ => None
            end
          else None
      | None => None
      end
  | None => None
  end.

(** [n] written with [width] digits. *)
Fixpoint pad (width : nat) (n : Z) : string :=
  match width with
  | O => EmptyString
  | S k => (pad k (n / 10) ++ String (chr (48 + n mod 10)) EmptyString)%string
  end.

Definition format_date (days : Z) : string :=
  let '(y, m, d) := civil_from_days days in
  (pad 4 y ++ "-" ++ pad 2 m ++ "-" ++ pad 2 d)%string.

(** [HH:MM:SS[.ffffff]] *)
Definition format_clock (us : Z) : string :=
  let s := us / 1000000 in
  (pad 2 (s / 3600) ++ ":" ++ pad 2 ((s / 60) mod 60) ++ ":" ++ pad 2 (s mod 60)
   ++ (if Z.eqb (us mod 1000000) 0 then EmptyString
       else "." ++ pad 6 (us mod 1000000)))%string.

(** [+HH:MM[:SS[.ffffff]]] *)
Definition format_offset (off : Z) : string :=
  let a := Z.abs off in
  ((if Z.ltb off 0 then "-" else "+")
   ++ pad 2 (a / 3600000000) ++ ":" ++ pad 2 ((a / 60000000) mod 60)
   ++ (if Z.eqb (a mod 60000000) 0 then EmptyString
       else ":" ++ pad 2 ((a / 1000000) mod 60)
            ++ (if Z.eqb (a mod 1000000) 0 then EmptyString
                else "." ++ pad 6 (a mod 1000000))))%string.

Definition format_iso (d : datetime) : string :=
  (format_date (dt_local d / us_per_day) ++ "T" ++ format_clock (dt_local d mod us_per_day)
   ++ match dt_offset d with
      | Some off => format_offset off
      | None => EmptyString
      end)%string.

Definition format_hour (d : datetime) : string :=
  (format_date (dt_local d / us_per_day) ++ " "
   ++ pad 2 ((dt_local d mod us_per_day) / 3600000000) ++ ":00")%string.

(** [st_mtime] in microseconds since 1970, read in a UTC local zone. *)
Definition of_timestamp (mtime : Z) : datetime :=
  mkDatetime (62135596800000000 + mtime) None.

Definition decimal_ltb (a b : Z * Z) : bool :=
  let lo := Z.min (snd a) (snd b) in
  Z.ltb (fst a * 10 ^ (snd a - lo)) (fst b * 10 ^ (snd b - lo)).

(** [x < y] on values of one orderable kind. *)
Definition value_ltb (x y : pyval) : bool :=
  match x, y with
  | PStr s, PStr t => String.ltb s t
  | _, _ =>
      match as_decimal x, as_decimal y with
      | Some a, Some b => decimal_ltb a b
      | _, _ => false
      end
  end.

Fixpoint insert_asc (x : pyval) (l : list pyval) : list pyval :=
  match l with
  | [] => [x]
  | y :: l' => if value_ltb x y then x :: l else y :: insert_asc x l'
  end.

Definition is_str (v : pyval) : bool := match v with PStr _ => true | _ => false end.
Definition is_num (v : pyval) : bool :=
  match as_decimal v with Some _ => true | None => false end.

Definition sorted (l : list pyval) : result (list pyval) :=
  match l with
  | [] | [_] => Ok l
  | _ => if (forallb is_str l || forallb is_num l)%bool
         then Ok (fold_right insert_asc [] l) else Raise TypeError
  end.

(** Round-half-to-even: up exactly when the truncated value is odd. *)
Definition tie_up (num den : Z) : bool := Z.odd ((100 * num) / den).

End RefTime.

#[export] Instance RefLib : PyLib := {|
  json_loads := Ref.loads;
  json_too_deep := fun _ => false;
  fromisoformat := RefTime.parse_iso;
  isoformat := RefTime.format_iso;
  strftime_hour := RefTime.format_hour;
  fromtimestamp := RefTime.of_timestamp;
  py_sorted := RefTime.sorted;
  round_tie_up := RefTime.tie_up
|}.

(** ** Vocabulary of the specification *)

Definition has_timestamp (e : entry) : Prop :=
  exists dt, parsed_timestamp e = Some dt.


(** [m] is an earliest (a latest) element of [l]. *)
Definition earliest_of (m : datetime) (l : list datetime) : Prop :=
  In m l /\ forall x, In x l -> dt_instant m <= dt_instant x.

Definition latest_of (m : datetime) (l : list datetime) : Prop :=
  In m l /\ forall x, In x l -> dt_instant x <= dt_instant m.

(** The predicates of a query, in the words of the specification. *)
Section Predicates.
Context {L : PyLib}.

(** case-insensitive exact match *)
Definition sat_level (lvl : string) (e : entry) : Prop :=
  exists s, entry_get e "level" = Some (PStr s) /\ upper s = upper lvl.

(** exact match *)
Definition sat_field (field v : string) (e : entry) : Prop :=
  entry_get e field = Some (PStr v).

(** case-insensitive containment *)
Definition sat_message (mc : string) (e : entry) : Prop :=
  exists s, entry_get e "message" = Some (PStr s) /\
            str_contains (lower mc) (lower s) = true.

(** inclusive bounds; a bound that is not ISO-8601 constrains nothing *)
Definition sat_start (st : string) (e : entry) : Prop :=
  forall b ts, fromisoformat st = Some b -> parsed_timestamp e = Some ts ->
               dt_comparable ts b = true /\ dt_instant b <= dt_instant ts.

Definition sat_end (en : string) (e : entry) : Prop :=
  forall b ts, fromisoformat en = Some b -> parsed_timestamp e = Some ts ->
               dt_comparable ts b = true /\ dt_instant ts <= dt_instant b.

Definition satisfies (f : query_filter) (e : entry) : Prop :=
  (forall lvl, supplied (q_level f) = Some lvl -> sat_level lvl e) /\
  (forall m, supplied (q_module f) = Some m -> sat_field "module" m e) /\
  (forall fn, supplied (q_function f) = Some fn -> sat_field "function" fn e) /\
  (forall mc, supplied (q_message_contains f) = Some mc -> sat_message mc e) /\
  (forall st, supplied (q_start_time f) = Some st -> sat_start st e) /\
  (forall en, supplied (q_end_time f) = Some en -> sat_end en e).
End Predicates.

(** [f'] is [f] with some of its predicates removed. *)
Definition dropped (x' x : option string) : Prop := x' = None \/ x' = x.

Definition weaker (f' f : query_filter) : Prop :=
  dropped (q_level f') (q_level f) /\
  dropped (q_module f') (q_module f) /\
  dropped (q_function f') (q_function f) /\
  dropped (q_message_contains f') (q_message_contains f) /\
  dropped (q_start_time f') (q_start_time f) /\
  dropped (q_end_time f') (q_end_time f).

Fixpoint sum_nat (l : list nat) : nat :=
  match l with
  | [] => O
  | x :: rest => (x + sum_nat rest)%nat
  end.


(** The filter loop's verdict on one entry, as a boolean. *)
Definition passes_b {L : PyLib} (f : query_filter) (e : entry) : bool :=
  match entry_passes f e with
  | Ok true => true
  | _ => false
  end.

(** Entries on which no filter step and no sort can raise: [level] and
    [message] are strings where present and the timestamp is naive. *)
Definition plain (e : entry) : Prop :=
  (exists s, entry_get_default e "level" (PStr EmptyString) = PStr s) /\
  (exists s, entry_get_default e "message" (PStr EmptyString) = PStr s) /\
  dt_aware (sort_key e) = false.


(** No key of the list equals, as a dictionary compares keys, a key before
    it. *)
Definition distinct_keys (ks : list pyval) : Prop :=
  forall l1 k l2, ks = l1 ++ k :: l2 -> Forall (fun k' => py_key_eqb k k' = false) l1.

(** Number of entries held by a grouping. *)
Definition grouped {K : Type} (g : list (K * list entry)) : nat :=
  sum_nat (map (fun kv => List.length (snd kv)) g).


(** ** A small directory for the examples *)

Module Fixture.

Definition quoted (s : string) : string :=
  String Ref.dquote (s ++ String Ref.dquote EmptyString).

(** One log line in the format the analyzer reads. *)
Definition log_line (ts level message module function line : string) : string :=
  "{" ++ quoted "timestamp" ++ ": " ++ quoted ts ++ ", "
      ++ quoted "level" ++ ": " ++ quoted level ++ ", "
      ++ quoted "message" ++ ": " ++ quoted message ++ ", "
      ++ quoted "module" ++ ": " ++ quoted module ++ ", "
      ++ quoted "function" ++ ": " ++ quoted function ++ ", "
      ++ quoted "line" ++ ": " ++ line ++ "}".

Definition line_new : string :=
  log_line "2024-01-02T10:00:00" "INFO" "service started" "app" "main" "10".
Definition line_old : string :=
  log_line "2024-01-01T09:30:00" "ERROR" "disk failure" "db" "write" "20".
Definition line_mid : string :=
  log_line "2024-01-01T18:00:00" "INFO" "cache warm" "app" "warm" "30".

(** [app.log] holds two entries around a line that is not JSON;
    [app.log.1] is an older rotated file; [notes.txt] does not match the
    pattern and [archive.log] is a directory. *)
Definition fs : filesystem :=
  mkFs true
    [ mkNode "app.log.1" true 120 1704067200000000 true [Some line_mid];
      mkNode "notes.txt" true 5 1704300000000000 true [Some "hello"];
      mkNode "app.log" true 250 1704189600000000 true
             [Some line_new; Some "not json"; Some line_old];
      mkNode "archive.log" false 4096 1704400000000000 false [] ].

(** A configured directory that does not exist. *)
Definition fs_absent : filesystem := mkFs false [].

Definition a0 : analyzer := @init RefLib fs "/var/logs".
Definition a_absent : analyzer := @init RefLib fs_absent "/var/logs".

Definition no_filter : query_filter := mkFilter None None None None None None.
Definition errors_only : query_filter :=
  mkFilter (Some "error") None None None None None.

(** The entry a line written by [log_line] parses to. *)
Definition entry_of (ts level message module function : string) (line : Z) : entry :=
  mkEntry [("timestamp", PStr ts); ("level", PStr level); ("message", PStr message);
           ("module", PStr module); ("function", PStr function); ("line", PInt line)]
          (RefTime.parse_iso ts).

Definition entry_new : entry :=
  entry_of "2024-01-02T10:00:00" "INFO" "service started" "app" "main" 10.
Definition entry_old : entry :=
  entry_of "2024-01-01T09:30:00" "ERROR" "disk failure" "db" "write" 20.
Definition entry_mid : entry :=
  entry_of "2024-01-01T18:00:00" "INFO" "cache warm" "app" "warm" 30.

(** [aggregate_logs()] on the example directory: two INFO entries and one
    ERROR entry. *)
Definition agg_by_level : aggregation :=
  mkAggregation "level" 3
    [ (PStr "INFO",
       mkGroupStats 2 6667 (Some "2024-01-01T18:00:00") (Some "2024-01-02T10:00:00"));
      (PStr "ERROR",
       mkGroupStats 1 3333 (Some "2024-01-01T09:30:00") (Some "2024-01-01T09:30:00")) ].

End Fixture.

(** ** Resource reader *)

(** A parsed resource URI: the parts [read_resource] looks at. *)
Record url : Type := mkUrl {
  url_scheme : string;
  url_path : option string
}.

(** [s.lstrip("/")] *)
Fixpoint lstrip_slash (s : string) : string :=
  match s with
  | String c rest => if Ascii.eqb c "/"%char then lstrip_slash rest else s
  | EmptyString => EmptyString
  end.

Fixpoint dict_remove {V : Type} (k : string) (d : list (string * V)) : list (string * V) :=
  match d with
  | [] => []
  | (k', v) :: rest => if String.eqb k k' then rest else (k', v) :: dict_remove k rest
  end.

(** The dictionary left by [entry.pop("parsed_timestamp", None)]. *)
Definition pop_parsed_timestamp (e : entry) : pyval :=
  PDict (dict_remove "parsed_timestamp" (fields e)).

Definition resource_max_lines : Z := 1000.

Section Resource.
Context {L : PyLib}.
Variable fs : filesystem.
(** [json.dumps(entries, indent=2, default=str)] *)
Variable json_dumps : pyval -> string.

Definition resource_filename (uri : url) : string :=
  match url_path uri with
  | Some (String c p) => lstrip_slash (String c p)
  | _ => EmptyString
  end.

Definition read_resource (a : analyzer) (uri : url) : analyzer * result string :=
  if negb (String.eqb (url_scheme uri) "logs") then (a, Raise ValueError)
  else
    match resource_filename uri with
    | EmptyString => (a, Raise ValueError)
    | filename =>
        let (a', r) := read_log_file fs a filename (Some resource_max_lines) in
        match r with
        | Ok entries => (a', Ok (json_dumps (PList (map pop_parsed_timestamp entries))))
        | Raise (FileNotFoundError _) => (a', Raise ValueError)
        | Raise x => (a', Raise x)
        end
    end.

End Resource.

(** ** Further vocabulary *)

(** Decoded values on which [parse_log_entry] raises instead of returning. *)
Definition raising_value (v : pyval) : Prop :=
  match v with
  | PStr s => forall f, In f required_fields -> str_contains f s = true
  | PList l => forall f, In f required_fields -> In (PStr f) l
  | PDict d =>
      (forall f, In f required_fields -> dict_mem f d = true) /\
      exists t, dict_get "timestamp" d = Some t /\ forall s, t <> PStr s
  | _ => True
  end.

(** The entries of a run of lines, in order; lines that do not parse leave
    nothing. *)
Definition entries_of_lines {L : PyLib} (lines : list string) : list entry :=
  flat_map (fun line => match parse_log_entry line with
                        | Ok (Some e) => [e]
                        | _ => []
                        end) lines.

(** The lines a read with the given [max_lines] hands to the parser. *)
Definition cap_lines (max_lines : option Z) (lines : list string) : list string :=
  match max_lines with
  | Some m => if Z.eqb m 0 then lines else firstn (Z.to_nat m) lines
  | None => lines
  end.

(** The filter with every empty-string argument replaced by an absent one. *)
Definition normalize_filter (f : query_filter) : query_filter :=
  mkFilter (supplied (q_level f)) (supplied (q_module f)) (supplied (q_function f))
           (supplied (q_message_contains f)) (supplied (q_start_time f))
           (supplied (q_end_time f)).

(** Two analyzers that differ in their counters only. *)
Definition same_catalog (a b : analyzer) : Prop :=
  log_directory a = log_directory b /\ log_files_cache a = log_files_cache b.

(** The entry's sort key is the instant [t]. *)
Definition at_instant (t : Z) (e : entry) : bool := Z.eqb (dt_instant (sort_key e)) t.

(** The entry's group key equals [k]. *)
Definition in_group {L : PyLib} (group_by : string) (k : pyval) (e : entry) : bool :=
  py_key_eqb (group_key group_by e) k.

(** A directory whose files hold lines of unusual shape. *)
Module Fixture2.

(** A level that is a JSON array. *)
Definition line_array_level : string :=
  "{" ++ Fixture.quoted "timestamp" ++ ": " ++ Fixture.quoted "2024-01-03T08:00:00" ++ ", "
      ++ Fixture.quoted "level" ++ ": [1], "
      ++ Fixture.quoted "message" ++ ": " ++ Fixture.quoted "odd" ++ ", "
      ++ Fixture.quoted "module" ++ ": " ++ Fixture.quoted "app" ++ ", "
      ++ Fixture.quoted "function" ++ ": " ++ Fixture.quoted "main" ++ ", "
      ++ Fixture.quoted "line" ++ ": 1}".

(** A timestamp with a UTC offset. *)
Definition line_aware : string :=
  Fixture.log_line "2024-01-03T08:00:00+00:00" "INFO" "from afar" "app" "main" "40".

Definition entry_aware : entry :=
  Fixture.entry_of "2024-01-03T08:00:00+00:00" "INFO" "from afar" "app" "main" 40.

(** [odd.log] has a line that is the number 5 after a good line;
    [mixed.log] has a naive and an aware timestamp; [array.log] has an
    array for a level; [gone.log] cannot be opened. *)
Definition fs : filesystem :=
  mkFs true
    [ mkNode "odd.log" true 10 1704000000000000 true [Some Fixture.line_new; Some "5"];
      mkNode "mixed.log" true 10 1704000001000000 true
             [Some Fixture.line_new; Some line_aware];
      mkNode "array.log" true 10 1704000002000000 true [Some line_array_level];
      mkNode "broken.log" true 10 1704000003000000 true
             [Some Fixture.line_old; None; Some Fixture.line_new];
      mkNode "gone.log" true 10 1704000004000000 false [] ].

Definition a0 : analyzer := @init RefLib fs "/var/logs".


End Fixture2.

(** The entries stored under a key equal to [k]. *)
Definition bucket (k : pyval) (g : list (pyval * list entry)) : list entry :=
  match pydict_get k g with Some es => es | None => [] end.
(** Two files whose entries share instants. *)
Module Fixture3.

Definition line_twin : string :=
  Fixture.log_line "2024-01-02T10:00:00" "WARNING" "queue is long" "app" "poll" "11".
Definition line_late : string :=
  Fixture.log_line "2024-01-02T10:00:00" "INFO" "queue drained" "app" "poll" "12".

Definition entry_twin : entry :=
  Fixture.entry_of "2024-01-02T10:00:00" "WARNING" "queue is long" "app" "poll" 11.
Definition entry_late : entry :=
  Fixture.entry_of "2024-01-02T10:00:00" "INFO" "queue drained" "app" "poll" 12.

Definition fs : filesystem :=
  mkFs true
    [ mkNode "b.log" true 10 1704000000000000 true [Some line_late; Some Fixture.line_old];
      mkNode "a.log" true 10 1704000001000000 true
             [Some Fixture.line_new; Some line_twin] ].

Definition a0 : analyzer := @init RefLib fs "/var/logs".

End Fixture3.


(** The count a histogram holds for a key equal to [k]. *)
Definition tally (k : pyval) (d : list (pyval * nat)) : nat :=
  match pydict_get k d with Some n => n | None => O end.

(** The timestamps of the entries that have one, in order. *)
Definition stamps (es : list entry) : list datetime :=
  flat_map (fun e => match parsed_timestamp e with Some t => [t] | None => [] end) es.

(** [best] is the extreme timestamp so far: absent while there is none. *)
Definition best_of (pick : datetime -> list datetime -> Prop)
           (best : option datetime) (ts : list datetime) : Prop :=
  match best with Some m => pick m ts | None => ts = [] end.

(** [s] holds, once each, the values of [field] among [done]. *)
Definition key_set {L : PyLib} (field : string) (s : list (pyval * unit))
           (done : list entry) : Prop :=
  distinct_keys (map fst s) /\
  Forall (fun kv => py_hashable (fst kv) = true) s /\
  Forall (fun e => py_hashable (group_key field e) = true) done /\
  forall k, pydict_get k s <> None <-> exists e, In e done /\ in_group field k e = true.

(** [d] counts the entries of [done] by level. *)
Definition level_tally {L : PyLib} (d : list (pyval * nat)) (done : list entry) : Prop :=
  distinct_keys (map fst d) /\
  Forall (fun kv => py_hashable (fst kv) = true) d /\
  Forall (fun kv => (0 < snd kv)%nat) d /\
  Forall (fun e => py_hashable (group_key "level" e) = true) done /\
  forall k, tally k d = List.length (filter (in_group "level" k) done).

(** The locals of [get_log_stats], its entry counter apart, describe the
    entries [done]. *)
Definition summarizes {L : PyLib} (acc : stats_acc) (done : list entry) : Prop :=
  level_tally (acc_levels acc) done /\
  key_set "module" (acc_modules acc) done /\
  key_set "function" (acc_functions acc) done /\
  best_of earliest_of (acc_earliest acc) (stamps done) /\
  best_of latest_of (acc_latest acc) (stamps done).

(** [ks] lists, once each, the values of [field] among [all]. *)
Definition holds_values {L : PyLib} (field : string) (ks : list pyval)
           (all : list entry) : Prop :=
  distinct_keys ks /\
  (forall k, In k ks -> exists e, In e all /\ in_group field k e = true) /\
  (forall e, In e all -> exists k, In k ks /\ in_group field k e = true).

(** [get_log_stats()] on the example directory of [Fixture]. *)
Definition example_stats : log_stats :=
  mkLogStats 2 3 [(PStr "INFO", 2%nat); (PStr "ERROR", 1%nat)]
             [PStr "app"; PStr "db"] 3
             (Some "2024-01-01T09:30:00") (Some "2024-01-02T10:00:00") (Some 2450).

(** ** A local zone with daylight saving time

    Central European time in the night of 2023-10-29: two hours ahead of
    UTC until 01:00 UTC, when the clocks go back from 03:00 to 02:00, and
    one hour ahead from then on. *)
Module Dst.

Definition fall_back : Z := 1698541200000000.

(** [datetime.fromtimestamp] in that zone: the naive local reading. *)
Definition of_timestamp (mtime : Z) : datetime :=
  mkDatetime (62135596800000000 + mtime
              + (if Z.ltb mtime fall_back then 7200000000 else 3600000000)) None.

Definition lib : PyLib := {|
  json_loads := Ref.loads;
  json_too_deep := fun _ => false;
  fromisoformat := RefTime.parse_iso;
  isoformat := RefTime.format_iso;
  strftime_hour := RefTime.format_hour;
  fromtimestamp := of_timestamp;
  py_sorted := RefTime.sorted;
  round_tie_up := RefTime.tie_up
|}.

(** [older.log] was last written at 00:30 UTC, [newer.log] forty minutes
    later, at 01:10 UTC. *)
Definition older : node := mkNode "older.log" true 10 1698539400000000 true [].
Definition newer : node := mkNode "newer.log" true 20 1698541800000000 true [].

Definition fs : filesystem := mkFs true [newer; older].

Definition a0 : analyzer := @init lib fs "/var/logs".

End Dst.

(** * Properties *)

(** ** Entry parser *)

Section ParserFacts.
Context {L : PyLib}.

Lemma all_fields_in_dict (fs : list string) (d : list (string * pyval)) :
  all_fields_in fs (PDict d) = Ok (forallb (fun f => dict_mem f d) fs).
Proof.
  induction fs as [|f fs IH]; simpl; [reflexivity|].
  destruct (dict_mem f d); simpl; [exact IH | reflexivity].
Qed.

(** A line that does not decode is skipped. *)
Lemma parse_not_json (line : string) :
  json_loads (strip line) = None -> json_too_deep (strip line) = false ->
  parse_log_entry line = Ok None.
Proof.
  intros H Hd. unfold parse_log_entry, parse_log_entry_try. rewrite H, Hd. reflexivity.
Qed.

(** A line nested too deeply for the decoder is not skipped: the
    [RecursionError] of [json.loads] is none of the exceptions caught. *)
Lemma parse_too_deep (line : string) :
  json_loads (strip line) = None -> json_too_deep (strip line) = true ->
  parse_log_entry line = Raise RecursionError.
Proof.
  intros H Hd. unfold parse_log_entry, parse_log_entry_try. rewrite H, Hd. reflexivity.
Qed.

(** A JSON object lacking a required field is skipped. *)
Lemma parse_missing_field (line : string) (d : list (string * pyval)) (f : string) :
  json_loads (strip line) = Some (PDict d) ->
  In f required_fields -> dict_mem f d = false ->
  parse_log_entry line = Ok None.
Proof.
  intros H Hin Hf. unfold parse_log_entry, parse_log_entry_try. rewrite H.
  rewrite all_fields_in_dict.
  assert (Hall : forallb (fun f => dict_mem f d) required_fields = false).
  { destruct (forallb (fun f0 => dict_mem f0 d) required_fields) eqn:E; [|reflexivity].
    rewrite forallb_forall in E. rewrite (E f Hin) in Hf. discriminate. }
  rewrite Hall. reflexivity.
Qed.

(** A JSON object whose timestamp string is not ISO-8601 is skipped. *)
Lemma parse_bad_timestamp (line : string) (d : list (string * pyval)) (s : string) :
  json_loads (strip line) = Some (PDict d) ->
  dict_get "timestamp" d = Some (PStr s) -> fromisoformat s = None ->
  parse_log_entry line = Ok None.
Proof.
  intros H Hts Hiso. unfold parse_log_entry, parse_log_entry_try. rewrite H.
  rewrite all_fields_in_dict.
  destruct (forallb (fun f => dict_mem f d) required_fields); simpl; [|reflexivity].
  rewrite Hts. simpl. rewrite Hiso. reflexivity.
Qed.

(** What a returned entry looks like. *)
Lemma parse_some_inv (line : string) (e : entry) :
  parse_log_entry line = Ok (Some e) ->
  json_loads (strip line) = Some (PDict (fields e)) /\
  (forall f, In f required_fields -> dict_mem f (fields e) = true) /\
  exists s dt, dict_get "timestamp" (fields e) = Some (PStr s) /\
               fromisoformat s = Some dt /\ parsed_timestamp e = Some dt.
Proof.
  unfold parse_log_entry, parse_log_entry_try.
  destruct (json_loads (strip line)) as [v|] eqn:Hj;
    [|destruct (json_too_deep (strip line)); discriminate].
  destruct (all_fields_in required_fields v) as [b|x] eqn:Hall; simpl;
    [|destruct (parse_caught x); discriminate].
  destruct b; [|discriminate].
  destruct v as [| | | | |l|d|]; simpl;
    try discriminate;
    try (destruct (existsb _ l); discriminate).
  rewrite all_fields_in_dict in Hall.
  assert (Hall' : forallb (fun f => dict_mem f d) required_fields = true)
    by (injection Hall as Hall; exact Hall).
  clear Hall.
  destruct (dict_get "timestamp" d) as [ts|] eqn:Hts; simpl; [|discriminate].
  destruct ts as [| | | |s| | |]; simpl; try discriminate.
  destruct (fromisoformat s) as [dt|] eqn:Hiso; simpl; [|discriminate].
  intros H. injection H as <-. simpl. split; [reflexivity|]. split.
  - intros f Hf. rewrite forallb_forall in Hall'. exact (Hall' f Hf).
  - exists s, dt. auto.
Qed.

(** The exceptions that leave [parse_log_entry] are the decoder's
    [RecursionError] and, on a decoded value, [TypeError]. *)
Lemma parse_raise_inv (line : string) (x : exn) :
  parse_log_entry line = Raise x ->
  match json_loads (strip line) with
  | None => x = RecursionError /\ json_too_deep (strip line) = true
  | Some _ => x = TypeError
  end.
Proof.
  unfold parse_log_entry.
  destruct (parse_log_entry_try line) as [r|y] eqn:E; [discriminate|].
  destruct (parse_caught y) eqn:Ec; [discriminate|]. intros H. injection H as <-.
  unfold parse_log_entry_try in E.
  destruct (json_loads (strip line)) as [v|];
    [|injection E as <-; destruct (json_too_deep (strip line));
      [split; reflexivity | discriminate]].
  assert (Hall : forall fs r, all_fields_in fs v = Raise r -> r = TypeError).
  { induction fs as [|f fs IH]; simpl; [discriminate|]. intros r.
    destruct (py_contains f v) as [b|z] eqn:Ep; simpl.
    - destruct b; [apply IH | discriminate].
    - intros H. injection H as <-. destruct v; simpl in Ep; congruence. }
  destruct (all_fields_in required_fields v) as [b|z] eqn:Ea; simpl in E.
  - destruct b; [|discriminate].
    destruct (py_getitem v "timestamp") as [ts|z] eqn:Eg; simpl in E.
    + destruct (py_fromisoformat ts) as [dt|z] eqn:Ef; simpl in E.
      * destruct v; congruence.
      * injection E as <-. destruct ts; simpl in Ef; try congruence.
        destruct (fromisoformat s); [discriminate|].
        injection Ef as <-. discriminate.
    + injection E as <-. destruct v; simpl in Eg; try congruence.
      destruct (dict_get "timestamp" d); [discriminate|].
      injection Eg as <-. discriminate.
  - injection E as <-. exact (Hall _ _ Ea).
Qed.

Lemma parse_some_timestamp (line : string) (e : entry) :
  parse_log_entry line = Ok (Some e) -> exists dt, parsed_timestamp e = Some dt.
Proof.
  intros H. destruct (parse_some_inv _ _ H) as (_ & _ & s & dt & _ & _ & Hp).
  exists dt. exact Hp.
Qed.

End ParserFacts.

(** C1 (the code departs from the claim).  The line [5] is valid JSON and not
    an object, so the claim has [parse] return absent; [json.loads] gives the
    integer 5, the test ["timestamp" in 5] raises [TypeError], and the
    [except] clause of [parse_log_entry] does not list it: the exception
    reaches the caller. *)
Theorem parse_log_entry_raises_on_json_number :
  @json_loads RefLib (strip "5") = Some (PInt 5) /\
  py_contains "timestamp" (PInt 5) = Raise TypeError /\
  @parse_log_entry RefLib "5" = Raise TypeError.
Proof. repeat split; reflexivity. Qed.

(** ** Stable descending sort *)

Section SortDescFacts.
Context {A : Type} (lt : A -> A -> bool).
Hypothesis lt_asym : forall x y, lt x y = true -> lt y x = false.

Lemma insert_desc_perm (x : A) (l : list A) : Permutation (x :: l) (insert_desc lt x l).
Proof.
  induction l as [|y l IH]; simpl; [apply Permutation_refl|].
  destruct (lt x y); [|apply Permutation_refl].
  eapply perm_trans; [apply perm_swap|]. apply perm_skip. exact IH.
Qed.

Lemma sort_desc_perm (l : list A) : Permutation l (sort_desc lt l).
Proof.
  induction l as [|x l IH]; simpl; [constructor|].
  eapply perm_trans; [apply perm_skip; exact IH|]. apply insert_desc_perm.
Qed.

Lemma insert_desc_hd (x y : A) (l : list A) :
  lt x y = true -> HdRel (fun a b => lt a b = false) y l ->
  HdRel (fun a b => lt a b = false) y (insert_desc lt x l).
Proof.
  intros Hxy H. destruct l as [|z l]; simpl.
  - constructor. apply lt_asym. exact Hxy.
  - destruct (lt x z).
    + constructor. inversion H; assumption.
    + constructor. apply lt_asym. exact Hxy.
Qed.

Lemma insert_desc_sorted (x : A) (l : list A) :
  Sorted (fun a b => lt a b = false) l ->
  Sorted (fun a b => lt a b = false) (insert_desc lt x l).
Proof.
  induction l as [|y l IH]; simpl; intros H.
  - repeat constructor.
  - destruct (lt x y) eqn:E.
    + inversion H; subst. constructor; [auto|]. apply insert_desc_hd; assumption.
    + constructor; [exact H|]. constructor. exact E.
Qed.

Lemma sort_desc_sorted (l : list A) : Sorted (fun a b => lt a b = false) (sort_desc lt l).
Proof.
  induction l as [|x l IH]; simpl; [constructor|]. apply insert_desc_sorted. exact IH.
Qed.

End SortDescFacts.


Lemma Sorted_impl {A : Type} (R S : A -> A -> Prop) (l : list A) :
  (forall x y, In x l -> In y l -> R x y -> S x y) -> Sorted R l -> Sorted S l.
Proof.
  induction l as [|x l IH]; intros HRS H; [constructor|].
  inversion H; subst. constructor.
  - apply IH; [|assumption]. intros a b Ha Hb. apply HRS; right; assumption.
  - destruct l; [constructor|]. constructor. inversion H3; subst.
    apply HRS; simpl; auto.
Qed.

Lemma string_ltb_asym (s t : string) : String.ltb s t = true -> String.ltb t s = false.
Proof.
  unfold String.ltb. rewrite (String.compare_antisym s t).
  destruct (String.compare t s); simpl; congruence.
Qed.

Lemma string_ltb_false_leb (s t : string) : String.ltb s t = false -> String.leb t s = true.
Proof.
  unfold String.ltb, String.leb. rewrite (String.compare_antisym s t).
  destruct (String.compare t s); simpl; congruence.
Qed.

(** ** Dictionaries *)

Lemma dict_set_fresh {V : Type} (k : string) (v : V) (d : list (string * V)) :
  dict_get k d = None -> dict_set k v d = d ++ [(k, v)].
Proof.
  induction d as [|[k' v'] d IH]; simpl; [reflexivity|].
  destruct (String.eqb k k'); [discriminate|]. intros H. rewrite IH by exact H. reflexivity.
Qed.

Lemma dict_get_app_none {V : Type} (k : string) (d1 d2 : list (string * V)) :
  dict_get k d1 = None -> dict_get k (d1 ++ d2) = dict_get k d2.
Proof.
  induction d1 as [|[k' v'] d1 IH]; simpl; [reflexivity|].
  destruct (String.eqb k k'); [discriminate|]. exact IH.
Qed.

Lemma dict_get_none_iff {V : Type} (k : string) (d : list (string * V)) :
  dict_get k d = None <-> ~ In k (map fst d).
Proof.
  induction d as [|[k' v'] d IH]; simpl; [tauto|].
  destruct (String.eqb_spec k k') as [->|Hne].
  - split; [discriminate|]. intros H. exfalso. apply H. left. reflexivity.
  - rewrite IH. split; [intros H [E|E]; [congruence|tauto] | tauto].
Qed.

Lemma cache_of_list_from (l : list file_info) (d : list (string * file_info)) :
  NoDup (map fst d ++ map fi_name l) ->
  fold_left (fun d f => dict_set (fi_name f) f d) l d
  = d ++ map (fun f => (fi_name f, f)) l.
Proof.
  revert d. induction l as [|f l IH]; intros d H; simpl.
  - rewrite app_nil_r. reflexivity.
  - assert (Hf : dict_get (fi_name f) d = None).
    { apply dict_get_none_iff. intros Hin.
      apply NoDup_remove_2 in H. apply H. apply in_or_app. left. exact Hin. }
    rewrite (dict_set_fresh _ _ _ Hf). rewrite IH.
    + rewrite <- app_assoc. reflexivity.
    + rewrite map_app. simpl. rewrite <- app_assoc. simpl. simpl in H. exact H.
Qed.

Lemma cache_of_list_nodup (l : list file_info) :
  NoDup (map fi_name l) -> cache_of_list l = map (fun f => (fi_name f, f)) l.
Proof. intros H. unfold cache_of_list. rewrite cache_of_list_from; [reflexivity | exact H]. Qed.

(** ** File catalog *)

Section CatalogFacts.
Context {L : PyLib}.
Variable fs : filesystem.

Lemma scan_names (dir : string) :
  map fi_name (scan fs dir)
  = map n_name (filter (fun n => (glob_match (n_name n) && n_is_file n)%bool) (fs_nodes fs)).
Proof. unfold scan. rewrite map_map. reflexivity. Qed.

Lemma matching_names_nodup (nodes : list node) :
  NoDup (map n_name nodes) ->
  NoDup (map n_name
           (filter (fun n => (glob_match (n_name n) && n_is_file n)%bool) nodes)).
Proof.
  induction nodes as [|n nodes IH]; simpl; intros Hnd; [constructor|].
  apply NoDup_cons_iff in Hnd. destruct Hnd as [Hfresh Hrest].
  destruct (glob_match (n_name n) && n_is_file n)%bool; simpl; [|apply IH; exact Hrest].
  apply NoDup_cons_iff. split; [|apply IH; exact Hrest].
  intros Hin. apply Hfresh. apply in_map_iff in Hin. destruct Hin as (m & Hm & Hmin).
  apply filter_In in Hmin. apply in_map_iff. exists m. tauto.
Qed.

Lemma scan_In (dir : string) (f : file_info) :
  In f (scan fs dir) <->
  exists n, In n (fs_nodes fs) /\ glob_match (n_name n) = true /\
            n_is_file n = true /\ f = describe dir n.
Proof.
  unfold scan. rewrite in_map_iff. split.
  - intros (n & <- & Hin). apply filter_In in Hin. destruct Hin as [Hin Hp].
    apply andb_true_iff in Hp. exists n. tauto.
  - intros (n & Hin & Hg & Hf & ->). exists n. split; [reflexivity|].
    apply filter_In. rewrite Hg, Hf. auto.
Qed.

Lemma refresh_count_step (a : analyzer) :
  refresh_count (_refresh_log_files fs a) = S (refresh_count a).
Proof. unfold _refresh_log_files. destruct (negb (fs_dir_exists fs)); reflexivity. Qed.



(** The refreshed catalog depends on the directory only, not on what was
    cached before. *)
Lemma refresh_cache_fresh (a b : analyzer) :
  log_directory a = log_directory b ->
  log_files_cache (_refresh_log_files fs a) = log_files_cache (_refresh_log_files fs b).
Proof.
  intros H. unfold _refresh_log_files.
  destruct (negb (fs_dir_exists fs)); simpl; [reflexivity|]. rewrite H. reflexivity.
Qed.

(** [get_log_files] runs one refresh and returns the catalog it built:
    given that the directory's children have distinct names, the list holds
    exactly the descriptors of the children that are files and whose name
    matches [*.log*], each with the child's size and the text of its
    modification time, in descending order of that text; the result does
    not depend on the catalog cached before; and when the directory does
    not exist the list and the catalog are empty, with no error. *)
Theorem get_log_files_lists_directory (a a' : analyzer) (l : list file_info) :
  NoDup (map n_name (fs_nodes fs)) ->
  get_log_files fs a = (a', l) ->
  a' = _refresh_log_files fs a /\
  refresh_count a' = S (refresh_count a) /\
  (forall b, log_directory b = log_directory a -> snd (get_log_files fs b) = l) /\
  if fs_dir_exists fs then
    Permutation l (scan fs (log_directory a)) /\
    (forall f, In f l <->
       exists n, In n (fs_nodes fs) /\ glob_match (n_name n) = true /\
                 n_is_file n = true /\
                 fi_name f = n_name n /\ fi_size f = n_size n /\
                 fi_modified f = isoformat (fromtimestamp (n_mtime n)) /\
                 fi_path f = path_of (log_directory a) (n_name n)) /\
    Sorted (fun x y => String.leb (fi_modified y) (fi_modified x) = true) l /\
    log_files_cache a' = map (fun f => (fi_name f, f)) l
  else l = [] /\ log_files_cache a' = [].
Proof.
  intros Hnd Hget. unfold get_log_files in Hget. injection Hget as <- <-.
  split; [reflexivity|]. split; [apply refresh_count_step|]. split.
  { intros b Hb. unfold get_log_files. simpl.
    rewrite (refresh_cache_fresh b a Hb). reflexivity. }
  unfold _refresh_log_files. destruct (fs_dir_exists fs); simpl; [|auto].
  set (dir := log_directory a).
  set (sorted := sort_desc modified_lt (scan fs dir)).
  assert (Hperm : Permutation (scan fs dir) sorted) by apply sort_desc_perm.
  assert (Hnames : NoDup (map fi_name sorted)).
  { apply (Permutation_NoDup (Permutation_map fi_name Hperm)).
    rewrite scan_names. apply matching_names_nodup. exact Hnd. }
  rewrite (cache_of_list_nodup _ Hnames). rewrite map_map. simpl. rewrite map_id.
  split; [apply Permutation_sym; exact Hperm|]. split.
  { intros f. split.
    - intros Hin. apply (Permutation_in _ (Permutation_sym Hperm)) in Hin.
      apply scan_In in Hin. destruct Hin as (n & Hin & Hg & Hf & ->).
      exists n. simpl. tauto.
    - intros (n & Hin & Hg & Hf & H1 & H2 & H3 & H4).
      apply (Permutation_in _ Hperm). apply scan_In. exists n.
      repeat split; try assumption.
      destruct f as [p nm sz md]; simpl in *. unfold describe. congruence. }
  split; [|reflexivity].
  apply (Sorted_impl (fun x y => modified_lt x y = false)).
  - intros x y _ _ H. apply string_ltb_false_leb. exact H.
  - apply sort_desc_sorted. intros x y. unfold modified_lt. apply string_ltb_asym.
Qed.

(** Reading a cached file does not touch the catalog. *)
Lemma read_cached_catalog (a a' : analyzer) (name : string) (max_lines : option Z)
      (r : result (list entry)) :
  read_cached fs a name max_lines = (a', r) ->
  log_files_cache a' = log_files_cache a /\ refresh_count a' = refresh_count a /\
  log_directory a' = log_directory a.
Proof.
  unfold read_cached. destruct (dict_get name (log_files_cache a)) as [info|].
  - destruct (fs_open fs (log_directory a) (fi_path info)) as [items|].
    + destruct (read_lines name max_lines 0 items [] 0) as [n r0].
      intros H. injection H as <- <-. simpl. auto.
    + intros H. injection H as <- <-. auto.
  - intros H. injection H as <- <-. auto.
Qed.

(** A cached name is read without a refresh. *)
Lemma read_log_file_cached (a : analyzer) (name : string) (max_lines : option Z) :
  dict_mem name (log_files_cache a) = true ->
  read_log_file fs a name max_lines = read_cached fs a name max_lines.
Proof. intros H. unfold read_log_file. rewrite H. reflexivity. Qed.


End CatalogFacts.

(** ** File reader *)

Section ReaderFacts.
Context {L : PyLib}.
Variable fs : filesystem.

Lemma read_lines_inv (name : string) (max_lines : option Z)
      (items : list (option string)) (i : Z) (acc : list entry) (ex n : nat)
      (r : result (list entry)) :
  read_lines name max_lines i items acc ex = (n, r) ->
  match r with
  | Ok es => Forall has_timestamp acc -> Forall has_timestamp es
  | Raise e => e = RuntimeError name
  end.
Proof.
  revert i acc ex. induction items as [|[line|] items IH]; intros i acc ex; simpl.
  - intros H. injection H as <- <-. auto.
  - destruct (cap_reached max_lines i).
    + intros H. injection H as <- <-. auto.
    + destruct (parse_log_entry line) as [[e|]|x] eqn:Hp.
      * intros H. apply IH in H. destruct r; [|exact H].
        intros Hacc. apply H. apply Forall_app. split; [exact Hacc|].
        constructor; [|constructor]. exact (parse_some_timestamp _ _ Hp).
      * apply IH.
      * intros H. injection H as <- <-. reflexivity.
  - intros H. injection H as <- <-. reflexivity.
Qed.


Lemma read_cached_inv (a a' : analyzer) (name : string) (max_lines : option Z)
      (r : result (list entry)) :
  dict_mem name (log_files_cache a) = true ->
  read_cached fs a name max_lines = (a', r) ->
  match r with
  | Ok es => Forall has_timestamp es
  | Raise e => e = RuntimeError name
  end.
Proof.
  unfold read_cached, dict_mem.
  destruct (dict_get name (log_files_cache a)) as [info|]; [|discriminate].
  intros _. destruct (fs_open fs (log_directory a) (fi_path info)) as [items|].
  - destruct (read_lines name max_lines 0 items [] 0) as [n r0] eqn:E.
    intros H. injection H as <- <-. apply read_lines_inv in E.
    destruct r0; [apply E; constructor | exact E].
  - intros H. injection H as <- <-. reflexivity.
Qed.

(** [read_log_file] returns entries that carry a timestamp, or raises one
    of the two errors the multi-file operations pass over. *)
Lemma read_log_file_inv (a a' : analyzer) (name : string) (max_lines : option Z)
      (r : result (list entry)) :
  read_log_file fs a name max_lines = (a', r) ->
  match r with
  | Ok es => Forall has_timestamp es
  | Raise e => file_error e = true
  end.
Proof.
  unfold read_log_file.
  destruct (dict_mem name (log_files_cache a)) eqn:E.
  - intros H. apply (read_cached_inv _ _ _ _ _ E) in H.
    destruct r; [exact H | subst; reflexivity].
  - destruct (dict_mem name (log_files_cache (_refresh_log_files fs a))) eqn:E'.
    + intros H. apply (read_cached_inv _ _ _ _ _ E') in H.
      destruct r; [exact H | subst; reflexivity].
    + intros H. injection H as <- <-. reflexivity.
Qed.



(** The gathering loop never fails, and what it gathers carries
    timestamps. *)
Lemma collect_entries_ok (files : list string) (a : analyzer) (acc : list entry) :
  exists all, snd (collect_entries fs a files acc) = Ok all /\
              (Forall has_timestamp acc -> Forall has_timestamp all).
Proof.
  revert a acc. induction files as [|f files IH]; intros a acc; simpl.
  - exists acc. auto.
  - destruct (read_log_file fs a f None) as [a' r] eqn:E.
    apply read_log_file_inv in E. destruct r as [es|x].
    + destruct (IH a' (acc ++ es)) as (all & H1 & H2). exists all. split; [exact H1|].
      intros Hacc. apply H2. apply Forall_app. auto.
    + rewrite E. apply IH.
Qed.

End ReaderFacts.

(** C4 (the code departs from the claim).  With [max_lines = 0] the claim
    allows no line to be examined; the guard [if max_lines and i >=
    max_lines] takes 0 for "no cap", so all three lines of [app.log] reach
    the parser and both of its entries are returned. *)
Theorem read_log_file_zero_cap_reads_all :
  lines_examined Fixture.a0 = 0%nat /\
  lines_examined (fst (read_log_file Fixture.fs Fixture.a0 "app.log" (Some 0))) = 3%nat /\
  snd (read_log_file Fixture.fs Fixture.a0 "app.log" (Some 0))
  = Ok [Fixture.entry_new; Fixture.entry_old].
Proof. repeat split; reflexivity. Qed.

(** Witnesses of the catalog theorems on the example directory. *)

Lemma get_log_files_lists_directory_witness :
  NoDup (map n_name (fs_nodes Fixture.fs)) /\
  map fi_name (snd (get_log_files Fixture.fs Fixture.a0)) = ["app.log"; "app.log.1"] /\
  Sorted (fun x y => String.leb (fi_modified y) (fi_modified x) = true)
         (snd (get_log_files Fixture.fs Fixture.a0)).
Proof.
  assert (Hnd : NoDup (map n_name (fs_nodes Fixture.fs))).
  { simpl. repeat constructor; simpl; intuition discriminate. }
  split; [exact Hnd|]. split; [reflexivity|].
  destruct (get_log_files_lists_directory Fixture.fs Fixture.a0 _ _ Hnd eq_refl)
    as (_ & _ & _ & H).
  simpl fs_dir_exists in H. cbv iota in H.
  destruct H as (_ & _ & H & _). exact H.
Defined.


(** ** Corpus statistics *)

Section StatisticsFacts.
Context {L : PyLib}.
Variable fs : filesystem.

Lemma stats_result_inv (n : nat) (acc : stats_acc) (st : log_stats) :
  stats_result n acc = Ok st ->
  total_files st = n /\ stats_total_entries st = acc_total acc.
Proof.
  unfold stats_result.
  destruct (py_sorted (map fst (acc_modules acc))) as [um|x]; simpl; [|discriminate].
  destruct (acc_earliest acc) as [ea|]; destruct (acc_latest acc) as [la|]; simpl;
    try (intros H; injection H as <-; simpl; auto).
  destruct (dt_sub la ea); simpl; [|discriminate].
  intros H; injection H as <-; simpl; auto.
Qed.

(** C10.  Whenever [get_log_stats] returns, [total_files] is the number of
    file names selected for the call: the caller's list, or the catalogued
    names when no list is given.  Names that fail to resolve or to read
    are counted all the same. *)
Theorem get_log_stats_total_files (a a' : analyzer) (files : option (list string))
        (st : log_stats) :
  get_log_stats fs a files = (a', Ok st) ->
  total_files st = List.length (selected_files a files) /\
  total_files st = match files with
                   | Some names => List.length names
                   | None => List.length (log_files_cache a)
                   end.
Proof.
  unfold get_log_stats.
  destruct (stats_files fs a (selected_files a files) acc_empty) as [a1 r].
  intros H. injection H as _ H. destruct r as [acc|x]; simpl in H; [|discriminate].
  apply stats_result_inv in H. destruct H as [H _]. split; [exact H|].
  rewrite H. destruct files; simpl; [reflexivity|]. apply length_map.
Qed.

(** Statistics over one name that is neither cached nor on disk: one file,
    no entries. *)
Lemma get_log_stats_missing_file (a : analyzer) (name : string) :
  dict_mem name (log_files_cache a) = false ->
  dict_mem name (log_files_cache (_refresh_log_files fs a)) = false ->
  py_sorted [] = Ok [] ->
  snd (get_log_stats fs a (Some [name]))
  = Ok (mkLogStats 1 0 [] [] 0 None None None).
Proof.
  intros H1 H2 Hs. unfold get_log_stats. simpl.
  unfold read_log_file. rewrite H1, H2. simpl.
  unfold stats_result. simpl. rewrite Hs. reflexivity.
Qed.

End StatisticsFacts.

Lemma get_log_stats_total_files_witness :
  get_log_stats Fixture.fs_absent Fixture.a_absent (Some ["missing.log"])
  = (fst (get_log_stats Fixture.fs_absent Fixture.a_absent (Some ["missing.log"])),
     Ok (mkLogStats 1 0 [] [] 0 None None None)) /\
  total_files (mkLogStats 1 0 [] [] 0 None None None) = 1%nat.
Proof.
  split; [reflexivity|].
  exact (proj1 (get_log_stats_total_files Fixture.fs_absent Fixture.a_absent _
                  (Some ["missing.log"]) _ eq_refl)).
Defined.

(** ** Query engine *)

Section QueryFacts.
Context {L : PyLib}.
Variable fs : filesystem.

Lemma supplied_nonempty (o : option string) (s : string) :
  supplied o = Some s -> o = Some s /\ exists c r, s = String c r.
Proof.
  destruct o as [[|c r]|]; simpl; try discriminate.
  intros H. injection H as <-. eauto.
Qed.


Lemma bound_skips_absent (cmp : datetime -> datetime -> result bool) (e : entry) :
  bound_skips cmp None e = Ok false.
Proof. reflexivity. Qed.

Lemma filter_entries_ext (f g : query_filter) (l : list entry) :
  (forall e, entry_passes f e = entry_passes g e) ->
  filter_entries f l = filter_entries g l.
Proof.
  intros H. induction l as [|e l IH]; simpl; [reflexivity|]. rewrite H, IH. reflexivity.
Qed.

Lemma query_logs_ext (a : analyzer) (files : option (list string))
      (f g : query_filter) (limit : option Z) :
  (forall e, entry_passes f e = entry_passes g e) ->
  query_logs fs a files f limit = query_logs fs a files g limit.
Proof.
  intros H. unfold query_logs, query_entries.
  destruct (collect_entries fs a (selected_files a files) []) as [a' r].
  destruct r as [all|x]; simpl; [|reflexivity].
  rewrite (filter_entries_ext f g all H). reflexivity.
Qed.

(** *** What passing the filter loop means *)

Lemma entry_passes_true (f : query_filter) (e : entry) :
  entry_passes f e = Ok true <->
  level_skips (q_level f) e = Ok false /\
  field_skips "module" (q_module f) e = false /\
  field_skips "function" (q_function f) e = false /\
  message_skips (q_message_contains f) e = Ok false /\
  bound_skips dt_lt (q_start_time f) e = Ok false /\
  bound_skips dt_gt (q_end_time f) e = Ok false.
Proof.
  unfold entry_passes.
  destruct (level_skips (q_level f) e) as [[|]|x]; simpl;
    try (split; [discriminate | intros (H & _); discriminate]).
  destruct (field_skips "module" (q_module f) e);
    try (split; [discriminate | intros (_ & H & _); discriminate]).
  destruct (field_skips "function" (q_function f) e);
    try (split; [discriminate | intros (_ & _ & H & _); discriminate]).
  destruct (message_skips (q_message_contains f) e) as [[|]|x]; simpl;
    try (split; [discriminate | intros (_ & _ & _ & H & _); discriminate]).
  destruct (bound_skips dt_lt (q_start_time f) e) as [[|]|x]; simpl;
    try (split; [discriminate | intros (_ & _ & _ & _ & H & _); discriminate]).
  destruct (bound_skips dt_gt (q_end_time f) e) as [[|]|x]; simpl;
    try (split; [discriminate | intros (_ & _ & _ & _ & _ & H); discriminate]).
  tauto.
Qed.

Lemma upper_nonempty (c : ascii) (r : string) : upper (String c r) <> EmptyString.
Proof. simpl. discriminate. Qed.

Lemma level_skips_sat (o : option string) (lvl : string) (e : entry) :
  level_skips o e = Ok false -> supplied o = Some lvl -> sat_level lvl e.
Proof.
  unfold level_skips. intros H Hs. rewrite Hs in H.
  destruct (supplied_nonempty _ _ Hs) as (_ & c & r & ->).
  unfold entry_get_default in H. unfold sat_level.
  destruct (entry_get e "level") as [v|].
  - destruct v; simpl in H; try discriminate.
    injection H as H. apply negb_false_iff in H. apply String.eqb_eq in H. eauto.
  - simpl in H. discriminate.
Qed.

Lemma field_skips_sat (field : string) (o : option string) (v : string) (e : entry) :
  field_skips field o e = false -> supplied o = Some v -> sat_field field v e.
Proof.
  unfold field_skips. intros H Hs. rewrite Hs in H.
  destruct (supplied_nonempty _ _ Hs) as (_ & c & r & ->).
  unfold entry_get_default in H. unfold sat_field.
  destruct (entry_get e field) as [w|].
  - destruct w; simpl in H; try discriminate.
    apply negb_false_iff in H. apply String.eqb_eq in H. congruence.
  - simpl in H. discriminate.
Qed.

Lemma message_skips_sat (o : option string) (mc : string) (e : entry) :
  message_skips o e = Ok false -> supplied o = Some mc -> sat_message mc e.
Proof.
  unfold message_skips. intros H Hs. rewrite Hs in H.
  destruct (supplied_nonempty _ _ Hs) as (_ & c & r & ->).
  unfold entry_get_default in H. unfold sat_message.
  destruct (entry_get e "message") as [v|].
  - destruct v; simpl in H; try discriminate.
    injection H as H. apply negb_false_iff in H. eauto.
  - simpl in H. discriminate.
Qed.

Lemma dt_comparable_sym (x y : datetime) : dt_comparable x y = dt_comparable y x.
Proof. unfold dt_comparable. destruct (dt_aware x), (dt_aware y); reflexivity. Qed.

Lemma dt_lt_false (x y : datetime) :
  dt_lt x y = Ok false -> dt_comparable x y = true /\ dt_instant y <= dt_instant x.
Proof.
  unfold dt_lt. destruct (dt_comparable x y); [|discriminate].
  intros H. injection H as H. apply Z.ltb_ge in H. auto.
Qed.

Lemma start_skips_sat (o : option string) (st : string) (e : entry) :
  bound_skips dt_lt o e = Ok false -> supplied o = Some st -> sat_start st e.
Proof.
  unfold bound_skips. intros H Hs. rewrite Hs in H. intros b ts Hb Hts.
  rewrite Hb, Hts in H. apply dt_lt_false in H. exact H.
Qed.

Lemma end_skips_sat (o : option string) (en : string) (e : entry) :
  bound_skips dt_gt o e = Ok false -> supplied o = Some en -> sat_end en e.
Proof.
  unfold bound_skips. intros H Hs. rewrite Hs in H. intros b ts Hb Hts.
  rewrite Hb, Hts in H. unfold dt_gt in H. apply dt_lt_false in H.
  rewrite dt_comparable_sym. exact H.
Qed.

(** An entry the loop appends satisfies every supplied predicate. *)
Lemma entry_passes_satisfies (f : query_filter) (e : entry) :
  entry_passes f e = Ok true -> satisfies f e.
Proof.
  intros H. apply entry_passes_true in H.
  destruct H as (H1 & H2 & H3 & H4 & H5 & H6).
  unfold satisfies.
  split; [|split; [|split; [|split; [|split]]]]; intros x Hx.
  - exact (level_skips_sat _ _ _ H1 Hx).
  - exact (field_skips_sat _ _ _ _ H2 Hx).
  - exact (field_skips_sat _ _ _ _ H3 Hx).
  - exact (message_skips_sat _ _ _ H4 Hx).
  - exact (start_skips_sat _ _ _ H5 Hx).
  - exact (end_skips_sat _ _ _ H6 Hx).
Qed.

End QueryFacts.

Section QueryOrder.
Context {L : PyLib}.
Variable fs : filesystem.

Lemma filter_entries_ok (f : query_filter) (l m : list entry) :
  filter_entries f l = Ok m -> m = filter (passes_b f) l.
Proof.
  revert m. induction l as [|e l IH]; simpl; intros m H.
  - injection H as <-. reflexivity.
  - unfold passes_b at 1. destruct (entry_passes f e) as [b|x]; simpl in H; [|discriminate].
    destruct (filter_entries f l) as [r|x]; simpl in H; [|discriminate].
    injection H as <-. rewrite (IH r eq_refl). destruct b; reflexivity.
Qed.

Lemma dropped_level (x' x : option string) (e : entry) :
  dropped x' x -> level_skips x e = Ok false -> level_skips x' e = Ok false.
Proof. intros [-> | ->] H; [reflexivity | exact H]. Qed.

Lemma dropped_field (field : string) (x' x : option string) (e : entry) :
  dropped x' x -> field_skips field x e = false -> field_skips field x' e = false.
Proof. intros [-> | ->] H; [reflexivity | exact H]. Qed.

Lemma dropped_message (x' x : option string) (e : entry) :
  dropped x' x -> message_skips x e = Ok false -> message_skips x' e = Ok false.
Proof. intros [-> | ->] H; [reflexivity | exact H]. Qed.

Lemma dropped_bound (cmp : datetime -> datetime -> result bool) (x' x : option string)
      (e : entry) :
  dropped x' x -> bound_skips cmp x e = Ok false -> bound_skips cmp x' e = Ok false.
Proof. intros [-> | ->] H; [reflexivity | exact H]. Qed.

(** An entry that passes a filter passes every weaker one, which does not
    raise on it either. *)
Lemma weaker_passes (f' f : query_filter) (e : entry) :
  weaker f' f -> entry_passes f e = Ok true -> entry_passes f' e = Ok true.
Proof.
  intros (W1 & W2 & W3 & W4 & W5 & W6) H.
  apply entry_passes_true in H. destruct H as (H1 & H2 & H3 & H4 & H5 & H6).
  apply entry_passes_true.
  split; [exact (dropped_level _ _ _ W1 H1)|].
  split; [exact (dropped_field _ _ _ _ W2 H2)|].
  split; [exact (dropped_field _ _ _ _ W3 H3)|].
  split; [exact (dropped_message _ _ _ W4 H4)|].
  split; [exact (dropped_bound _ _ _ _ W5 H5) | exact (dropped_bound _ _ _ _ W6 H6)].
Qed.

Lemma filter_grows (p q : entry -> bool) (l : list entry) :
  (forall e, p e = true -> q e = true) ->
  incl (filter p l) (filter q l) /\
  (List.length (filter p l) <= List.length (filter q l))%nat.
Proof.
  intros Hpq. split.
  - intros e He. apply filter_In in He. apply filter_In. destruct He. auto.
  - induction l as [|e l IH]; simpl; [lia|].
    destruct (p e) eqn:Ep.
    + rewrite (Hpq e Ep). simpl. lia.
    + destruct (q e); simpl; lia.
Qed.

Lemma key_lt_asym (x y : entry) : key_lt x y = true -> key_lt y x = false.
Proof. unfold key_lt. intros H. apply Z.ltb_lt in H. apply Z.ltb_ge. lia. Qed.

Lemma dt_comparable_trans (x y z : datetime) :
  dt_comparable y x = true -> dt_comparable y z = true -> dt_comparable x z = true.
Proof.
  unfold dt_comparable. destruct (dt_aware x), (dt_aware y), (dt_aware z); simpl; congruence.
Qed.


Lemma sort_newest_first_inv (l s : list entry) :
  sort_newest_first l = Ok s ->
  keys_uniform l = true /\ s = sort_desc key_lt l /\ Permutation l s /\
  Sorted (fun x y => key_lt x y = false) s.
Proof.
  unfold sort_newest_first. destruct (keys_uniform l); [|discriminate].
  intros H. injection H as <-. split; [reflexivity|]. split; [reflexivity|].
  split; [apply sort_desc_perm | apply sort_desc_sorted; exact key_lt_asym].
Qed.


Lemma slice_to_firstn {A : Type} (lim : Z) (l : list A) :
  exists k, slice_to lim l = firstn k l.
Proof. unfold slice_to. destruct (Z.leb 0 lim); eauto. Qed.


Lemma slice_to_length_mono {A : Type} (lim : Z) (l1 l2 : list A) :
  (List.length l1 <= List.length l2)%nat ->
  (List.length (slice_to lim l1) <= List.length (slice_to lim l2))%nat.
Proof.
  intros H. unfold slice_to. destruct (Z.leb 0 lim); rewrite !length_firstn; lia.
Qed.

Lemma firstn_incl {A : Type} (k : nat) (l : list A) : incl (firstn k l) l.
Proof.
  intros x Hx. rewrite <- (firstn_skipn k l). apply in_or_app. left. exact Hx.
Qed.

(** How a returned query result comes about. *)
Lemma query_logs_inv (a a' : analyzer) (files : option (list string))
      (f : query_filter) (limit : option Z) (res : list entry) :
  query_logs fs a files f limit = (a', Ok res) ->
  exists all matching,
    snd (collect_entries fs a (selected_files a files) []) = Ok all /\
    Forall has_timestamp all /\
    filter_entries f all = Ok matching /\
    keys_uniform matching = true /\
    res = slice_to (match limit with Some n => n | None => default_limit end)
                   (sort_desc key_lt matching).
Proof.
  unfold query_logs, query_entries.
  destruct (collect_entries_ok fs (selected_files a files) a []) as (all & Hall & Hts).
  destruct (collect_entries fs a (selected_files a files) []) as [a1 r].
  simpl in Hall. subst r. intros H. injection H as _ H. simpl in H.
  destruct (filter_entries f all) as [matching|x] eqn:Hf; simpl in H; [|discriminate].
  destruct (sort_newest_first matching) as [s|x] eqn:Hs; simpl in H; [|discriminate].
  injection H as <-. apply sort_newest_first_inv in Hs.
  destruct Hs as (Hu & -> & _ & _).
  exists all, matching. repeat split; auto.
Qed.

End QueryOrder.

Section QueryTheorems.
Context {L : PyLib}.
Variable fs : filesystem.

Lemma filtered_in (f : query_filter) (all : list entry) (e : entry) :
  In e (filter (passes_b f) all) -> In e all /\ entry_passes f e = Ok true.
Proof.
  intros H. apply filter_In in H. destruct H as [Hin Hp]. split; [exact Hin|].
  unfold passes_b in Hp. destruct (entry_passes f e) as [[|]|]; congruence.
Qed.

(** C3 (amended).  Every entry of a returned result satisfies every supplied
    (non-empty) predicate of the filter.  When a filter and a weaker one,
    with some predicates removed, both return on the same corpus, the
    entries matching the first, before truncation to the limit, are among
    those matching the second, and the returned result never gets
    shorter. *)
Theorem query_logs_conjunctive (a a1 a2 : analyzer) (files : option (list string))
        (f f' : query_filter) (limit : option Z) (r1 r2 : list entry) :
  weaker f' f ->
  query_logs fs a files f limit = (a1, Ok r1) ->
  query_logs fs a files f' limit = (a2, Ok r2) ->
  (forall e, In e r1 -> satisfies f e) /\
  (exists all m1 m2,
      snd (collect_entries fs a (selected_files a files) []) = Ok all /\
      filter_entries f all = Ok m1 /\ filter_entries f' all = Ok m2 /\
      incl r1 m1 /\ incl r2 m2 /\ incl m1 m2 /\
      (List.length m1 <= List.length m2)%nat) /\
  (List.length r1 <= List.length r2)%nat.
Proof.
  intros W H1 H2. apply query_logs_inv in H1, H2.
  destruct H1 as (all & m1 & Hall & Hts & Hf1 & Hu1 & Hr1).
  destruct H2 as (all' & m2 & Hall' & _ & Hf2 & Hu2 & Hr2).
  rewrite Hall in Hall'. injection Hall' as <-.
  pose proof (filter_entries_ok _ _ _ Hf1) as E1.
  pose proof (filter_entries_ok _ _ _ Hf2) as E2.
  assert (Hin1 : incl r1 m1).
  { intros e He. rewrite Hr1 in He.
    destruct (slice_to_firstn (match limit with Some n => n | None => default_limit end)
                              (sort_desc key_lt m1)) as [k Hk].
    rewrite Hk in He. apply firstn_incl in He.
    apply (Permutation_in _ (Permutation_sym (sort_desc_perm key_lt m1))). exact He. }
  assert (Hin2 : incl r2 m2).
  { intros e He. rewrite Hr2 in He.
    destruct (slice_to_firstn (match limit with Some n => n | None => default_limit end)
                              (sort_desc key_lt m2)) as [k Hk].
    rewrite Hk in He. apply firstn_incl in He.
    apply (Permutation_in _ (Permutation_sym (sort_desc_perm key_lt m2))). exact He. }
  assert (Hgrow : incl m1 m2 /\ (List.length m1 <= List.length m2)%nat).
  { rewrite E1, E2. apply filter_grows. intros e He. unfold passes_b in *.
    destruct (entry_passes f e) as [[|]|] eqn:Ep; try discriminate.
    rewrite (weaker_passes f' f e W Ep). reflexivity. }
  split.
  { intros e He. apply Hin1 in He. rewrite E1 in He. apply filtered_in in He.
    apply entry_passes_satisfies. tauto. }
  split; [exists all, m1, m2; tauto|].
  rewrite Hr1, Hr2. apply slice_to_length_mono.
  rewrite <- (Permutation_length (sort_desc_perm key_lt m1)).
  rewrite <- (Permutation_length (sort_desc_perm key_lt m2)). tauto.
Qed.





End QueryTheorems.

(** Examples of the query theorems on the example directory. *)


Lemma weaker_no_filter (f : query_filter) : weaker Fixture.no_filter f.
Proof. unfold weaker, dropped. simpl. tauto. Qed.

Lemma query_logs_conjunctive_witness :
  weaker Fixture.no_filter Fixture.errors_only /\
  snd (query_logs Fixture.fs Fixture.a0 None Fixture.errors_only None)
  = Ok [Fixture.entry_old] /\
  snd (query_logs Fixture.fs Fixture.a0 None Fixture.no_filter None)
  = Ok [Fixture.entry_new; Fixture.entry_mid; Fixture.entry_old] /\
  satisfies Fixture.errors_only Fixture.entry_old /\
  (List.length [Fixture.entry_old]
   <= List.length [Fixture.entry_new; Fixture.entry_mid; Fixture.entry_old])%nat.
Proof.
  split; [apply weaker_no_filter|]. split; [reflexivity|]. split; [reflexivity|].
  assert (H1 : query_logs Fixture.fs Fixture.a0 None Fixture.errors_only None
               = (fst (query_logs Fixture.fs Fixture.a0 None Fixture.errors_only None),
                  Ok [Fixture.entry_old])) by reflexivity.
  assert (H2 : query_logs Fixture.fs Fixture.a0 None Fixture.no_filter None
               = (fst (query_logs Fixture.fs Fixture.a0 None Fixture.no_filter None),
                  Ok [Fixture.entry_new; Fixture.entry_mid; Fixture.entry_old]))
    by reflexivity.
  destruct (query_logs_conjunctive Fixture.fs Fixture.a0 _ _ None
              Fixture.errors_only Fixture.no_filter None _ _
              (weaker_no_filter _) H1 H2)
    as (Hsat & _ & Hlen).
  split; [apply Hsat; left; reflexivity | exact Hlen].
Defined.


(** C3 as stated fails under truncation: with limit 1 the filter
    [level = "error"] returns the one ERROR entry; without the level
    predicate the same query returns only the newest entry, and the ERROR
    entry is gone from the result. *)
Lemma query_logs_limit_breaks_monotonicity :
  weaker Fixture.no_filter Fixture.errors_only /\
  snd (query_logs Fixture.fs Fixture.a0 None Fixture.errors_only (Some 1))
  = Ok [Fixture.entry_old] /\
  snd (query_logs Fixture.fs Fixture.a0 None Fixture.no_filter (Some 1))
  = Ok [Fixture.entry_new] /\
  In Fixture.entry_old [Fixture.entry_old] /\
  ~ In Fixture.entry_old [Fixture.entry_new].
Proof.
  split; [apply weaker_no_filter|]. split; [reflexivity|]. split; [reflexivity|].
  split; [left; reflexivity|].
  intros [H|[]]. discriminate H.
Qed.

(** ** Aggregation engine *)

Section DictFacts.
Context {V : Type}.

Lemma pydict_get_none (key : pyval) (d : list (pyval * V)) :
  pydict_get key d = None <-> Forall (fun k => py_key_eqb key k = false) (map fst d).
Proof.
  induction d as [|[k v] d IH]; simpl.
  - split; [constructor | reflexivity].
  - destruct (py_key_eqb key k) eqn:E.
    + split; [discriminate|]. intros H. inversion H; congruence.
    + rewrite IH. split; [intros H; constructor; assumption | intros H; inversion H; assumption].
Qed.

Lemma pydict_set_fresh (key : pyval) (v : V) (d : list (pyval * V)) :
  pydict_get key d = None -> pydict_set key v d = d ++ [(key, v)].
Proof.
  induction d as [|[k w] d IH]; simpl; [reflexivity|].
  destruct (py_key_eqb key k); [discriminate|]. intros H. rewrite (IH H). reflexivity.
Qed.

Lemma pydict_set_keys (key : pyval) (v : V) (d : list (pyval * V)) :
  map fst (pydict_set key v d)
  = match pydict_get key d with
    | Some _ => map fst d
    | None => map fst d ++ [key]
    end.
Proof.
  induction d as [|[k w] d IH]; simpl; [reflexivity|].
  destruct (py_key_eqb key k); simpl; [reflexivity|].
  rewrite IH. destruct (pydict_get key d); reflexivity.
Qed.

End DictFacts.

Lemma distinct_keys_nil : distinct_keys [].
Proof. intros l1 k l2 H. destruct l1; discriminate. Qed.

Lemma distinct_keys_snoc (ks : list pyval) (key : pyval) :
  distinct_keys ks -> Forall (fun k' => py_key_eqb key k' = false) ks ->
  distinct_keys (ks ++ [key]).
Proof.
  intros Hd Hk l1 k l2 H.
  destruct (exists_last (l := k :: l2)) as (l2' & z & Hz); [discriminate|].
  rewrite Hz, app_assoc in H. apply app_inj_tail in H. destruct H as [H <-].
  destruct l2' as [|y l2'].
  - simpl in Hz. injection Hz as ->. rewrite app_nil_r in H. subst. exact Hk.
  - simpl in Hz. injection Hz as -> ->. exact (Hd l1 y (l2' ++ nil) ltac:(rewrite app_nil_r; exact H) ).
Qed.

Section GroupingFacts.
Context {L : PyLib}.

Lemma group_add_inv (key : pyval) (e : entry) (g g' : list (pyval * list entry))
      (Q : list entry -> Prop) :
  group_add key e g = Ok g' ->
  (distinct_keys (map fst g) -> distinct_keys (map fst g')) /\
  grouped g' = S (grouped g) /\
  (Q [e] -> (forall es, Q es -> Q (es ++ [e])) ->
   Forall (fun kv => Q (snd kv)) g -> Forall (fun kv => Q (snd kv)) g').
Proof.
  unfold group_add. destruct (py_hashable key); [|discriminate].
  intros H. injection H as <-. split; [|split].
  - intros Hd. rewrite pydict_set_keys.
    destruct (pydict_get key g) eqn:E; [exact Hd|].
    apply distinct_keys_snoc; [exact Hd|]. apply pydict_get_none. exact E.
  - unfold grouped. induction g as [|[k es] g IH]; simpl; [reflexivity|].
    destruct (py_key_eqb key k); simpl.
    + rewrite length_app. simpl. lia.
    + rewrite IH. lia.
  - intros Q1 Q2. induction g as [|[k es] g IH]; simpl; intros HQ.
    + constructor; [exact Q1 | constructor].
    + inversion HQ; subst. destruct (py_key_eqb key k); simpl.
      * constructor; [apply Q2; assumption | assumption].
      * constructor; [assumption | apply IH; assumption].
Qed.

Lemma group_entries_inv (group_by : string) (l : list entry)
      (g g' : list (pyval * list entry)) (P : entry -> Prop) :
  group_entries group_by l g = Ok g' ->
  (distinct_keys (map fst g) -> distinct_keys (map fst g')) /\
  grouped g' = (grouped g + List.length l)%nat /\
  (Forall (fun kv => snd kv <> []) g -> Forall (fun kv => snd kv <> []) g') /\
  (Forall P l -> Forall (fun kv => Forall P (snd kv)) g ->
   Forall (fun kv => Forall P (snd kv)) g').
Proof.
  revert g. induction l as [|e l IH]; simpl; intros g H.
  - injection H as <-. repeat split; auto.
  - destruct (group_add (group_key group_by e) e g) as [g1|x] eqn:E; simpl in H;
      [|discriminate].
    destruct (IH g1 H) as (I1 & I2 & I3 & I4).
    destruct (group_add_inv _ _ _ _ (fun es => es <> []) E) as (A1 & A2 & A3).
    destruct (group_add_inv _ _ _ _ (Forall P) E) as (_ & _ & A4).
    split; [auto|]. split; [rewrite I2, A2; lia|]. split.
    + intros Hne. apply I3. apply A3; [discriminate | | exact Hne].
      intros es _ Hc. destruct es; discriminate.
    + intros HP Hg. inversion HP; subst. apply I4; [assumption|].
      apply A4; [repeat constructor; assumption | | exact Hg].
      intros es Hes. apply Forall_app. split; [exact Hes | repeat constructor; assumption].
Qed.

(** The result dictionary has one item per group, in the groups' order. *)
Lemma summarize_inv (n : nat) (g : list (pyval * list entry))
      (out res : list (pyval * group_stats)) :
  summarize n g out = Ok res ->
  distinct_keys (map fst out ++ map fst g) ->
  exists ss, res = out ++ ss /\
             Forall2 (fun kv ks => fst kv = fst ks /\
                                   group_summary n (snd kv) = Ok (snd ks)) g ss.
Proof.
  revert out. induction g as [|[k es] g IH]; simpl; intros out H Hd.
  - injection H as <-. exists []. rewrite app_nil_r. split; [reflexivity | constructor].
  - destruct (group_summary n es) as [s|x] eqn:Es; simpl in H; [|discriminate].
    assert (Hfresh : pydict_get k out = None).
    { apply pydict_get_none. exact (Hd (map fst out) k (map fst g) eq_refl). }
    rewrite (pydict_set_fresh _ _ _ Hfresh) in H.
    destruct (IH (out ++ [(k, s)]) H) as (ss & -> & Hss).
    { rewrite map_app. simpl. rewrite <- app_assoc. exact Hd. }
    exists ((k, s) :: ss). rewrite <- app_assoc. split; [reflexivity|].
    constructor; [simpl; auto | exact Hss].
Qed.

Lemma min_from_spec (cur : datetime) (l : list datetime) (m : datetime) :
  min_from cur l = Ok m -> earliest_of m (cur :: l).
Proof.
  revert cur. induction l as [|x l IH]; simpl; intros cur H.
  - injection H as <-. split; [left; reflexivity|]. intros x [<-|[]]. lia.
  - unfold dt_lt in H. destruct (dt_comparable x cur); simpl in H; [|discriminate].
    apply IH in H. destruct H as [Hin Hle].
    destruct (Z.ltb_spec (dt_instant x) (dt_instant cur)) as [Hlt|Hge].
    + split.
      * destruct Hin as [<-|Hin]; [right; left; reflexivity | right; right; exact Hin].
      * intros y [<-|[<-|Hy]].
        -- specialize (Hle x (or_introl eq_refl)). lia.
        -- apply Hle. left. reflexivity.
        -- apply Hle. right. exact Hy.
    + split.
      * destruct Hin as [<-|Hin]; [left; reflexivity | right; right; exact Hin].
      * intros y [<-|[<-|Hy]].
        -- apply Hle. left. reflexivity.
        -- specialize (Hle cur (or_introl eq_refl)). lia.
        -- apply Hle. right. exact Hy.
Qed.

Lemma max_from_spec (cur : datetime) (l : list datetime) (m : datetime) :
  max_from cur l = Ok m -> latest_of m (cur :: l).
Proof.
  revert cur. induction l as [|x l IH]; simpl; intros cur H.
  - injection H as <-. split; [left; reflexivity|]. intros x [<-|[]]. lia.
  - unfold dt_gt, dt_lt in H. destruct (dt_comparable cur x); simpl in H; [|discriminate].
    apply IH in H. destruct H as [Hin Hle].
    destruct (Z.ltb_spec (dt_instant cur) (dt_instant x)) as [Hlt|Hge].
    + split.
      * destruct Hin as [<-|Hin]; [right; left; reflexivity | right; right; exact Hin].
      * intros y [<-|[<-|Hy]].
        -- specialize (Hle x (or_introl eq_refl)). lia.
        -- apply Hle. left. reflexivity.
        -- apply Hle. right. exact Hy.
    + split.
      * destruct Hin as [<-|Hin]; [left; reflexivity | right; right; exact Hin].
      * intros y [<-|[<-|Hy]].
        -- apply Hle. left. reflexivity.
        -- specialize (Hle cur (or_introl eq_refl)). lia.
        -- apply Hle. right. exact Hy.
Qed.

(** What the statistics of a non-empty group are, sentinels included. *)
Lemma group_summary_inv (n : nat) (es : list entry) (gs : group_stats) :
  group_summary n es = Ok gs -> es <> [] ->
  count gs = List.length es /\
  percentage gs = percentage_of (List.length es) n /\
  exists mn mx,
    earliest_of mn (map (timestamp_or datetime_max) es) /\
    latest_of mx (map (timestamp_or datetime_min) es) /\
    first_seen gs = Some (isoformat mn) /\ last_seen gs = Some (isoformat mx).
Proof.
  unfold group_summary, first_seen_of, last_seen_of.
  destruct es as [|e es]; [intros _ H; congruence|]. simpl. intros H _.
  destruct (min_from (timestamp_or datetime_max e) (map (timestamp_or datetime_max) es))
    as [mn|x] eqn:Emin; simpl in H; [|discriminate].
  destruct (max_from (timestamp_or datetime_min e) (map (timestamp_or datetime_min) es))
    as [mx|x] eqn:Emax; simpl in H; [|discriminate].
  injection H as <-. simpl. split; [reflexivity|]. split; [reflexivity|].
  exists mn, mx. split; [exact (min_from_spec _ _ _ Emin)|].
  split; [exact (max_from_spec _ _ _ Emax) | auto].
Qed.

Lemma timestamps_of (es : list entry) :
  Forall has_timestamp es ->
  exists ts, map parsed_timestamp es = map Some ts /\
             forall d, map (timestamp_or d) es = ts.
Proof.
  induction 1 as [|e es [t Ht] _ (ts & H1 & H2)].
  - exists []. auto.
  - exists (t :: ts). simpl. rewrite H1, Ht. split; [reflexivity|].
    intros d. rewrite H2. unfold timestamp_or. rewrite Ht. reflexivity.
Qed.

End GroupingFacts.

Section AggregationReturns.
Context {L : PyLib}.








End AggregationReturns.

Section AggregationTheorems.
Context {L : PyLib}.
Variable fs : filesystem.




Lemma aggregate_entries_inv (group_by : string) (all : list entry) (agg : aggregation) :
  aggregate_entries group_by all = Ok agg ->
  exists g,
    group_entries group_by all [] = Ok g /\
    agg_group_by agg = group_by /\
    total_entries agg = List.length all /\
    grouped g = List.length all /\
    Forall (fun kv => snd kv <> []) g /\
    (forall P : entry -> Prop, Forall P all -> Forall (fun kv => Forall P (snd kv)) g) /\
    Forall2 (fun kv ks => fst kv = fst ks /\
                          group_summary (List.length all) (snd kv) = Ok (snd ks))
            g (groups agg).
Proof.
  unfold aggregate_entries.
  destruct (group_entries group_by all []) as [g|x] eqn:Eg; simpl; [|discriminate].
  destruct (summarize (List.length all) g []) as [out|x] eqn:Es; simpl; [|discriminate].
  intros H. injection H as <-. simpl. exists g.
  destruct (group_entries_inv _ _ _ _ (fun _ => True) Eg) as (I1 & I2 & I3 & _).
  destruct (summarize_inv _ _ _ _ Es) as (ss & -> & Hss).
  { simpl. apply I1. apply distinct_keys_nil. }
  repeat split; auto.
  - intros P HP. destruct (group_entries_inv _ _ _ _ P Eg) as (_ & _ & _ & I4).
    apply I4; [exact HP | constructor].
Qed.



Lemma Forall2_and_Forall {A B : Type} (R : A -> B -> Prop) (P : A -> Prop)
      (l1 : list A) (l2 : list B) :
  Forall P l1 -> Forall2 R l1 l2 -> Forall2 (fun x y => P x /\ R x y) l1 l2.
Proof.
  intros HP H. induction H; [constructor|].
  inversion HP; subst. constructor; auto.
Qed.

(** C2.  Whenever [aggregate_logs] returns, its groups are, key by key,
    the groups of the entries read, and for every group [first_seen] and
    [last_seen] are the ISO-8601 forms of the earliest and the latest
    timestamp among the group's entries.  A group whose entries all lack
    the timestamp has both values null; no call meets such a group, since
    no group is empty and every entry read carries a timestamp. *)
Theorem aggregate_logs_first_last_seen
        (a a' : analyzer) (files : option (list string)) (group_by : option string)
        (agg : aggregation) :
  aggregate_logs fs a files group_by = (a', Ok agg) ->
  exists all g,
    snd (collect_entries fs a (selected_files a files) []) = Ok all /\
    group_entries (match group_by with Some s => s | None => "level" end) all [] = Ok g /\
    Forall2 (fun kv ks =>
               fst kv = fst ks /\ snd kv <> [] /\ incl (snd kv) all /\
               (exists ts mn mx,
                  map parsed_timestamp (snd kv) = map Some ts /\
                  earliest_of mn ts /\ latest_of mx ts /\
                  first_seen (snd ks) = Some (isoformat mn) /\
                  last_seen (snd ks) = Some (isoformat mx)) /\
               (Forall (fun e => parsed_timestamp e = None) (snd kv) ->
                first_seen (snd ks) = None /\ last_seen (snd ks) = None))
            g (groups agg).
Proof.
  unfold aggregate_logs.
  destruct (collect_entries_ok fs (selected_files a files) a []) as (all & Hall & Hts).
  destruct (collect_entries fs a (selected_files a files) []) as [a1 r].
  simpl in Hall. subst r. intros H. injection H as _ H. simpl in H.
  destruct (aggregate_entries_inv _ _ _ H) as (g & Hg & _ & _ & _ & Hne & HP & Hss).
  exists all, g. split; [reflexivity|]. split; [exact Hg|].
  specialize (HP (fun e => In e all /\ has_timestamp e)).
  assert (Hall' : Forall (fun e => In e all /\ has_timestamp e) all).
  { specialize (Hts (Forall_nil _)). rewrite Forall_forall in *. auto. }
  specialize (HP Hall').
  pose proof (Forall2_and_Forall _ _ _ _ Hne (Forall2_and_Forall _ _ _ _ HP Hss)) as HF.
  clear - HF. induction HF as [|[k es] [k' gs] g ss (Hne & HP & Hk & Hs) _ IH];
    [constructor|]. constructor; [|exact IH]. simpl in *.
  split; [exact Hk|]. split; [exact Hne|]. split.
  { intros e He. rewrite Forall_forall in HP. apply HP. exact He. }
  assert (Hts : Forall has_timestamp es).
  { rewrite Forall_forall in *. intros e He. apply HP. exact He. }
  destruct (timestamps_of es Hts) as (ts & Hmap & Hor).
  destruct (group_summary_inv _ _ _ Hs Hne) as (_ & _ & mn & mx & Hmin & Hmax & Hf & Hl).
  rewrite Hor in Hmin, Hmax. split; [exists ts, mn, mx; auto|].
  intros Hnone. exfalso. destruct es as [|e es']; [contradiction|].
  inversion Hnone as [|? ? He _]; subst. inversion Hts as [|? ? [dt Hdt] _]; subst.
  congruence.
Qed.

End AggregationTheorems.

(** Examples of the aggregation theorems on the example directory. *)

Lemma aggregate_logs_example :
  aggregate_logs Fixture.fs Fixture.a0 None None
  = (fst (aggregate_logs Fixture.fs Fixture.a0 None None), Ok Fixture.agg_by_level).
Proof. reflexivity. Qed.


Lemma aggregate_logs_first_last_seen_witness :
  snd (aggregate_logs Fixture.fs Fixture.a0 None None) = Ok Fixture.agg_by_level /\
  exists all g,
    snd (collect_entries Fixture.fs Fixture.a0
           (selected_files Fixture.a0 None) []) = Ok all /\
    group_entries "level" all [] = Ok g /\
    Forall2 (fun kv ks =>
               fst kv = fst ks /\ snd kv <> [] /\ incl (snd kv) all /\
               (exists ts mn mx,
                  map parsed_timestamp (snd kv) = map Some ts /\
                  earliest_of mn ts /\ latest_of mx ts /\
                  first_seen (snd ks) = Some (isoformat mn) /\
                  last_seen (snd ks) = Some (isoformat mx)) /\
               (Forall (fun e => parsed_timestamp e = None) (snd kv) ->
                first_seen (snd ks) = None /\ last_seen (snd ks) = None))
            g (groups Fixture.agg_by_level).
Proof.
  split; [reflexivity|].
  exact (aggregate_logs_first_last_seen Fixture.fs Fixture.a0 _ None None _
           aggregate_logs_example).
Defined.

(** * Further properties *)

(** ** Entry parser *)

Section ParserMore.
Context {L : PyLib}.

Lemma all_fields_in_str (fs : list string) (s : string) :
  all_fields_in fs (PStr s) = Ok (forallb (fun f => str_contains f s) fs).
Proof.
  induction fs as [|f fs IH]; simpl; [reflexivity|].
  destruct (str_contains f s); simpl; [exact IH | reflexivity].
Qed.

Lemma all_fields_in_list (fs : list string) (l : list pyval) :
  all_fields_in fs (PList l)
  = Ok (forallb (fun f => existsb (fun x => match x with
                                            | PStr s => String.eqb s f
                                            | _ => false
                                            end) l) fs).
Proof.
  induction fs as [|f fs IH]; simpl; [reflexivity|].
  destruct (existsb _ l); simpl; [exact IH | reflexivity].
Qed.

Lemma existsb_is_field (f : string) (l : list pyval) :
  existsb (fun x => match x with PStr s => String.eqb s f | _ => false end) l = true
  <-> In (PStr f) l.
Proof.
  rewrite existsb_exists. split.
  - intros (x & Hin & Hx). destruct x; try discriminate.
    apply String.eqb_eq in Hx. subst. exact Hin.
  - intros Hin. exists (PStr f). split; [exact Hin | apply String.eqb_refl].
Qed.

(** X1.  [parse_log_entry] returns an entry exactly for a line that decodes to a
    JSON object holding the six required fields, with a string timestamp
    that [fromisoformat] accepts; the entry is that object, every field of
    the line passed through, with the parsed timestamp attached. *)
Theorem parse_log_entry_returns_iff (line : string) (e : entry) :
  parse_log_entry line = Ok (Some e) <->
  exists d s dt,
    json_loads (strip line) = Some (PDict d) /\
    (forall f, In f required_fields -> dict_mem f d = true) /\
    dict_get "timestamp" d = Some (PStr s) /\
    fromisoformat s = Some dt /\
    e = mkEntry d (Some dt).
Proof.
  split.
  - intros H. destruct (parse_some_inv _ _ H) as (Hj & Hall & s & dt & Hts & Hiso & Hp).
    exists (fields e), s, dt. repeat split; auto.
    destruct e as [fl pt]. simpl in *. rewrite Hp. reflexivity.
  - intros (d & s & dt & Hj & Hall & Hts & Hiso & ->).
    unfold parse_log_entry, parse_log_entry_try. rewrite Hj, all_fields_in_dict.
    assert (Hf : forallb (fun f => dict_mem f d) required_fields = true)
      by (apply forallb_forall; exact Hall).
    rewrite Hf. simpl. rewrite Hts. simpl. rewrite Hiso. reflexivity.
Qed.

(** X2.  [parse_log_entry] raises in exactly two cases.  Either
    [json.loads] fails with [RecursionError], on a line nested too deeply
    for it, which the [except] clause does not list.  Or the line decodes
    to null, a boolean or a number, to a string or an array that contains
    all six field names, or to an object that holds the six fields with a
    timestamp that is not a string; the exception is then [TypeError]. *)
Theorem parse_log_entry_raises_iff (line : string) (x : exn) :
  parse_log_entry line = Raise x <->
  (x = RecursionError /\
   json_loads (strip line) = None /\ json_too_deep (strip line) = true) \/
  (x = TypeError /\ exists v, json_loads (strip line) = Some v /\ raising_value v).
Proof.
  split.
  - intros H. pose proof (parse_raise_inv _ _ H) as Hx.
    destruct (json_loads (strip line)) as [v|] eqn:Hj;
      [|left; destruct Hx as [Hx Hd]; auto].
    right. split; [exact Hx|].
    unfold parse_log_entry, parse_log_entry_try in H. rewrite Hj in H.
    exists v. split; [reflexivity|].
    destruct v as [| | | |s|l|d|]; simpl; auto.
    + rewrite all_fields_in_str in H.
      destruct (forallb (fun f => str_contains f s) required_fields) eqn:E;
        [|simpl in H; discriminate].
      intros f Hf. rewrite forallb_forall in E. exact (E f Hf).
    + rewrite all_fields_in_list in H.
      destruct (forallb _ required_fields) eqn:E; [|simpl in H; discriminate].
      intros f Hf. rewrite forallb_forall in E. apply existsb_is_field. exact (E f Hf).
    + rewrite all_fields_in_dict in H.
      destruct (forallb (fun f => dict_mem f d) required_fields) eqn:E;
        [|simpl in H; discriminate].
      split; [intros f Hf; rewrite forallb_forall in E; exact (E f Hf)|].
      simpl in H.
      destruct (dict_get "timestamp" d) as [t|] eqn:Ht; [|discriminate].
      exists t. split; [reflexivity|]. intros s ->. simpl in H.
      destruct (fromisoformat s); discriminate.
  - intros [(-> & Hj & Hd) | (-> & v & Hj & Hv)];
      [apply parse_too_deep; assumption|].
    unfold parse_log_entry, parse_log_entry_try. rewrite Hj.
    destruct v as [| | | |s|l|d|]; cbn [raising_value] in Hv; try reflexivity.
    + rewrite all_fields_in_str.
      assert (E : forallb (fun f => str_contains f s) required_fields = true)
        by (apply forallb_forall; exact Hv).
      rewrite E. reflexivity.
    + rewrite all_fields_in_list.
      assert (E : forallb (fun f => existsb (fun x => match x with
                                                      | PStr s => String.eqb s f
                                                      | _ => false
                                                      end) l) required_fields = true).
      { apply forallb_forall. intros f Hf. apply existsb_is_field. exact (Hv f Hf). }
      rewrite E. reflexivity.
    + destruct Hv as (Hall & t & Ht & Hns). rewrite all_fields_in_dict.
      assert (E : forallb (fun f => dict_mem f d) required_fields = true)
        by (apply forallb_forall; exact Hall).
      rewrite E. simpl. rewrite Ht. simpl.
      destruct t; simpl; try reflexivity. exfalso. exact (Hns s eq_refl).
Qed.

End ParserMore.

(** ** File reader and catalog *)

Section ReaderMore.
Context {L : PyLib}.
Variable fs : filesystem.

Lemma cap_reached_below (max_lines : option Z) (j k : Z) :
  cap_reached max_lines k = false -> j <= k -> cap_reached max_lines j = false.
Proof.
  unfold cap_reached. destruct max_lines as [m|]; [|reflexivity].
  destruct (Z.eqb m 0); simpl; [reflexivity|].
  intros H Hj. apply Z.leb_gt in H. apply Z.leb_gt. lia.
Qed.

Lemma read_lines_uncapped (name : string) (max_lines : option Z) (lines : list string)
      (i : Z) (acc : list entry) (ex : nat) :
  (forall j, cap_reached max_lines j = false) ->
  Forall (fun l => exists r, parse_log_entry l = Ok r) lines ->
  read_lines name max_lines i (map Some lines) acc ex
  = ((ex + List.length lines)%nat, Ok (acc ++ entries_of_lines lines)).
Proof.
  intros Hcap H. revert i acc ex.
  induction H as [|l lines [r Hr] _ IH]; intros i acc ex; simpl.
  - rewrite app_nil_r, Nat.add_0_r. reflexivity.
  - rewrite Hcap, Hr. destruct r as [e|]; rewrite IH; simpl.
    + rewrite <- app_assoc. simpl. f_equal. lia.
    + f_equal. lia.
Qed.

Lemma read_lines_capped (name : string) (m : Z) (lines : list string)
      (i : Z) (acc : list entry) (ex : nat) :
  m <> 0 ->
  Forall (fun l => exists r, parse_log_entry l = Ok r) (firstn (Z.to_nat (m - i)) lines) ->
  read_lines name (Some m) i (map Some lines) acc ex
  = ((ex + List.length (firstn (Z.to_nat (m - i)) lines))%nat,
     Ok (acc ++ entries_of_lines (firstn (Z.to_nat (m - i)) lines))).
Proof.
  intros Hm. revert i acc ex. induction lines as [|l lines IH]; intros i acc ex H.
  - rewrite firstn_nil. simpl. rewrite app_nil_r, Nat.add_0_r. reflexivity.
  - simpl map. cbn [read_lines]. unfold cap_reached.
    destruct (Z.eqb_spec m 0) as [|_]; [contradiction|]. simpl negb. cbn [andb].
    destruct (Z.leb_spec m i) as [Hle|Hlt].
    + replace (Z.to_nat (m - i)) with O by lia. simpl.
      rewrite app_nil_r, Nat.add_0_r. reflexivity.
    + assert (E : Z.to_nat (m - i) = S (Z.to_nat (m - (i + 1)))) by lia.
      rewrite E in *. simpl firstn in *. inversion H as [|? ? [r Hr] Hrest]; subst.
      rewrite Hr. destruct r as [e|]; rewrite (IH _ _ _ Hrest); simpl.
      * rewrite Hr. rewrite <- app_assoc. simpl. f_equal. lia.
      * rewrite Hr. simpl. f_equal. lia.
Qed.

(** X3.  A cached, readable file whose examined lines all parse or are skipped
    yields the entries of those lines in file order, and exactly those lines
    are examined: all of them without a cap (or with [max_lines = 0]), the
    first [max_lines] otherwise. *)
Theorem read_log_file_readable (a : analyzer) (name : string) (max_lines : option Z)
        (info : file_info) (lines : list string) :
  dict_get name (log_files_cache a) = Some info ->
  fs_open fs (log_directory a) (fi_path info) = Some (map Some lines) ->
  Forall (fun l => exists r, parse_log_entry l = Ok r) (cap_lines max_lines lines) ->
  snd (read_log_file fs a name max_lines)
  = Ok (entries_of_lines (cap_lines max_lines lines)) /\
  lines_examined (fst (read_log_file fs a name max_lines))
  = (lines_examined a + List.length (cap_lines max_lines lines))%nat /\
  log_files_cache (fst (read_log_file fs a name max_lines)) = log_files_cache a /\
  refresh_count (fst (read_log_file fs a name max_lines)) = refresh_count a.
Proof.
  intros Hc Ho Hp. unfold read_log_file, dict_mem. rewrite Hc.
  unfold read_cached. rewrite Hc, Ho.
  assert (E : read_lines name max_lines 0 (map Some lines) [] 0
              = (List.length (cap_lines max_lines lines),
                 Ok (entries_of_lines (cap_lines max_lines lines)))).
  { unfold cap_lines in *. destruct max_lines as [m|].
    - destruct (Z.eqb_spec m 0) as [->|Hm].
      + rewrite read_lines_uncapped; [reflexivity | reflexivity | exact Hp].
      + replace m with (m - 0) in Hp |- * at 2 3 by lia.
        rewrite read_lines_capped; [|exact Hm|].
        * replace (m - 0) with m by lia. reflexivity.
        * exact Hp.
    - rewrite read_lines_uncapped; [reflexivity | reflexivity | exact Hp]. }
  rewrite E. simpl. auto.
Qed.

Lemma read_lines_fails (name : string) (max_lines : option Z) (pre : list string)
      (bad : option string) (rest : list (option string))
      (i : Z) (acc : list entry) (ex : nat) :
  Forall (fun l => exists r, parse_log_entry l = Ok r) pre ->
  cap_reached max_lines (i + Z.of_nat (List.length pre)) = false ->
  (bad = None \/ exists l x, bad = Some l /\ parse_log_entry l = Raise x) ->
  snd (read_lines name max_lines i (map Some pre ++ bad :: rest) acc ex)
  = Raise (RuntimeError name).
Proof.
  intros Hpre. revert i acc ex.
  induction Hpre as [|l pre [r Hr] _ IH]; intros i acc ex Hcap Hbad.
  - simpl in *. replace (i + 0) with i in Hcap by lia.
    destruct Hbad as [->|(l & x & -> & Hx)]; [reflexivity|].
    rewrite Hcap, Hx. reflexivity.
  - cbn [map app read_lines List.length] in *.
    rewrite (cap_reached_below _ i _ Hcap) by lia. rewrite Hr.
    destruct r as [e|]; apply IH; try exact Hbad;
      replace (i + 1 + Z.of_nat (List.length pre))
        with (i + Z.of_nat (S (List.length pre))) by lia; exact Hcap.
Qed.

(** X4.  Reading is all or nothing: when, among the lines examined, fetching a
    line fails or the parser raises on one, the read raises [RuntimeError]
    for the file and the entries parsed before it are not returned. *)
Theorem read_log_file_all_or_nothing
        (a : analyzer) (name : string) (max_lines : option Z) (info : file_info)
        (pre : list string) (bad : option string) (rest : list (option string)) :
  dict_get name (log_files_cache a) = Some info ->
  fs_open fs (log_directory a) (fi_path info) = Some (map Some pre ++ bad :: rest) ->
  Forall (fun l => exists r, parse_log_entry l = Ok r) pre ->
  cap_reached max_lines (Z.of_nat (List.length pre)) = false ->
  (bad = None \/ exists l x, bad = Some l /\ parse_log_entry l = Raise x) ->
  snd (read_log_file fs a name max_lines) = Raise (RuntimeError name).
Proof.
  intros Hc Ho Hpre Hcap Hbad. unfold read_log_file, dict_mem. rewrite Hc.
  unfold read_cached. rewrite Hc, Ho.
  pose proof (read_lines_fails name max_lines pre bad rest 0 [] 0 Hpre Hcap Hbad) as H.
  destruct (read_lines name max_lines 0 (map Some pre ++ bad :: rest) [] 0) as [n r].
  exact H.
Qed.

End ReaderMore.

Lemma prefix_iff (p s : string) :
  String.prefix p s = true <-> exists b, s = (p ++ b)%string.
Proof.
  revert s. induction p as [|c p IH]; intros s.
  - split; [intros _; exists s; reflexivity|]. intros _. destruct s; reflexivity.
  - destruct s as [|d s]; simpl.
    + split; [discriminate | intros [b Hb]; discriminate].
    + destruct (Ascii.ascii_dec c d) as [->|Hne].
      * rewrite IH. split; intros [b Hb]; exists b; congruence.
      * split; [discriminate|]. intros [b Hb]. congruence.
Qed.

(** [needle in haystack] holds exactly when the needle occurs in the
    haystack. *)
Lemma str_contains_iff (needle hay : string) :
  str_contains needle hay = true <-> exists a b, hay = (a ++ needle ++ b)%string.
Proof.
  induction hay as [|c hay IH].
  - change (str_contains needle EmptyString)
      with (String.prefix needle EmptyString || false)%bool.
    rewrite orb_false_r, prefix_iff. split.
    + intros [b Hb]. exists EmptyString, b. exact Hb.
    + intros (a & b & H). destruct a; [exists b; exact H | discriminate].
  - change (str_contains needle (String c hay))
      with (String.prefix needle (String c hay) || str_contains needle hay)%bool.
    rewrite orb_true_iff, IH, prefix_iff. split.
    + intros [[b Hb] | (a & b & H)].
      * exists EmptyString, b. exact Hb.
      * exists (String c a), b. simpl. rewrite H. reflexivity.
    + intros (a & b & H). destruct a as [|d a].
      * left. exists b. exact H.
      * right. simpl in H. injection H as _ H. exists a, b. exact H.
Qed.

(** A child's name matches [*.log*] exactly when [.log] occurs in it. *)
Theorem glob_match_iff (name : string) :
  glob_match name = true <-> exists a b, name = (a ++ ".log" ++ b)%string.
Proof. apply str_contains_iff. Qed.





Section CatalogMore.
Context {L : PyLib}.
Variable fs : filesystem.




End CatalogMore.

Section StaleCatalog.
Context {L : PyLib}.



End StaleCatalog.

Lemma read_log_file_readable_witness :
  snd (read_log_file Fixture.fs Fixture.a0 "app.log" (Some 2))
  = Ok (entries_of_lines (cap_lines (Some 2) [Fixture.line_new; "not json"; Fixture.line_old]))
  /\ entries_of_lines (cap_lines (Some 2) [Fixture.line_new; "not json"; Fixture.line_old])
     = [Fixture.entry_new].
Proof.
  split; [|reflexivity].
  refine (proj1 (read_log_file_readable Fixture.fs Fixture.a0 "app.log" (Some 2)
                   (mkFileInfo "/var/logs/app.log" "app.log" 250 "2024-01-02T10:00:00")
                   [Fixture.line_new; "not json"; Fixture.line_old]
                   eq_refl eq_refl _)).
  repeat constructor; eexists; reflexivity.
Defined.

Lemma read_log_file_all_or_nothing_witness :
  @parse_log_entry RefLib "5" = Raise TypeError /\
  snd (read_log_file Fixture2.fs Fixture2.a0 "odd.log" None)
  = Raise (RuntimeError "odd.log").
Proof.
  split; [reflexivity|].
  refine (read_log_file_all_or_nothing Fixture2.fs Fixture2.a0 "odd.log" None
            (mkFileInfo "/var/logs/odd.log" "odd.log" 10 "2023-12-31T05:20:00")
            [Fixture.line_new] (Some "5") [] eq_refl eq_refl _ eq_refl _).
  - repeat constructor. eexists. reflexivity.
  - right. exists "5", TypeError. split; reflexivity.
Defined.


(** ** Query engine *)

Section QueryMore.
Context {L : PyLib}.
Variable fs : filesystem.

Lemma sat_level_skips (o : option string) (lvl : string) (e : entry) :
  supplied o = Some lvl -> sat_level lvl e -> level_skips o e = Ok false.
Proof.
  intros Hs (s & Hg & Hu). unfold level_skips, entry_get_default.
  rewrite Hs, Hg. simpl. rewrite Hu, String.eqb_refl. reflexivity.
Qed.

Lemma sat_field_skips (field : string) (o : option string) (v : string) (e : entry) :
  supplied o = Some v -> sat_field field v e -> field_skips field o e = false.
Proof.
  intros Hs Hg. unfold field_skips, entry_get_default, sat_field in *.
  rewrite Hs, Hg. simpl. rewrite String.eqb_refl. reflexivity.
Qed.

Lemma sat_message_skips (o : option string) (mc : string) (e : entry) :
  supplied o = Some mc -> sat_message mc e -> message_skips o e = Ok false.
Proof.
  intros Hs (s & Hg & Hc). unfold message_skips, entry_get_default.
  rewrite Hs, Hg. simpl. rewrite Hc. reflexivity.
Qed.

Lemma sat_start_skips (o : option string) (e : entry) :
  (forall st, supplied o = Some st -> sat_start st e) ->
  bound_skips dt_lt o e = Ok false.
Proof.
  intros H. unfold bound_skips. destruct (supplied o) as [st|]; [|reflexivity].
  destruct (fromisoformat st) as [b|] eqn:Eb; [|reflexivity].
  destruct (parsed_timestamp e) as [ts|] eqn:Et; [|reflexivity].
  destruct (H st eq_refl b ts Eb Et) as [Hc Hle].
  unfold dt_lt. rewrite Hc. f_equal. apply Z.ltb_ge. exact Hle.
Qed.

Lemma sat_end_skips (o : option string) (e : entry) :
  (forall en, supplied o = Some en -> sat_end en e) ->
  bound_skips dt_gt o e = Ok false.
Proof.
  intros H. unfold bound_skips. destruct (supplied o) as [en|]; [|reflexivity].
  destruct (fromisoformat en) as [b|] eqn:Eb; [|reflexivity].
  destruct (parsed_timestamp e) as [ts|] eqn:Et; [|reflexivity].
  destruct (H en eq_refl b ts Eb Et) as [Hc Hle].
  unfold dt_gt, dt_lt. rewrite dt_comparable_sym, Hc. f_equal. apply Z.ltb_ge. exact Hle.
Qed.

(** The filter loop keeps an entry exactly when the entry satisfies every
    supplied predicate. *)
Lemma entry_passes_iff (f : query_filter) (e : entry) :
  entry_passes f e = Ok true <-> satisfies f e.
Proof.
  split; [apply entry_passes_satisfies|].
  intros (H1 & H2 & H3 & H4 & H5 & H6). apply entry_passes_true.
  split.
  { destruct (supplied (q_level f)) as [lvl|] eqn:E.
    - apply (sat_level_skips _ lvl); auto.
    - unfold level_skips. rewrite E. reflexivity. }
  split.
  { destruct (supplied (q_module f)) as [m|] eqn:E.
    - apply (sat_field_skips _ _ m); auto.
    - unfold field_skips. rewrite E. reflexivity. }
  split.
  { destruct (supplied (q_function f)) as [m|] eqn:E.
    - apply (sat_field_skips _ _ m); auto.
    - unfold field_skips. rewrite E. reflexivity. }
  split.
  { destruct (supplied (q_message_contains f)) as [m|] eqn:E.
    - apply (sat_message_skips _ m); auto.
    - unfold message_skips. rewrite E. reflexivity. }
  split; [apply sat_start_skips; exact H5 | apply sat_end_skips; exact H6].
Qed.

(** X8.  A returned query result holds only entries read from the selected files
    that satisfy every supplied predicate; and when the limit is at least
    the number of entries read, it holds every such entry. *)
Theorem query_logs_exact (a a' : analyzer) (files : option (list string))
        (f : query_filter) (limit : option Z) (res : list entry) :
  query_logs fs a files f limit = (a', Ok res) ->
  exists all,
    snd (collect_entries fs a (selected_files a files) []) = Ok all /\
    (forall e, In e res -> In e all /\ satisfies f e) /\
    (Z.of_nat (List.length all) <= match limit with Some n => n | None => 100 end ->
     forall e, In e all -> satisfies f e -> In e res).
Proof.
  intros H. apply query_logs_inv in H.
  destruct H as (all & matching & Hall & _ & Hf & _ & Hres).
  exists all. split; [exact Hall|].
  pose proof (filter_entries_ok _ _ _ Hf) as Em.
  pose proof (sort_desc_perm key_lt matching) as Hperm.
  set (lim := match limit with Some n => n | None => default_limit end) in *.
  split.
  - intros e He. rewrite Hres in He.
    destruct (slice_to_firstn lim (sort_desc key_lt matching)) as [k Hk].
    rewrite Hk in He. apply firstn_incl in He.
    apply (Permutation_in _ (Permutation_sym Hperm)) in He.
    rewrite Em in He. apply filtered_in in He. destruct He as [Hin Hp].
    split; [exact Hin | apply entry_passes_iff; exact Hp].
  - intros Hlen e Hin Hsat. change (Z.of_nat (List.length all) <= lim) in Hlen.
    assert (Hm : In e matching).
    { rewrite Em. apply filter_In. split; [exact Hin|]. unfold passes_b.
      apply entry_passes_iff in Hsat. rewrite Hsat. reflexivity. }
    assert (Hml : (List.length matching <= List.length all)%nat).
    { rewrite Em. apply filter_length_le. }
    rewrite Hres. unfold slice_to. destruct (Z.leb_spec 0 lim); [|lia].
    rewrite firstn_all2.
    + apply (Permutation_in _ Hperm). exact Hm.
    + rewrite <- (Permutation_length Hperm). lia.
Qed.

Lemma str_map_empty (g : ascii -> ascii) (s : string) :
  str_map g s = EmptyString -> s = EmptyString.
Proof. destruct s; [reflexivity | discriminate]. Qed.

Lemma supplied_some (c : ascii) (s : string) : supplied (Some (String c s)) = Some (String c s).
Proof. reflexivity. Qed.

(** X9.  The level and the message substring are matched without regard to
    case: two queries whose level arguments agree in upper case and whose
    message arguments agree in lower case are the same query. *)
Theorem query_logs_case_insensitive (a : analyzer) (files : option (list string))
        (l1 l2 m1 m2 : string) (md fn st en : option string) (limit : option Z) :
  upper l1 = upper l2 -> lower m1 = lower m2 ->
  query_logs fs a files (mkFilter (Some l1) md fn (Some m1) st en) limit
  = query_logs fs a files (mkFilter (Some l2) md fn (Some m2) st en) limit.
Proof.
  intros Hu Hl. apply query_logs_ext. intros e. unfold entry_passes. simpl.
  assert (E1 : level_skips (Some l1) e = level_skips (Some l2) e).
  { destruct l1 as [|c1 r1], l2 as [|c2 r2]; try reflexivity;
      try (simpl in Hu; discriminate Hu).
    unfold level_skips. rewrite !supplied_some, Hu. reflexivity. }
  assert (E2 : message_skips (Some m1) e = message_skips (Some m2) e).
  { destruct m1 as [|c1 r1], m2 as [|c2 r2]; try reflexivity;
      try (simpl in Hl; discriminate Hl).
    unfold message_skips. rewrite !supplied_some, Hl. reflexivity. }
  rewrite E1, E2. reflexivity.
Qed.

Lemma supplied_idem (o : option string) : supplied (supplied o) = supplied o.
Proof. destruct o as [[|c s]|]; reflexivity. Qed.

(** X10.  An argument given as the empty string is no predicate at all: the
    query equals the one with every such argument left out. *)
Theorem query_logs_blank_arguments (a : analyzer) (files : option (list string))
        (f : query_filter) (limit : option Z) :
  query_logs fs a files f limit = query_logs fs a files (normalize_filter f) limit /\
  query_logs fs a files
    (mkFilter (Some EmptyString) (Some EmptyString) (Some EmptyString)
              (Some EmptyString) (Some EmptyString) (Some EmptyString)) limit
  = query_logs fs a files (mkFilter None None None None None None) limit.
Proof.
  split; [|apply query_logs_ext; intros e; reflexivity].
  apply query_logs_ext. intros e.
  unfold entry_passes, normalize_filter, level_skips, field_skips, message_skips,
    bound_skips. simpl. rewrite !supplied_idem. reflexivity.
Qed.

(** X11.  A limit of zero returns nothing, and a negative limit does not fail: it
    drops that many of the oldest matching entries instead. *)
Theorem query_logs_small_limit (a a' : analyzer) (files : option (list string))
        (f : query_filter) (lim : Z) (res : list entry) :
  query_logs fs a files f (Some lim) = (a', Ok res) -> lim <= 0 ->
  (lim = 0 -> res = []) /\
  exists all matching dropped,
    snd (collect_entries fs a (selected_files a files) []) = Ok all /\
    filter_entries f all = Ok matching /\
    sort_desc key_lt matching = res ++ dropped /\
    (lim < 0 ->
     List.length dropped = Nat.min (Z.to_nat (- lim)) (List.length matching)).
Proof.
  intros H Hlim. apply query_logs_inv in H.
  destruct H as (all & matching & Hall & _ & Hf & _ & Hres).
  pose proof (Permutation_length (sort_desc_perm key_lt matching)) as Hlen.
  split.
  { intros ->. rewrite Hres. reflexivity. }
  unfold slice_to in Hres.
  destruct (Z.leb_spec 0 lim) as [H0|Hneg].
  - assert (lim = 0) by lia. subst lim. simpl in Hres.
    exists all, matching, (sort_desc key_lt matching). rewrite Hres. simpl.
    repeat split; auto. lia.
  - set (k := (List.length (sort_desc key_lt matching) - Z.to_nat (- lim))%nat) in *.
    exists all, matching, (skipn k (sort_desc key_lt matching)).
    split; [exact Hall|]. split; [exact Hf|]. split.
    + rewrite Hres. symmetry. apply firstn_skipn.
    + intros _. rewrite length_skipn. unfold k. rewrite <- Hlen. lia.
Qed.

End QueryMore.

Lemma query_logs_exact_witness :
  snd (query_logs Fixture.fs Fixture.a0 None Fixture.errors_only None)
  = Ok [Fixture.entry_old] /\
  exists all,
    snd (collect_entries Fixture.fs Fixture.a0
           (selected_files Fixture.a0 None) []) = Ok all /\
    (forall e, In e [Fixture.entry_old] ->
               In e all /\ satisfies Fixture.errors_only e) /\
    (Z.of_nat (List.length all) <= 100 ->
     forall e, In e all -> satisfies Fixture.errors_only e ->
               In e [Fixture.entry_old]).
Proof.
  split; [reflexivity|].
  assert (H : query_logs Fixture.fs Fixture.a0 None Fixture.errors_only None
              = (fst (query_logs Fixture.fs Fixture.a0 None Fixture.errors_only None),
                 Ok [Fixture.entry_old])) by reflexivity.
  exact (query_logs_exact (L := RefLib) Fixture.fs Fixture.a0 _ None
           Fixture.errors_only None _ H).
Defined.

Lemma query_logs_case_insensitive_witness :
  upper "error" = upper "Error" /\ lower "DISK" = lower "disk" /\
  query_logs Fixture.fs Fixture.a0 None
    (mkFilter (Some "error") None None (Some "DISK") None None) None
  = query_logs Fixture.fs Fixture.a0 None
      (mkFilter (Some "Error") None None (Some "disk") None None) None.
Proof.
  assert (Hu : upper "error" = upper "Error") by reflexivity.
  assert (Hl : lower "DISK" = lower "disk") by reflexivity.
  split; [exact Hu|]. split; [exact Hl|].
  exact (query_logs_case_insensitive (L := RefLib) Fixture.fs Fixture.a0 None
           "error" "Error" "DISK" "disk" None None None None None Hu Hl).
Defined.

Lemma query_logs_small_limit_witness :
  snd (query_logs Fixture.fs Fixture.a0 None Fixture.no_filter (Some (-1)))
  = Ok [Fixture.entry_new; Fixture.entry_mid] /\
  exists all matching dropped,
    snd (collect_entries Fixture.fs Fixture.a0
           (selected_files Fixture.a0 None) []) = Ok all /\
    filter_entries Fixture.no_filter all = Ok matching /\
    sort_desc key_lt matching = [Fixture.entry_new; Fixture.entry_mid] ++ dropped /\
    (-1 < 0 ->
     List.length dropped = Nat.min (Z.to_nat (- (-1))) (List.length matching)).
Proof.
  split; [reflexivity|].
  assert (H : query_logs Fixture.fs Fixture.a0 None Fixture.no_filter (Some (-1))
              = (fst (query_logs Fixture.fs Fixture.a0 None Fixture.no_filter (Some (-1))),
                 Ok [Fixture.entry_new; Fixture.entry_mid])) by reflexivity.
  assert (Hl : -1 <= 0) by lia.
  exact (proj2 (query_logs_small_limit (L := RefLib) Fixture.fs Fixture.a0 _ None
                  Fixture.no_filter (-1) _ H Hl)).
Defined.

(** ** Calls that leave the file list out *)

Lemma dict_mem_key {V : Type} (k : string) (d : list (string * V)) :
  In k (map fst d) -> dict_mem k d = true.
Proof.
  intros H. unfold dict_mem. destruct (dict_get k d) eqn:E; [reflexivity|].
  apply dict_get_none_iff in E. contradiction.
Qed.

Section DefaultFiles.
Context {L : PyLib}.
Variable fs : filesystem.

(** A read of a catalogued name leaves the catalog as it is. *)
Lemma read_log_file_keeps_catalog (a : analyzer) (name : string) (max_lines : option Z) :
  dict_mem name (log_files_cache a) = true ->
  log_files_cache (fst (read_log_file fs a name max_lines)) = log_files_cache a /\
  refresh_count (fst (read_log_file fs a name max_lines)) = refresh_count a /\
  log_directory (fst (read_log_file fs a name max_lines)) = log_directory a.
Proof.
  intros H. rewrite (read_log_file_cached fs a name max_lines H).
  destruct (read_cached fs a name max_lines) as [a' r] eqn:E.
  apply read_cached_catalog in E. exact E.
Qed.

Lemma collect_entries_keeps_catalog (files : list string) (a : analyzer)
      (acc : list entry) :
  Forall (fun n => dict_mem n (log_files_cache a) = true) files ->
  log_files_cache (fst (collect_entries fs a files acc)) = log_files_cache a /\
  refresh_count (fst (collect_entries fs a files acc)) = refresh_count a /\
  log_directory (fst (collect_entries fs a files acc)) = log_directory a.
Proof.
  revert a acc. induction files as [|n rest IH]; intros a acc Hall.
  - simpl. auto.
  - inversion Hall as [|? ? Hn Hrest]; subst.
    destruct (read_log_file_keeps_catalog a n None Hn) as (Hc & Hr & Hd).
    simpl. destruct (read_log_file fs a n None) as [a' r] eqn:E. simpl in Hc, Hr, Hd.
    assert (Hall' : Forall (fun n => dict_mem n (log_files_cache a') = true) rest)
      by (rewrite Hc; exact Hrest).
    assert (Hfe : match r with Ok _ => True | Raise e => file_error e = true end).
    { pose proof (read_log_file_inv fs a a' n None r E) as Hi.
      destruct r; [exact I | exact Hi]. }
    destruct r as [es|e].
    + destruct (IH a' (acc ++ es) Hall') as (H1 & H2 & H3).
      rewrite H1, H2, H3. auto.
    + rewrite Hfe. destruct (IH a' acc Hall') as (H1 & H2 & H3).
      rewrite H1, H2, H3. auto.
Qed.

Lemma stats_files_keeps_catalog (files : list string) (a : analyzer) (acc : stats_acc) :
  Forall (fun n => dict_mem n (log_files_cache a) = true) files ->
  log_files_cache (fst (stats_files fs a files acc)) = log_files_cache a /\
  refresh_count (fst (stats_files fs a files acc)) = refresh_count a /\
  log_directory (fst (stats_files fs a files acc)) = log_directory a.
Proof.
  revert a acc. induction files as [|n rest IH]; intros a acc Hall.
  - simpl. auto.
  - inversion Hall as [|? ? Hn Hrest]; subst.
    destruct (read_log_file_keeps_catalog a n None Hn) as (Hc & Hr & Hd).
    simpl. destruct (read_log_file fs a n None) as [a' r] eqn:E. simpl in Hc, Hr, Hd.
    assert (Hall' : Forall (fun n => dict_mem n (log_files_cache a') = true) rest)
      by (rewrite Hc; exact Hrest).
    assert (Hnext : forall acc',
               log_files_cache (fst (stats_files fs a' rest acc')) = log_files_cache a /\
               refresh_count (fst (stats_files fs a' rest acc')) = refresh_count a /\
               log_directory (fst (stats_files fs a' rest acc')) = log_directory a).
    { intros acc'. destruct (IH a' acc' Hall') as (H1 & H2 & H3).
      rewrite H1, H2, H3. auto. }
    destruct r as [es|e].
    + destruct (stats_entries _ es) as [acc2 [x|]].
      * destruct (file_error x); [apply Hnext | simpl; auto].
      * apply Hnext.
    + destruct (file_error e); [apply Hnext | simpl; auto].
Qed.

Lemma catalogued_names (a : analyzer) :
  Forall (fun n => dict_mem n (log_files_cache a) = true) (selected_files a None).
Proof.
  apply Forall_forall. intros n Hn. apply dict_mem_key. exact Hn.
Qed.

(** X12.  Called without a file list, the three analyses work from the catalog
    as it stands: they never rescan the directory, so the catalog and the
    number of refreshes are the same after the call as before. *)
Theorem default_files_never_refresh (a : analyzer) (f : query_filter)
        (limit : option Z) (group_by : option string) :
  let unchanged (a' : analyzer) :=
    log_files_cache a' = log_files_cache a /\ refresh_count a' = refresh_count a in
  unchanged (fst (query_logs fs a None f limit)) /\
  unchanged (fst (aggregate_logs fs a None group_by)) /\
  unchanged (fst (get_log_stats fs a None)).
Proof.
  cbv zeta. pose proof (catalogued_names a) as Hall.
  unfold query_logs, aggregate_logs, get_log_stats.
  destruct (collect_entries_keeps_catalog _ a [] Hall) as (H1 & H2 & _).
  destruct (stats_files_keeps_catalog _ a acc_empty Hall) as (H3 & H4 & _).
  destruct (collect_entries fs a (selected_files a None) []) as [a1 r1].
  destruct (stats_files fs a (selected_files a None) acc_empty) as [a2 r2].
  simpl in *. auto.
Qed.

End DefaultFiles.

(** ** Order among entries of one instant *)

Section SortStable.
Context {A : Type} (lt : A -> A -> bool) (same : A -> bool).
Hypothesis same_not_lt : forall x y, same x = true -> same y = true -> lt x y = false.

Lemma insert_desc_stable (x : A) (l : list A) :
  filter same (insert_desc lt x l) = filter same (x :: l).
Proof.
  induction l as [|y l IH]; [reflexivity|].
  cbn [insert_desc]. destruct (lt x y) eqn:E; [|reflexivity].
  cbn [filter] in *. rewrite IH.
  destruct (same x) eqn:Ex; [|reflexivity].
  destruct (same y) eqn:Ey; [|reflexivity].
  rewrite (same_not_lt x y Ex Ey) in E. discriminate.
Qed.

Lemma sort_desc_stable (l : list A) : filter same (sort_desc lt l) = filter same l.
Proof.
  induction l as [|x l IH]; [reflexivity|].
  change (sort_desc lt (x :: l)) with (insert_desc lt x (sort_desc lt l)).
  rewrite insert_desc_stable. cbn [filter]. rewrite IH. reflexivity.
Qed.

End SortStable.

Lemma at_instant_not_lt (t : Z) (x y : entry) :
  at_instant t x = true -> at_instant t y = true -> key_lt x y = false.
Proof.
  unfold at_instant, key_lt. intros Hx Hy.
  apply Z.eqb_eq in Hx. apply Z.eqb_eq in Hy. apply Z.ltb_ge. lia.
Qed.

Section QueryTies.
Context {L : PyLib}.
Variable fs : filesystem.

(** X13.  Entries of one and the same instant come back in the order in which
    they were read (file by file, line by line): for every instant, the
    returned entries of that instant are the first of the matching entries
    of that instant, in reading order. *)
Theorem query_logs_ties_keep_read_order (a a' : analyzer) (files : option (list string))
        (f : query_filter) (limit : option Z) (res : list entry) :
  query_logs fs a files f limit = (a', Ok res) ->
  exists all,
    snd (collect_entries fs a (selected_files a files) []) = Ok all /\
    forall t, exists later,
      filter (at_instant t) (filter (passes_b f) all)
      = filter (at_instant t) res ++ later.
Proof.
  intros H. apply query_logs_inv in H.
  destruct H as (all & matching & Hall & _ & Hf & _ & Hres).
  exists all. split; [exact Hall|]. intros t.
  apply filter_entries_ok in Hf. rewrite <- Hf.
  destruct (slice_to_firstn (match limit with Some n => n | None => default_limit end)
              (sort_desc key_lt matching)) as [k Hk].
  rewrite Hres, Hk.
  exists (filter (at_instant t) (skipn k (sort_desc key_lt matching))).
  rewrite <- filter_app, firstn_skipn.
  symmetry. apply sort_desc_stable. apply at_instant_not_lt.
Qed.

End QueryTies.

(** ** Time bounds with a UTC offset *)

Section QueryOffsets.
Context {L : PyLib}.
Variable fs : filesystem.

Lemma bound_skips_raises (cmp : datetime -> datetime -> result bool)
      (o : option string) (e : entry) (x : exn) :
  (cmp = dt_lt \/ cmp = dt_gt) -> bound_skips cmp o e = Raise x -> x = TypeError.
Proof.
  intros Hc. unfold bound_skips.
  destruct (supplied o) as [s|]; [|discriminate].
  destruct (fromisoformat s) as [b|]; [|discriminate].
  destruct (parsed_timestamp e) as [ts|]; [|discriminate].
  destruct Hc as [-> | ->]; unfold dt_gt, dt_lt;
    match goal with |- context [dt_comparable ?u ?v] => destruct (dt_comparable u v) end;
    intros H; congruence.
Qed.

(** With a string level and a string message, the filter loop can only
    fail in a comparison of timestamps. *)
Lemma entry_passes_raises (f : query_filter) (e : entry) (x : exn) :
  (exists s, entry_get_default e "level" (PStr EmptyString) = PStr s) ->
  (exists s, entry_get_default e "message" (PStr EmptyString) = PStr s) ->
  entry_passes f e = Raise x -> x = TypeError.
Proof.
  intros [sl Hl] [sm Hm]. unfold entry_passes, level_skips, message_skips.
  rewrite Hl, Hm.
  destruct (supplied (q_level f)); cbn [py_upper rbind];
    (match goal with |- context [negb ?c] => destruct c | _ => idtac end);
    cbn [negb]; try discriminate;
    (destruct (field_skips "module" (q_module f) e); [discriminate|]);
    (destruct (field_skips "function" (q_function f) e); [discriminate|]);
    (destruct (supplied (q_message_contains f)); cbn [py_lower rbind];
     (match goal with |- context [negb ?c] => destruct c | _ => idtac end);
     cbn [negb]; try discriminate);
    (destruct (bound_skips dt_lt (q_start_time f) e) as [[|]|y] eqn:E5; cbn [rbind];
     [discriminate
     |
     | intros H; injection H as <-; apply (bound_skips_raises _ _ _ _ (or_introl eq_refl) E5)]);
    (destruct (bound_skips dt_gt (q_end_time f) e) as [[|]|y] eqn:E6; cbn [rbind];
     [discriminate | discriminate
     | intros H; injection H as <-; apply (bound_skips_raises _ _ _ _ (or_intror eq_refl) E6)]).
Qed.

Lemma filter_entries_raises (f : query_filter) (all : list entry) (e : entry) :
  Forall (fun e' => forall x, entry_passes f e' = Raise x -> x = TypeError) all ->
  In e all -> entry_passes f e = Raise TypeError ->
  filter_entries f all = Raise TypeError.
Proof.
  induction all as [|e0 rest IH]; intros Hall Hin He; [destruct Hin|].
  inversion Hall as [|? ? H0 Hrest]; subst.
  cbn [filter_entries].
  destruct (entry_passes f e0) as [b|x] eqn:E0.
  - destruct Hin as [-> | Hin]; [congruence|].
    cbn [rbind]. rewrite (IH Hrest Hin He). reflexivity.
  - cbn [rbind]. rewrite (H0 x eq_refl). reflexivity.
Qed.

(** X14.  Only the [ValueError] of a bound that does not parse is passed over.
    A [start_time] that parses but cannot be compared with an entry's
    timestamp, one of the two carrying a UTC offset and the other not,
    makes the whole query fail with [TypeError] as soon as an entry that
    passes the other predicates reaches the time test. *)
Theorem query_logs_offset_mismatch (a : analyzer) (files : option (list string))
        (lvl md fn mc st en : option string) (limit : option Z)
        (all : list entry) (e : entry) (s : string) (b ts : datetime) :
  snd (collect_entries fs a (selected_files a files) []) = Ok all ->
  Forall (fun e' =>
            (exists v, entry_get_default e' "level" (PStr EmptyString) = PStr v) /\
            (exists v, entry_get_default e' "message" (PStr EmptyString) = PStr v)) all ->
  supplied st = Some s -> fromisoformat s = Some b ->
  In e all -> parsed_timestamp e = Some ts -> dt_comparable ts b = false ->
  entry_passes (mkFilter lvl md fn mc None None) e = Ok true ->
  snd (query_logs fs a files (mkFilter lvl md fn mc st en) limit) = Raise TypeError.
Proof.
  intros Hall Htext Hs Hb Hin Hts Hcmp Hpass.
  unfold query_logs.
  destruct (collect_entries fs a (selected_files a files) []) as [a' r].
  cbn [snd] in *. subst r. cbn [rbind]. unfold query_entries.
  rewrite (filter_entries_raises (mkFilter lvl md fn mc st en) all e); [reflexivity| |exact Hin|].
  - eapply Forall_impl; [|exact Htext]. intros e' [H1 H2] x.
    apply entry_passes_raises; assumption.
  - revert Hpass. unfold entry_passes. cbn [q_level q_module q_function q_message_contains
                                             q_start_time q_end_time].
    destruct (level_skips lvl e) as [[|]|]; cbn [rbind]; try discriminate.
    destruct (field_skips "module" md e); try discriminate.
    destruct (field_skips "function" fn e); try discriminate.
    destruct (message_skips mc e) as [[|]|]; cbn [rbind]; try discriminate.
    intros _. unfold bound_skips at 1. rewrite Hs, Hb, Hts.
    unfold dt_lt. rewrite Hcmp. reflexivity.
Qed.

End QueryOffsets.

Lemma query_logs_offset_mismatch_witness :
  snd (query_logs Fixture.fs Fixture.a0 None
         (mkFilter (Some "info") None None None (Some "2024-01-01T00:00:00+00:00") None)
         None)
  = Raise TypeError.
Proof.
  assert (Hall : snd (collect_entries Fixture.fs Fixture.a0
                        (selected_files Fixture.a0 None) [])
                 = Ok [Fixture.entry_new; Fixture.entry_old; Fixture.entry_mid])
    by reflexivity.
  assert (Hb : fromisoformat "2024-01-01T00:00:00+00:00"
               = Some (mkDatetime 63839664000000000 (Some 0))) by reflexivity.
  assert (Hts : parsed_timestamp Fixture.entry_mid
                = Some (mkDatetime 63839728800000000 None)) by reflexivity.
  assert (Hp : entry_passes (mkFilter (Some "info") None None None None None)
                            Fixture.entry_mid = Ok true) by reflexivity.
  refine (query_logs_offset_mismatch (L := RefLib) Fixture.fs Fixture.a0 None
            (Some "info") None None None (Some "2024-01-01T00:00:00+00:00") None None
            _ Fixture.entry_mid _ _ _ Hall _ eq_refl Hb _ Hts eq_refl Hp).
  - repeat constructor; eexists; reflexivity.
  - right. right. left. reflexivity.
Defined.

(** ** Equality of dictionary keys *)

Lemma decimal_eqb_iff (a b : Z * Z) (lo : Z) :
  lo <= snd a -> lo <= snd b ->
  decimal_eqb a b = true <-> fst a * 10 ^ (snd a - lo) = fst b * 10 ^ (snd b - lo).
Proof.
  intros Ha Hb. unfold decimal_eqb. rewrite Z.eqb_eq.
  set (m := Z.min (snd a) (snd b)).
  assert (Hm : lo <= m) by (unfold m; lia).
  assert (Hma : m <= snd a) by (unfold m; lia).
  assert (Hmb : m <= snd b) by (unfold m; lia).
  replace (snd a - lo) with ((snd a - m) + (m - lo)) by lia.
  replace (snd b - lo) with ((snd b - m) + (m - lo)) by lia.
  rewrite !Z.pow_add_r by lia.
  assert (Hp : 0 < 10 ^ (m - lo)) by (apply Z.pow_pos_nonneg; lia).
  rewrite !Z.mul_assoc. split.
  - intros ->. reflexivity.
  - intros H. apply Z.mul_reg_r in H; [exact H | lia].
Qed.

Lemma decimal_eqb_sym (a b : Z * Z) : decimal_eqb a b = decimal_eqb b a.
Proof.
  unfold decimal_eqb. rewrite (Z.min_comm (snd b) (snd a)). apply Z.eqb_sym.
Qed.

Lemma decimal_eqb_trans (a b c : Z * Z) :
  decimal_eqb a b = true -> decimal_eqb b c = true -> decimal_eqb a c = true.
Proof.
  set (lo := Z.min (snd a) (Z.min (snd b) (snd c))).
  assert (Ha : lo <= snd a) by (unfold lo; lia).
  assert (Hb : lo <= snd b) by (unfold lo; lia).
  assert (Hc : lo <= snd c) by (unfold lo; lia).
  rewrite (decimal_eqb_iff a b lo Ha Hb), (decimal_eqb_iff b c lo Hb Hc),
    (decimal_eqb_iff a c lo Ha Hc).
  congruence.
Qed.

Lemma dt_eqb_trans (a b c : datetime) :
  dt_eqb a b = true -> dt_eqb b c = true -> dt_eqb a c = true.
Proof.
  unfold dt_eqb. rewrite !andb_true_iff, !Z.eqb_eq.
  intros [H1 H2] [H3 H4]. split; [|congruence].
  apply (dt_comparable_trans a b c); [rewrite dt_comparable_sym|]; assumption.
Qed.

Lemma dt_eqb_sym (a b : datetime) : dt_eqb a b = dt_eqb b a.
Proof.
  unfold dt_eqb. rewrite (dt_comparable_sym a b), (Z.eqb_sym (dt_instant a)). reflexivity.
Qed.

(** Key equality is an equivalence on the values a dictionary accepts. *)
Lemma py_key_eqb_refl (k : pyval) : py_hashable k = true -> py_key_eqb k k = true.
Proof.
  destruct k; cbn; try discriminate; intros _;
    try (unfold decimal_eqb; apply Z.eqb_refl); try reflexivity.
  - apply String.eqb_refl.
  - unfold dt_eqb, dt_comparable. rewrite Z.eqb_refl. destruct (dt_aware d); reflexivity.
Qed.

Lemma py_key_eqb_sym (a b : pyval) : py_key_eqb a b = py_key_eqb b a.
Proof.
  destruct a, b; cbn [py_key_eqb as_decimal]; try reflexivity;
    try apply decimal_eqb_sym; try apply String.eqb_sym; apply dt_eqb_sym.
Qed.

Lemma py_key_eqb_trans (a b c : pyval) :
  py_key_eqb a b = true -> py_key_eqb b c = true -> py_key_eqb a c = true.
Proof.
  destruct a, b; cbn [py_key_eqb as_decimal]; try discriminate;
    destruct c; cbn [py_key_eqb as_decimal]; try discriminate;
    try apply decimal_eqb_trans; try reflexivity.
  - rewrite !String.eqb_eq. congruence.
  - apply dt_eqb_trans.
Qed.

Lemma py_key_eqb_left (a b k : pyval) :
  py_key_eqb a b = true -> py_key_eqb k a = py_key_eqb k b.
Proof.
  intros H. destruct (py_key_eqb k a) eqn:E1, (py_key_eqb k b) eqn:E2; try reflexivity.
  - rewrite (py_key_eqb_trans k a b E1 H) in E2. discriminate.
  - rewrite py_key_eqb_sym in H. rewrite (py_key_eqb_trans k b a E2 H) in E1. discriminate.
Qed.

Section DictMore.
Context {V : Type}.

Lemma pydict_get_equal_keys (a b : pyval) (d : list (pyval * V)) :
  py_key_eqb a b = true -> pydict_get a d = pydict_get b d.
Proof.
  intros H. induction d as [|[k v] d IH]; [reflexivity|].
  cbn [pydict_get]. rewrite IH.
  rewrite (py_key_eqb_sym a k), (py_key_eqb_sym b k), (py_key_eqb_left a b k H).
  reflexivity.
Qed.

(** Reading a dictionary after a store. *)
Lemma pydict_get_set (k key : pyval) (v : V) (d : list (pyval * V)) :
  pydict_get k (pydict_set key v d)
  = if py_key_eqb k key then Some v else pydict_get k d.
Proof.
  induction d as [|[k0 v0] d IH]; [reflexivity|].
  cbn [pydict_set pydict_get].
  destruct (py_key_eqb key k0) eqn:E0; cbn [pydict_get].
  - rewrite (py_key_eqb_left key k0 k E0).
    destruct (py_key_eqb k k0); reflexivity.
  - rewrite IH. destruct (py_key_eqb k k0) eqn:E1; [|reflexivity].
    destruct (py_key_eqb k key) eqn:E2; [|reflexivity].
    rewrite py_key_eqb_sym in E2. rewrite (py_key_eqb_trans key k k0 E2 E1) in E0.
    discriminate.
Qed.

Lemma pydict_get_member (k : pyval) (v : V) (d : list (pyval * V)) :
  distinct_keys (map fst d) -> Forall (fun kv => py_hashable (fst kv) = true) d ->
  In (k, v) d -> pydict_get k d = Some v.
Proof.
  intros Hd Hh Hin. apply in_split in Hin. destruct Hin as (l1 & l2 & ->).
  assert (H1 : Forall (fun k' => py_key_eqb k k' = false) (map fst l1)).
  { apply (Hd (map fst l1) k (map fst l2)). rewrite map_app. reflexivity. }
  assert (Hk : py_key_eqb k k = true).
  { apply py_key_eqb_refl. rewrite Forall_forall in Hh.
    apply (Hh (k, v)). apply in_or_app. right. left. reflexivity. }
  clear Hd Hh. induction l1 as [|[k1 v1] l1 IH]; cbn [app pydict_get].
  - rewrite Hk. reflexivity.
  - inversion H1 as [|? ? Hne Hrest]; subst. cbn [fst] in Hne. rewrite Hne.
    apply IH. exact Hrest.
Qed.

Lemma pydict_get_in (k : pyval) (v : V) (d : list (pyval * V)) :
  pydict_get k d = Some v -> exists k', In (k', v) d /\ py_key_eqb k k' = true.
Proof.
  induction d as [|[k0 v0] d IH]; [discriminate|].
  cbn [pydict_get]. destruct (py_key_eqb k k0) eqn:E.
  - intros H. injection H as ->. exists k0. split; [left; reflexivity | exact E].
  - intros H. destruct (IH H) as (k' & Hin & Hk). exists k'. split; [right; exact Hin | exact Hk].
Qed.

Lemma pydict_set_hashable (key : pyval) (v : V) (d : list (pyval * V)) :
  py_hashable key = true -> Forall (fun kv => py_hashable (fst kv) = true) d ->
  Forall (fun kv => py_hashable (fst kv) = true) (pydict_set key v d).
Proof.
  intros Hk. induction d as [|[k0 v0] d IH]; intros Hd; cbn [pydict_set].
  - constructor; [exact Hk | constructor].
  - inversion Hd as [|? ? H0 Hrest]; subst.
    destruct (py_key_eqb key k0); constructor; auto.
Qed.

End DictMore.

(** ** Groups of an aggregation *)

Section GroupsMore.
Context {L : PyLib}.
Variable fs : filesystem.

Lemma group_add_buckets (group_by : string) (e : entry) (done : list entry)
      (g g' : list (pyval * list entry)) :
  group_add (group_key group_by e) e g = Ok g' ->
  Forall (fun kv => py_hashable (fst kv) = true) g ->
  (forall k, bucket k g = filter (in_group group_by k) done) ->
  py_hashable (group_key group_by e) = true /\
  Forall (fun kv => py_hashable (fst kv) = true) g' /\
  (forall k, bucket k g' = filter (in_group group_by k) (done ++ [e])).
Proof.
  unfold group_add. set (key := group_key group_by e).
  destruct (py_hashable key) eqn:Hk; [|discriminate].
  intros H Hh Hb. injection H as <-.
  split; [reflexivity|]. split; [apply pydict_set_hashable; assumption|].
  intros k. unfold bucket. rewrite pydict_get_set, filter_app. cbn [filter].
  unfold in_group at 2. fold key. rewrite (py_key_eqb_sym key k).
  destruct (py_key_eqb k key) eqn:E.
  - rewrite <- (Hb k). unfold bucket.
    rewrite (pydict_get_equal_keys k key g E).
    destruct (pydict_get key g); reflexivity.
  - rewrite app_nil_r. apply Hb.
Qed.

Lemma group_entries_buckets (group_by : string) (l done : list entry)
      (g g' : list (pyval * list entry)) :
  group_entries group_by l g = Ok g' ->
  Forall (fun kv => py_hashable (fst kv) = true) g ->
  (forall k, bucket k g = filter (in_group group_by k) done) ->
  Forall (fun e => py_hashable (group_key group_by e) = true) l /\
  Forall (fun kv => py_hashable (fst kv) = true) g' /\
  (forall k, bucket k g' = filter (in_group group_by k) (done ++ l)).
Proof.
  revert done g. induction l as [|e rest IH]; intros done g H Hh Hb.
  - injection H as <-. rewrite app_nil_r. auto.
  - cbn [group_entries] in H.
    destruct (group_add (group_key group_by e) e g) as [g1|x] eqn:E; [|discriminate].
    cbn [rbind] in H.
    destruct (group_add_buckets group_by e done g g1 E Hh Hb) as (Hk & Hh1 & Hb1).
    destruct (IH (done ++ [e]) g1 H Hh1 Hb1) as (Hr & Hh' & Hb').
    split; [constructor; assumption|]. split; [exact Hh'|].
    intros k. rewrite (Hb' k), <- app_assoc. reflexivity.
Qed.

Lemma summaries_of_group (n : nat) (g : list (pyval * list entry))
      (ss : list (pyval * group_stats)) :
  Forall2 (fun kv ks => fst kv = fst ks /\ group_summary n (snd kv) = Ok (snd ks)) g ss ->
  map fst g = map fst ss /\
  (forall k gs, In (k, gs) ss -> exists es, In (k, es) g /\ group_summary n es = Ok gs) /\
  (forall k es, In (k, es) g -> exists gs, In (k, gs) ss).
Proof.
  induction 1 as [|[k es] [k' gs] g ss [Hk Hs] _ (IH1 & IH2 & IH3)]; cbn [fst snd] in *.
  - split; [reflexivity|]. split; intros ? ? [].
  - subst k'. split; [cbn [map fst]; rewrite IH1; reflexivity|]. split.
    + intros k0 gs0 [H|H].
      * injection H as <- <-. exists es. split; [left; reflexivity | exact Hs].
      * destruct (IH2 k0 gs0 H) as (es0 & Hin & Hs0). exists es0. split; [right|]; assumption.
    + intros k0 es0 [H|H].
      * injection H as <- <-. exists gs. left. reflexivity.
      * destruct (IH3 k0 es0 H) as (gs0 & Hin). exists gs0. right. exact Hin.
Qed.

(** X15.  The groups of a returned aggregation partition the entries read by
    their grouping value: no two groups have equal keys, each group counts
    exactly the entries whose grouping value equals its key, no group is
    empty, and every entry falls under one of the keys. *)
Theorem aggregate_logs_groups_partition
        (a a' : analyzer) (files : option (list string)) (group_by : option string)
        (agg : aggregation) :
  aggregate_logs fs a files group_by = (a', Ok agg) ->
  let gb := match group_by with Some g => g | None => "level" end in
  exists all,
    snd (collect_entries fs a (selected_files a files) []) = Ok all /\
    distinct_keys (map fst (groups agg)) /\
    (forall k gs, In (k, gs) (groups agg) ->
       count gs = List.length (filter (in_group gb k) all) /\ (0 < count gs)%nat) /\
    (forall e, In e all ->
       exists k gs, In (k, gs) (groups agg) /\ in_group gb k e = true).
Proof.
  intros H gb. unfold aggregate_logs in H. fold gb in H.
  destruct (collect_entries fs a (selected_files a files) []) as [a1 r] eqn:Ec.
  injection H as _ H. destruct r as [all|x]; [|discriminate]. cbn [rbind] in H.
  exists all. split; [reflexivity|].
  destruct (aggregate_entries_inv gb all agg H) as (g & Hg & _ & _ & _ & Hne & _ & HF).
  destruct (group_entries_inv gb all [] g (fun _ => True) Hg) as (Hd & _).
  specialize (Hd distinct_keys_nil).
  destruct (group_entries_buckets gb all [] [] g Hg (Forall_nil _) (fun k => eq_refl))
    as (Hkeys & Hh & Hb).
  cbn [app] in Hb.
  destruct (summaries_of_group _ _ _ HF) as (Hfst & Hback & Hforth).
  split; [rewrite <- Hfst; exact Hd|]. split.
  - intros k gs Hin. destruct (Hback k gs Hin) as (es & Hes & Hs).
    assert (Hnil : es <> []).
    { rewrite Forall_forall in Hne. exact (Hne (k, es) Hes). }
    destruct (group_summary_inv _ _ _ Hs Hnil) as (Hc & _).
    pose proof (pydict_get_member k es g Hd Hh Hes) as Hget.
    specialize (Hb k). unfold bucket in Hb. rewrite Hget in Hb.
    rewrite Hc, <- Hb. split; [reflexivity|].
    destruct es; [contradiction | cbn; lia].
  - intros e He.
    assert (Hk : py_hashable (group_key gb e) = true).
    { rewrite Forall_forall in Hkeys. exact (Hkeys e He). }
    assert (Hin : In e (bucket (group_key gb e) g)).
    { rewrite Hb. apply filter_In. split; [exact He|].
      unfold in_group. apply py_key_eqb_refl. exact Hk. }
    unfold bucket in Hin.
    destruct (pydict_get (group_key gb e) g) as [es|] eqn:Eg; [|destruct Hin].
    destruct (pydict_get_in _ _ _ Eg) as (k' & Hk' & Heq).
    destruct (Hforth k' es Hk') as (gs & Hgs).
    exists k', gs. split; [exact Hgs | exact Heq].
Qed.

End GroupsMore.

Lemma query_logs_ties_keep_read_order_witness :
  snd (query_logs Fixture3.fs Fixture3.a0 None Fixture.no_filter (Some 2))
  = Ok [Fixture.entry_new; Fixture3.entry_twin] /\
  exists all,
    snd (collect_entries Fixture3.fs Fixture3.a0
           (selected_files Fixture3.a0 None) []) = Ok all /\
    forall t, exists later,
      filter (at_instant t) (filter (passes_b Fixture.no_filter) all)
      = filter (at_instant t) [Fixture.entry_new; Fixture3.entry_twin] ++ later.
Proof.
  split; [reflexivity|].
  assert (H : query_logs Fixture3.fs Fixture3.a0 None Fixture.no_filter (Some 2)
              = (fst (query_logs Fixture3.fs Fixture3.a0 None Fixture.no_filter (Some 2)),
                 Ok [Fixture.entry_new; Fixture3.entry_twin])) by reflexivity.
  exact (query_logs_ties_keep_read_order (L := RefLib) Fixture3.fs Fixture3.a0 _ None
           Fixture.no_filter (Some 2) _ H).
Defined.

Lemma aggregate_logs_groups_partition_witness :
  exists all,
    snd (collect_entries Fixture.fs Fixture.a0 (selected_files Fixture.a0 None) [])
    = Ok all /\
    distinct_keys (map fst (groups Fixture.agg_by_level)) /\
    (forall k gs, In (k, gs) (groups Fixture.agg_by_level) ->
       count gs = List.length (filter (in_group "level" k) all) /\ (0 < count gs)%nat) /\
    (forall e, In e all ->
       exists k gs, In (k, gs) (groups Fixture.agg_by_level) /\
                    in_group "level" k e = true).
Proof.
  assert (H : aggregate_logs Fixture.fs Fixture.a0 None None
              = (fst (aggregate_logs Fixture.fs Fixture.a0 None None),
                 Ok Fixture.agg_by_level)) by reflexivity.
  exact (aggregate_logs_groups_partition (L := RefLib) Fixture.fs Fixture.a0 _ None None
           _ H).
Defined.

(** ** When an aggregation fails *)






Section AggregationFails.
Context {L : PyLib}.
Variable fs : filesystem.









End AggregationFails.

(** ** What the statistics count *)

Section DictValues.
Context {V : Type}.

Lemma pydict_set_distinct (key : pyval) (v : V) (d : list (pyval * V)) :
  distinct_keys (map fst d) -> distinct_keys (map fst (pydict_set key v d)).
Proof.
  intros Hd. rewrite pydict_set_keys.
  destruct (pydict_get key d) eqn:E; [exact Hd|].
  apply distinct_keys_snoc; [exact Hd|]. apply pydict_get_none. exact E.
Qed.

Lemma pydict_set_values (Q : V -> Prop) (key : pyval) (v : V) (d : list (pyval * V)) :
  Q v -> Forall (fun kv => Q (snd kv)) d ->
  Forall (fun kv => Q (snd kv)) (pydict_set key v d).
Proof.
  intros Hv. induction d as [|[k0 v0] d IH]; intros Hd; cbn [pydict_set].
  - constructor; [exact Hv | constructor].
  - inversion Hd as [|? ? H0 Hrest]; subst.
    destruct (py_key_eqb key k0); constructor; auto.
Qed.

End DictValues.

Section StatisticsMore.
Context {L : PyLib}.
Variable fs : filesystem.

Lemma key_set_add (field : string) (s : list (pyval * unit)) (done : list entry)
      (e : entry) :
  py_hashable (group_key field e) = true ->
  key_set field s done ->
  key_set field (pydict_set (group_key field e) tt s) (done ++ [e]).
Proof.
  intros Hk (Hd & Hh & He & Hs). split; [apply pydict_set_distinct; exact Hd|].
  split; [apply pydict_set_hashable; assumption|].
  split; [apply Forall_app; split; [exact He | constructor; [exact Hk | constructor]]|].
  intros k. rewrite pydict_get_set. split.
  - destruct (py_key_eqb k (group_key field e)) eqn:E.
    + intros _. exists e. split; [apply in_or_app; right; left; reflexivity|].
      unfold in_group. rewrite py_key_eqb_sym. exact E.
    + intros H. apply Hs in H. destruct H as (e' & He' & Hg).
      exists e'. split; [apply in_or_app; left; exact He' | exact Hg].
  - intros (e' & He' & Hg). destruct (py_key_eqb k (group_key field e)) eqn:E;
      [discriminate|].
    apply Hs. apply in_app_or in He'. destruct He' as [He' | [<- | []]].
    + exists e'. auto.
    + unfold in_group in Hg. rewrite py_key_eqb_sym in Hg. congruence.
Qed.

Lemma level_tally_add (d : list (pyval * nat)) (done : list entry) (e : entry) :
  py_hashable (group_key "level" e) = true ->
  level_tally d done ->
  level_tally (pydict_set (group_key "level" e)
                 (match pydict_get (group_key "level" e) d with
                  | Some n => S n | None => 1%nat end) d)
              (done ++ [e]).
Proof.
  intros Hk (Hd & Hh & Hp & He & Ht).
  split; [apply pydict_set_distinct; exact Hd|].
  split; [apply pydict_set_hashable; assumption|].
  split.
  { apply (pydict_set_values (fun n => (0 < n)%nat)); [|exact Hp].
    destruct (pydict_get (group_key "level" e) d); lia. }
  split; [apply Forall_app; split; [exact He | constructor; [exact Hk | constructor]]|].
  intros k. unfold tally. rewrite pydict_get_set, filter_app, length_app.
  cbn [filter]. unfold in_group at 2. rewrite (py_key_eqb_sym (group_key "level" e) k).
  destruct (py_key_eqb k (group_key "level" e)) eqn:E.
  - rewrite <- (Ht k). unfold tally.
    rewrite (pydict_get_equal_keys k (group_key "level" e) d E).
    destruct (pydict_get (group_key "level" e) d); cbn [List.length]; lia.
  - cbn [List.length]. rewrite Nat.add_0_r. apply Ht.
Qed.

Lemma track_earliest (best best' : option datetime) (ts : datetime) (l : list datetime) :
  track dt_lt best ts = Ok best' ->
  best_of earliest_of best l -> best_of earliest_of best' (l ++ [ts]).
Proof.
  unfold track. destruct best as [b|]; cbn [best_of].
  - unfold dt_lt. destruct (dt_comparable ts b); [|discriminate]. cbn [rbind].
    intros H. injection H as <-. intros [Hin Hmin]. cbn [best_of].
    destruct (Z.ltb_spec (dt_instant ts) (dt_instant b)) as [Hlt|Hge].
    + split; [apply in_or_app; right; left; reflexivity|].
      intros x Hx. apply in_app_or in Hx. destruct Hx as [Hx | [<- | []]]; [|lia].
      specialize (Hmin x Hx). lia.
    + split; [apply in_or_app; left; exact Hin|].
      intros x Hx. apply in_app_or in Hx. destruct Hx as [Hx | [<- | []]]; [|lia].
      exact (Hmin x Hx).
  - intros H. injection H as <-. intros ->. cbn [best_of app].
    split; [left; reflexivity|]. intros x [<- | []]. lia.
Qed.

Lemma track_latest (best best' : option datetime) (ts : datetime) (l : list datetime) :
  track dt_gt best ts = Ok best' ->
  best_of latest_of best l -> best_of latest_of best' (l ++ [ts]).
Proof.
  unfold track. destruct best as [b|]; cbn [best_of].
  - unfold dt_gt, dt_lt. destruct (dt_comparable b ts); [|discriminate]. cbn [rbind].
    intros H. injection H as <-. intros [Hin Hmax]. cbn [best_of].
    destruct (Z.ltb_spec (dt_instant b) (dt_instant ts)) as [Hlt|Hge].
    + split; [apply in_or_app; right; left; reflexivity|].
      intros x Hx. apply in_app_or in Hx. destruct Hx as [Hx | [<- | []]]; [|lia].
      specialize (Hmax x Hx). lia.
    + split; [apply in_or_app; left; exact Hin|].
      intros x Hx. apply in_app_or in Hx. destruct Hx as [Hx | [<- | []]]; [|lia].
      exact (Hmax x Hx).
  - intros H. injection H as <-. intros ->. cbn [best_of app].
    split; [left; reflexivity|]. intros x [<- | []]. lia.
Qed.

Lemma stamps_snoc (done : list entry) (e : entry) :
  stamps (done ++ [e])
  = stamps done ++ match parsed_timestamp e with Some t => [t] | None => [] end.
Proof. unfold stamps. rewrite flat_map_app. cbn [flat_map]. rewrite app_nil_r. reflexivity. Qed.

Lemma track_raises (cmp : datetime -> datetime -> result bool)
      (best : option datetime) (ts : datetime) (x : exn) :
  (cmp = dt_lt \/ cmp = dt_gt) -> track cmp best ts = Raise x -> x = TypeError.
Proof.
  intros Hc. unfold track. destruct best as [b|]; [|discriminate].
  destruct Hc as [-> | ->]; unfold dt_gt, dt_lt;
    match goal with |- context [dt_comparable ?u ?v] => destruct (dt_comparable u v) end;
    cbn [rbind]; intros H; congruence.
Qed.

(** One round of the entry loop. *)
Lemma stats_entry_cases (acc : stats_acc) (e : entry) (done : list entry) :
  match stats_entry acc e with
  | Ok acc' => acc_total acc' = acc_total acc /\
               (summarizes acc done -> summarizes acc' (done ++ [e]))
  | Raise x => x = TypeError
  end.
Proof.
  unfold stats_entry, set_add.
  change (entry_get_default e "level" (PStr "UNKNOWN")) with (group_key "level" e).
  change (entry_get_default e "module" (PStr "UNKNOWN")) with (group_key "module" e).
  change (entry_get_default e "function" (PStr "UNKNOWN")) with (group_key "function" e).
  destruct (py_hashable (group_key "level" e)) eqn:Hl; cbn [rbind]; [|reflexivity].
  destruct (py_hashable (group_key "module" e)) eqn:Hm; cbn [rbind]; [|reflexivity].
  destruct (py_hashable (group_key "function" e)) eqn:Hf; cbn [rbind]; [|reflexivity].
  destruct (parsed_timestamp e) as [ts|] eqn:Ets.
  - destruct (track dt_lt (acc_earliest acc) ts) as [ea|x] eqn:Ee; cbn [rbind];
      [|exact (track_raises _ _ _ _ (or_introl eq_refl) Ee)].
    destruct (track dt_gt (acc_latest acc) ts) as [la|x] eqn:El; cbn [rbind];
      [|exact (track_raises _ _ _ _ (or_intror eq_refl) El)].
    split; [reflexivity|]. intros (S1 & S2 & S3 & S4 & S5).
    unfold summarizes. cbn [acc_levels acc_modules acc_functions acc_earliest acc_latest].
    rewrite stamps_snoc, Ets.
    split; [apply level_tally_add; assumption|].
    split; [apply key_set_add; assumption|].
    split; [apply key_set_add; assumption|].
    split; [exact (track_earliest _ _ _ _ Ee S4) | exact (track_latest _ _ _ _ El S5)].
  - split; [reflexivity|]. intros (S1 & S2 & S3 & S4 & S5).
    unfold summarizes. cbn [acc_levels acc_modules acc_functions acc_earliest acc_latest].
    rewrite stamps_snoc, Ets, app_nil_r.
    split; [apply level_tally_add; assumption|].
    split; [apply key_set_add; assumption|].
    split; [apply key_set_add; assumption|].
    split; assumption.
Qed.

Lemma stats_entries_cases (es : list entry) (acc : stats_acc) (done : list entry) :
  match snd (stats_entries acc es) with
  | None => acc_total (fst (stats_entries acc es)) = acc_total acc /\
            (summarizes acc done ->
             summarizes (fst (stats_entries acc es)) (done ++ es))
  | Some x => x = TypeError
  end.
Proof.
  revert acc done. induction es as [|e rest IH]; intros acc done; cbn [stats_entries].
  - cbn [fst snd]. rewrite app_nil_r. auto.
  - pose proof (stats_entry_cases acc e done) as He.
    destruct (stats_entry acc e) as [acc1|x]; [|exact He].
    destruct He as [Ht Hs]. specialize (IH acc1 (done ++ [e])).
    destruct (snd (stats_entries acc1 rest)); [exact IH|].
    destruct IH as [Ht' Hs']. split; [congruence|].
    intros H.
    replace (done ++ e :: rest) with ((done ++ [e]) ++ rest)
      by (rewrite <- app_assoc; reflexivity).
    auto.
Qed.

(** The statistics loop reads what the gathering loop of the query and
    the aggregation reads, and ends in the same state. *)
Lemma stats_files_inv (files : list string) (a a' : analyzer) (acc acc' : stats_acc)
      (pre done : list entry) :
  stats_files fs a files acc = (a', Ok acc') ->
  exists all,
    collect_entries fs a files pre = (a', Ok (pre ++ all)) /\
    acc_total acc' = (acc_total acc + List.length all)%nat /\
    (summarizes acc done -> summarizes acc' (done ++ all)).
Proof.
  revert a acc pre done. induction files as [|n rest IH]; intros a acc pre done H.
  - cbn [stats_files] in H. injection H as <- <-. exists [].
    cbn [collect_entries List.length]. rewrite !app_nil_r, Nat.add_0_r. auto.
  - cbn [stats_files collect_entries] in *.
    destruct (read_log_file fs a n None) as [a1 r] eqn:Er.
    pose proof (read_log_file_inv fs a a1 n None r Er) as Hr.
    destruct r as [es|x].
    + set (acc1 := mkAcc (acc_total acc + List.length es) (acc_levels acc)
                         (acc_modules acc) (acc_functions acc)
                         (acc_earliest acc) (acc_latest acc)) in *.
      pose proof (stats_entries_cases es acc1 done) as Hc.
      destruct (stats_entries acc1 es) as [acc2 [x|]]; cbn [fst snd] in Hc.
      * subst x. cbn [file_error] in H. discriminate.
      * destruct Hc as [Ht Hs].
        destruct (IH a1 acc2 (pre ++ es) (done ++ es) H) as (all & Hcol & Htot & Hsum).
        exists (es ++ all). rewrite !app_assoc. split; [exact Hcol|].
        split; [rewrite Htot, Ht, length_app; unfold acc1; cbn [acc_total]; lia|].
        intros H0. apply Hsum. apply Hs. exact H0.
    + rewrite Hr in *. destruct (IH a1 acc pre done H) as (all & Hcol & Htot & Hsum).
      exists all. auto.
Qed.

Lemma summarizes_empty : summarizes acc_empty [].
Proof.
  unfold summarizes, level_tally, key_set, best_of. cbn.
  repeat split; try apply distinct_keys_nil; try constructor;
    try (intros H; contradiction); try (intros (e & [] & _)).
Qed.

(** What [get_log_stats] hands to [stats_result]. *)
Lemma get_log_stats_inv (a a' : analyzer) (files : option (list string))
      (st : log_stats) :
  get_log_stats fs a files = (a', Ok st) ->
  exists all acc,
    collect_entries fs a (selected_files a files) [] = (a', Ok all) /\
    Forall has_timestamp all /\
    acc_total acc = List.length all /\ summarizes acc all /\
    stats_result (List.length (selected_files a files)) acc = Ok st.
Proof.
  unfold get_log_stats.
  destruct (stats_files fs a (selected_files a files) acc_empty) as [a1 r] eqn:E.
  intros H. injection H as <- H. destruct r as [acc|x]; [|discriminate].
  cbn [rbind] in H.
  destruct (stats_files_inv _ _ _ _ _ [] [] E) as (all & Hcol & Htot & Hsum).
  cbn [app acc_empty acc_total Nat.add] in *.
  exists all, acc. split; [exact Hcol|]. split.
  { destruct (collect_entries_ok fs (selected_files a files) a []) as (all' & Hall' & Hts).
    rewrite Hcol in Hall'. cbn [snd] in Hall'. injection Hall' as <-.
    apply Hts. constructor. }
  split; [exact Htot|]. split; [apply Hsum; apply summarizes_empty | exact H].
Qed.

End StatisticsMore.

Section StatisticsTheorems.
Context {L : PyLib}.
Variable fs : filesystem.

Lemma stats_result_fields (n : nat) (acc : stats_acc) (st : log_stats) :
  stats_result n acc = Ok st ->
  stats_total_entries st = acc_total acc /\
  levels st = acc_levels acc /\
  py_sorted (map fst (acc_modules acc)) = Ok (unique_modules st) /\
  unique_functions st = List.length (map fst (acc_functions acc)) /\
  earliest st = option_map isoformat (acc_earliest acc) /\
  latest st = option_map isoformat (acc_latest acc) /\
  (span_hours st = None <-> acc_earliest acc = None \/ acc_latest acc = None).
Proof.
  unfold stats_result.
  destruct (py_sorted (map fst (acc_modules acc))) as [um|x]; cbn [rbind]; [|discriminate].
  rewrite length_map.
  destruct (acc_earliest acc) as [ea|]; destruct (acc_latest acc) as [la|]; cbn [rbind];
    try (intros H; injection H as <-; cbn; repeat split; auto; fail).
  destruct (dt_sub la ea); cbn [rbind]; [|discriminate].
  intros H; injection H as <-; cbn. repeat split; auto; try discriminate.
  intros [H|H]; discriminate.
Qed.

Lemma key_set_values (field : string) (s : list (pyval * unit)) (all : list entry) :
  key_set field s all -> holds_values field (map fst s) all.
Proof.
  intros (Hd & Hh & He & Hs). split; [exact Hd|]. split.
  - intros k Hk. apply in_map_iff in Hk. destruct Hk as ([k' v] & <- & Hin).
    cbn [fst]. apply (proj1 (Hs k')).
    rewrite (pydict_get_member k' v s Hd Hh Hin). discriminate.
  - intros e Hin. rewrite Forall_forall in He.
    assert (Hg : pydict_get (group_key field e) s <> None).
    { apply Hs. exists e. split; [exact Hin|]. apply py_key_eqb_refl. apply He. exact Hin. }
    destruct (pydict_get (group_key field e) s) as [v|] eqn:E; [|contradiction].
    destruct (pydict_get_in _ _ _ E) as (k' & Hk' & Heq).
    exists k'. split; [|exact Heq]. apply in_map_iff. exists (k', v). auto.
Qed.

Lemma stamps_all (all : list entry) :
  Forall has_timestamp all -> stamps all = map sort_key all.
Proof.
  induction 1 as [|e rest [t Ht] _ IH]; [reflexivity|].
  unfold stamps in *. cbn [flat_map map]. rewrite IH. unfold sort_key. rewrite Ht.
  reflexivity.
Qed.

(** X17.  The entry count of the statistics is the number of entries read from
    the selected files, and the level histogram is exact: its keys are
    pairwise different, each count is the number of entries read whose
    level equals the key, no count is zero, and every entry's level is
    among the keys. *)
Theorem get_log_stats_counts (a a' : analyzer) (files : option (list string))
        (st : log_stats) :
  get_log_stats fs a files = (a', Ok st) ->
  exists all,
    snd (collect_entries fs a (selected_files a files) []) = Ok all /\
    stats_total_entries st = List.length all /\
    distinct_keys (map fst (levels st)) /\
    (forall k n, In (k, n) (levels st) ->
       n = List.length (filter (in_group "level" k) all) /\ (0 < n)%nat) /\
    (forall e, In e all ->
       exists k n, In (k, n) (levels st) /\ in_group "level" k e = true).
Proof.
  intros H. apply get_log_stats_inv in H.
  destruct H as (all & acc & Hcol & _ & Htot & Hsum & Hres).
  exists all. rewrite Hcol. split; [reflexivity|].
  apply stats_result_fields in Hres. destruct Hres as (R1 & R2 & _).
  destruct Hsum as ((Hd & Hh & Hp & He & Ht) & _).
  rewrite R1, R2. split; [exact Htot|]. split; [exact Hd|]. split.
  - intros k n Hin. pose proof (pydict_get_member k n _ Hd Hh Hin) as Hget.
    specialize (Ht k). unfold tally in Ht. rewrite Hget in Ht.
    split; [exact Ht|]. rewrite Forall_forall in Hp. exact (Hp (k, n) Hin).
  - intros e Hin. rewrite Forall_forall in He.
    assert (Hself : in_group "level" (group_key "level" e) e = true)
      by (apply py_key_eqb_refl; apply He; exact Hin).
    pose proof (Ht (group_key "level" e)) as Hk. unfold tally in Hk.
    destruct (pydict_get (group_key "level" e) (acc_levels acc)) as [n|] eqn:E.
    + destruct (pydict_get_in _ _ _ E) as (k' & Hk' & Heq). exists k', n. auto.
    + assert (Hf : In e (filter (in_group "level" (group_key "level" e)) all))
        by (apply filter_In; auto).
      destruct (filter (in_group "level" (group_key "level" e)) all);
        [destruct Hf | discriminate].
Qed.

(** X18.  [unique_functions] is the number of different function values among
    the entries read, and [unique_modules] is the sorted list of the
    different module values. *)
Theorem get_log_stats_unique_values (a a' : analyzer) (files : option (list string))
        (st : log_stats) :
  get_log_stats fs a files = (a', Ok st) ->
  exists all fns mods,
    snd (collect_entries fs a (selected_files a files) []) = Ok all /\
    holds_values "function" fns all /\ unique_functions st = List.length fns /\
    holds_values "module" mods all /\ py_sorted mods = Ok (unique_modules st).
Proof.
  intros H. apply get_log_stats_inv in H.
  destruct H as (all & acc & Hcol & _ & _ & Hsum & Hres).
  apply stats_result_fields in Hres. destruct Hres as (_ & _ & R3 & R4 & _).
  destruct Hsum as (_ & Hm & Hf & _).
  exists all, (map fst (acc_functions acc)), (map fst (acc_modules acc)).
  rewrite Hcol. split; [reflexivity|].
  split; [apply key_set_values; exact Hf|]. split; [exact R4|].
  split; [apply key_set_values; exact Hm | exact R3].
Qed.

(** X19.  The time range of the statistics: without entries all three of its
    values are absent; otherwise [earliest] and [latest] are the smallest
    and the largest timestamp among all entries read, across files, and the
    span is present. *)
Theorem get_log_stats_time_range (a a' : analyzer) (files : option (list string))
        (st : log_stats) :
  get_log_stats fs a files = (a', Ok st) ->
  exists all,
    snd (collect_entries fs a (selected_files a files) []) = Ok all /\
    (all = [] -> earliest st = None /\ latest st = None /\ span_hours st = None) /\
    (all <> [] ->
     exists mn mx,
       earliest_of mn (map sort_key all) /\ latest_of mx (map sort_key all) /\
       earliest st = Some (isoformat mn) /\ latest st = Some (isoformat mx) /\
       span_hours st <> None).
Proof.
  intros H. apply get_log_stats_inv in H.
  destruct H as (all & acc & Hcol & Hts & _ & Hsum & Hres).
  apply stats_result_fields in Hres. destruct Hres as (_ & _ & _ & _ & R5 & R6 & R7).
  destruct Hsum as (_ & _ & _ & He & Hl).
  rewrite (stamps_all all Hts) in He, Hl.
  exists all. rewrite Hcol. split; [reflexivity|]. split.
  - intros ->. cbn [map] in He, Hl.
    destruct (acc_earliest acc) as [m|]; [destruct He as [[] _]|].
    destruct (acc_latest acc) as [m|]; [destruct Hl as [[] _]|].
    rewrite R5, R6. split; [reflexivity|]. split; [reflexivity|]. apply R7. auto.
  - intros Hne.
    destruct (acc_earliest acc) as [mn|];
      [|destruct all; [contradiction | discriminate He]].
    destruct (acc_latest acc) as [mx|];
      [|destruct all; [contradiction | discriminate Hl]].
    exists mn, mx. cbn [best_of] in He, Hl. rewrite R5, R6.
    split; [exact He|]. split; [exact Hl|]. split; [reflexivity|]. split; [reflexivity|].
    intros Hs. apply R7 in Hs. destruct Hs; discriminate.
Qed.

End StatisticsTheorems.


Lemma get_log_stats_example :
  get_log_stats Fixture.fs Fixture.a0 None
  = (fst (get_log_stats Fixture.fs Fixture.a0 None), Ok example_stats).
Proof. vm_compute. reflexivity. Qed.

Lemma get_log_stats_counts_witness :
  exists all,
    snd (collect_entries Fixture.fs Fixture.a0 (selected_files Fixture.a0 None) [])
    = Ok all /\
    stats_total_entries example_stats = List.length all /\
    distinct_keys (map fst (levels example_stats)) /\
    (forall k n, In (k, n) (levels example_stats) ->
       n = List.length (filter (in_group "level" k) all) /\ (0 < n)%nat) /\
    (forall e, In e all ->
       exists k n, In (k, n) (levels example_stats) /\ in_group "level" k e = true).
Proof.
  exact (get_log_stats_counts (L := RefLib) Fixture.fs Fixture.a0 _ None _
           get_log_stats_example).
Defined.

Lemma get_log_stats_unique_values_witness :
  exists all fns mods,
    snd (collect_entries Fixture.fs Fixture.a0 (selected_files Fixture.a0 None) [])
    = Ok all /\
    holds_values "function" fns all /\
    unique_functions example_stats = List.length fns /\
    holds_values "module" mods all /\
    py_sorted mods = Ok (unique_modules example_stats).
Proof.
  exact (get_log_stats_unique_values (L := RefLib) Fixture.fs Fixture.a0 _ None _
           get_log_stats_example).
Defined.

Lemma get_log_stats_time_range_witness :
  exists all,
    snd (collect_entries Fixture.fs Fixture.a0 (selected_files Fixture.a0 None) [])
    = Ok all /\
    (all = [] -> earliest example_stats = None /\ latest example_stats = None /\
                 span_hours example_stats = None) /\
    (all <> [] ->
     exists mn mx,
       earliest_of mn (map sort_key all) /\ latest_of mx (map sort_key all) /\
       earliest example_stats = Some (isoformat mn) /\
       latest example_stats = Some (isoformat mx) /\
       span_hours example_stats <> None).
Proof.
  exact (get_log_stats_time_range (L := RefLib) Fixture.fs Fixture.a0 _ None _
           get_log_stats_example).
Defined.

(** ** Resource reader *)

Section ResourceFacts.
Context {L : PyLib}.
Variable fs : filesystem.
Variable json_dumps : pyval -> string.



(** X21.  For a catalogued file that opens and whose first 1000 lines parse or
    are skipped, the payload is the serialization of the entries of those
    lines, in file order, each without its derived timestamp. *)
Theorem read_resource_payload (a : analyzer) (uri : url) (info : file_info)
        (lines : list string) :
  url_scheme uri = "logs" -> resource_filename uri <> EmptyString ->
  dict_get (resource_filename uri) (log_files_cache a) = Some info ->
  fs_open fs (log_directory a) (fi_path info) = Some (map Some lines) ->
  Forall (fun l => exists r, parse_log_entry l = Ok r) (firstn 1000 lines) ->
  snd (read_resource fs json_dumps a uri)
  = Ok (json_dumps
          (PList (map pop_parsed_timestamp (entries_of_lines (firstn 1000 lines))))).
Proof.
  intros Hs Hn Hget Hopen Hall. unfold read_resource.
  rewrite Hs. cbn [String.eqb Ascii.eqb Bool.eqb negb].
  change (String.eqb "logs" "logs") with true. cbn [negb].
  destruct (resource_filename uri) as [|c name] eqn:En; [contradiction|].
  change resource_max_lines with 1000.
  destruct (read_log_file_readable fs a (String c name) (Some 1000) info lines
              Hget Hopen Hall) as (Hres & _).
  destruct (read_log_file fs a (String c name) (Some 1000)) as [a1 r].
  cbn [snd] in Hres. subst r. reflexivity.
Qed.

End ResourceFacts.

Lemma read_resource_payload_witness :
  snd (read_resource Fixture.fs (fun _ => "[...]") Fixture.a0
         (mkUrl "logs" (Some "/app.log")))
  = Ok "[...]" /\
  map pop_parsed_timestamp
      (entries_of_lines (firstn 1000 [Fixture.line_new; "not json"; Fixture.line_old]))
  = [PDict (fields Fixture.entry_new); PDict (fields Fixture.entry_old)].
Proof.
  split; [|reflexivity].
  assert (Hn : resource_filename (mkUrl "logs" (Some "/app.log")) <> EmptyString)
    by discriminate.
  refine (read_resource_payload (L := RefLib) Fixture.fs (fun _ => "[...]") Fixture.a0
            (mkUrl "logs" (Some "/app.log"))
            (mkFileInfo "/var/logs/app.log" "app.log" 250 "2024-01-02T10:00:00")
            [Fixture.line_new; "not json"; Fixture.line_old]
            eq_refl Hn eq_refl eq_refl _).
  repeat constructor; eexists; reflexivity.
Defined.

(** ** Calls in sequence *)

Section Repeatable.
Context {L : PyLib}.
Variable fs : filesystem.

Lemma read_cached_same (a b : analyzer) (name : string) (max_lines : option Z) :
  same_catalog a b ->
  snd (read_cached fs a name max_lines) = snd (read_cached fs b name max_lines) /\
  same_catalog (fst (read_cached fs a name max_lines))
               (fst (read_cached fs b name max_lines)).
Proof.
  intros [Hd Hc]. unfold read_cached. rewrite Hd, Hc.
  destruct (dict_get name (log_files_cache b)) as [info|]; [|split; [reflexivity | split; assumption]].
  destruct (fs_open fs (log_directory b) (fi_path info)) as [items|];
    [|split; [reflexivity | split; assumption]].
  destruct (read_lines name max_lines 0 items [] 0) as [n r].
  split; [reflexivity | split; reflexivity].
Qed.

Lemma collect_entries_same (files : list string) (a b : analyzer) (acc : list entry) :
  same_catalog a b ->
  Forall (fun n => dict_mem n (log_files_cache a) = true) files ->
  snd (collect_entries fs a files acc) = snd (collect_entries fs b files acc).
Proof.
  revert a b acc. induction files as [|n rest IH]; intros a b acc Hs Hall; [reflexivity|].
  inversion Hall as [|? ? Hn Hrest]; subst.
  assert (Hn' : dict_mem n (log_files_cache b) = true)
    by (destruct Hs as [_ <-]; exact Hn).
  cbn [collect_entries].
  rewrite (read_log_file_cached fs a n None Hn), (read_log_file_cached fs b n None Hn').
  destruct (read_cached_same a b n None Hs) as [Hr Hs'].
  destruct (read_cached fs a n None) as [a1 r1] eqn:E1.
  destruct (read_cached fs b n None) as [b1 r2] eqn:E2.
  cbn [fst snd] in Hr, Hs'. subst r2.
  assert (Hrest' : Forall (fun n => dict_mem n (log_files_cache a1) = true) rest).
  { destruct (read_cached_catalog fs a a1 n None r1 E1) as (Hc & _).
    rewrite Hc. exact Hrest. }
  destruct r1 as [es|x]; [apply IH; assumption|].
  destruct (file_error x); [apply IH; assumption | reflexivity].
Qed.

Lemma stats_files_same (files : list string) (a b : analyzer) (acc : stats_acc) :
  same_catalog a b ->
  Forall (fun n => dict_mem n (log_files_cache a) = true) files ->
  snd (stats_files fs a files acc) = snd (stats_files fs b files acc).
Proof.
  revert a b acc. induction files as [|n rest IH]; intros a b acc Hs Hall; [reflexivity|].
  inversion Hall as [|? ? Hn Hrest]; subst.
  assert (Hn' : dict_mem n (log_files_cache b) = true)
    by (destruct Hs as [_ <-]; exact Hn).
  cbn [stats_files].
  rewrite (read_log_file_cached fs a n None Hn), (read_log_file_cached fs b n None Hn').
  destruct (read_cached_same a b n None Hs) as [Hr Hs'].
  destruct (read_cached fs a n None) as [a1 r1] eqn:E1.
  destruct (read_cached fs b n None) as [b1 r2] eqn:E2.
  cbn [fst snd] in Hr, Hs'. subst r2.
  assert (Hrest' : Forall (fun n => dict_mem n (log_files_cache a1) = true) rest).
  { destruct (read_cached_catalog fs a a1 n None r1 E1) as (Hc & _).
    rewrite Hc. exact Hrest. }
  destruct r1 as [es|x].
  - destruct (stats_entries _ es) as [acc2 [y|]].
    + destruct (file_error y); [apply IH; assumption | reflexivity].
    + apply IH; assumption.
  - destruct (file_error x); [apply IH; assumption | reflexivity].
Qed.

(** Results of calls without a file list depend on the directory and the
    catalog only. *)
Lemma default_results_same (a b : analyzer) (f : query_filter) (limit : option Z)
      (group_by : option string) :
  same_catalog a b ->
  snd (query_logs fs a None f limit) = snd (query_logs fs b None f limit) /\
  snd (aggregate_logs fs a None group_by) = snd (aggregate_logs fs b None group_by) /\
  snd (get_log_stats fs a None) = snd (get_log_stats fs b None).
Proof.
  intros Hs. pose proof (catalogued_names a) as Hall.
  pose proof (collect_entries_same _ a b [] Hs Hall) as Hc.
  pose proof (stats_files_same _ a b acc_empty Hs Hall) as Ht.
  unfold query_logs, aggregate_logs, get_log_stats.
  assert (Hsel : selected_files a None = selected_files b None)
    by (destruct Hs as [_ Hc']; unfold selected_files; rewrite Hc'; reflexivity).
  rewrite <- Hsel.
  destruct (collect_entries fs a (selected_files a None) []) as [a1 r1].
  destruct (collect_entries fs b (selected_files a None) []) as [b1 r2].
  destruct (stats_files fs a (selected_files a None) acc_empty) as [a2 r3].
  destruct (stats_files fs b (selected_files a None) acc_empty) as [b2 r4].
  cbn [snd] in *. subst. auto.
Qed.

(** X22.  Calls without a file list do not disturb one another: after a query,
    an aggregation or a statistics call, each of the three gives what it
    would have given before it, as long as the directory is the same. *)
Theorem default_calls_repeatable (a : analyzer) (f f' : query_filter)
        (limit limit' : option Z) (group_by group_by' : option string) :
  let same_results (a1 : analyzer) :=
    snd (query_logs fs a1 None f' limit') = snd (query_logs fs a None f' limit') /\
    snd (aggregate_logs fs a1 None group_by') = snd (aggregate_logs fs a None group_by') /\
    snd (get_log_stats fs a1 None) = snd (get_log_stats fs a None) in
  same_results (fst (query_logs fs a None f limit)) /\
  same_results (fst (aggregate_logs fs a None group_by)) /\
  same_results (fst (get_log_stats fs a None)).
Proof.
  cbv zeta. pose proof (catalogued_names a) as Hall.
  destruct (collect_entries_keeps_catalog fs _ a [] Hall) as (H1 & _ & H2).
  destruct (stats_files_keeps_catalog fs _ a acc_empty Hall) as (H3 & _ & H4).
  assert (Sq : same_catalog (fst (query_logs fs a None f limit)) a).
  { unfold query_logs.
    destruct (collect_entries fs a (selected_files a None) []) as [a1 r1].
    split; assumption. }
  assert (Sa : same_catalog (fst (aggregate_logs fs a None group_by)) a).
  { unfold aggregate_logs.
    destruct (collect_entries fs a (selected_files a None) []) as [a1 r1].
    split; assumption. }
  assert (Ss : same_catalog (fst (get_log_stats fs a None)) a).
  { unfold get_log_stats.
    destruct (stats_files fs a (selected_files a None) acc_empty) as [a1 r1].
    split; assumption. }
  split; [|split]; apply default_results_same; assumption.
Qed.

End Repeatable.

(** ** Time bounds that do not parse *)

Section MalformedBound.
Context {L : PyLib}.
Variable fs : filesystem.



End MalformedBound.



(** ** Order of the catalog *)

Section CatalogOrder.
Context {L : PyLib}.
Variable fs : filesystem.

Lemma node_of_name (n1 n2 : node) :
  NoDup (map n_name (fs_nodes fs)) ->
  In n1 (fs_nodes fs) -> In n2 (fs_nodes fs) -> n_name n1 = n_name n2 -> n1 = n2.
Proof.
  induction (fs_nodes fs) as [|n l IH]; intros Hnd H1 H2 He; [destruct H1|].
  cbn [map] in Hnd. inversion Hnd as [|? ? Hnot Hrest]; subst.
  destruct H1 as [<- | H1], H2 as [<- | H2].
  - reflexivity.
  - exfalso. apply Hnot. rewrite He. apply in_map. exact H2.
  - exfalso. apply Hnot. rewrite <- He. apply in_map. exact H1.
  - apply IH; assumption.
Qed.

(** Where the local rendering of modification times keeps their order, the
    list is newest first: no descriptor is followed by the descriptor of a
    file modified later. *)
Lemma get_log_files_newest_first (a a' : analyzer) (l : list file_info) :
  (forall t1 t2, t1 < t2 ->
     String.ltb (isoformat (fromtimestamp t1)) (isoformat (fromtimestamp t2)) = true) ->
  NoDup (map n_name (fs_nodes fs)) ->
  get_log_files fs a = (a', l) ->
  Sorted (fun x y =>
            forall nx ny, In nx (fs_nodes fs) -> In ny (fs_nodes fs) ->
                          n_name nx = fi_name x -> n_name ny = fi_name y ->
                          n_mtime ny <= n_mtime nx) l.
Proof.
  intros Hmono Hnd Hget.
  destruct (get_log_files_lists_directory fs a a' l Hnd Hget) as (_ & _ & _ & H).
  destruct (fs_dir_exists fs); [|destruct H as [-> _]; constructor].
  destruct H as (_ & Hin & Hsorted & _).
  apply (Sorted_impl (fun x y => String.leb (fi_modified y) (fi_modified x) = true));
    [|exact Hsorted].
  intros x y Hx Hy Hle nx ny Inx Iny Ex Ey.
  apply Hin in Hx. destruct Hx as (mx & Imx & _ & _ & Nx & _ & Mx & _).
  apply Hin in Hy. destruct Hy as (my & Imy & _ & _ & Ny & _ & My & _).
  assert (nx = mx) by (apply node_of_name; congruence). subst mx.
  assert (ny = my) by (apply node_of_name; congruence). subst my.
  destruct (Z.le_gt_cases (n_mtime ny) (n_mtime nx)) as [Hok|Hlt]; [exact Hok|].
  exfalso. specialize (Hmono _ _ Hlt). rewrite <- Mx, <- My in Hmono.
  revert Hle Hmono. unfold String.leb, String.ltb.
  rewrite (String.compare_antisym (fi_modified x) (fi_modified y)).
  destruct (String.compare (fi_modified y) (fi_modified x)); cbn; congruence.
Qed.

End CatalogOrder.

(** C7 (the code departs from the claim).  The list is ordered by the text
    of the local time of modification, not by the modification time.  In a
    zone with daylight saving time, a file written at 00:30 UTC shows
    02:30 and a file written forty minutes later, after the clocks went
    back, shows 02:10: [get_log_files] lists the older file first.  Read
    in UTC, the same directory is listed newest first. *)
Theorem get_log_files_older_first_when_clocks_go_back :
  n_mtime Dst.older < n_mtime Dst.newer /\
  map (fun f => (fi_name f, fi_modified f)) (snd (@get_log_files Dst.lib Dst.fs Dst.a0))
  = [("older.log", "2023-10-29T02:30:00"); ("newer.log", "2023-10-29T02:10:00")] /\
  map fi_name (snd (@get_log_files RefLib Dst.fs (@init RefLib Dst.fs "/var/logs")))
  = ["newer.log"; "older.log"].
Proof. split; [reflexivity|]. split; reflexivity. Qed.
